(** * Google Scholar MCP: a shallow embedding of the harvesting core

    The development follows the TypeScript sources:
    - [utils/helpers]   text helpers, pacing, back-off, block detection;
    - [utils/cache]     the TTL cache [ScholarCache];
    - [providers/serpapi] the alternate provider;
    - [scraper/scholar] [fetchPage], the extractors and the operations.

    Conventions.  JavaScript numbers that the code uses as integers
    (milliseconds, counts, offsets, years) are [Z].  Strings are
    [string] (one-byte characters); [\s] and [toLowerCase] are
    therefore the ASCII fragments of the JavaScript ones.  A value
    that may be [undefined] is an [option]. *)

From Stdlib Require Import ZArith Lia Bool List Ascii String DecimalString.
From stdpp Require Import base option list gmap strings.

Local Open Scope string_scope.
Local Open Scope Z_scope.

(** ** JavaScript string primitives used by the helpers *)

Module Js.

(** The code points matched by [\s] (and stripped by [trim]) below 128. *)
Definition isWhiteSpace (c : ascii) : bool :=
  let n := nat_of_ascii c in
  ((9 <=? n)%nat && (n <=? 13)%nat) || (n =? 32)%nat.

Definition isDigit (c : ascii) : bool :=
  let n := nat_of_ascii c in (48 <=? n)%nat && (n <=? 57)%nat.

(** [\w]: letters, digits and the underscore. *)
Definition isWordChar (c : ascii) : bool :=
  let n := nat_of_ascii c in
  isDigit c || ((65 <=? n)%nat && (n <=? 90)%nat)
            || ((97 <=? n)%nat && (n <=? 122)%nat) || (n =? 95)%nat.

Definition toLowerChar (c : ascii) : ascii :=
  let n := nat_of_ascii c in
  if ((65 <=? n)%nat && (n <=? 90)%nat)%bool then ascii_of_nat (n + 32) else c.

(** [s.toLowerCase()] *)
Fixpoint toLowerCase (s : string) : string :=
  match s with
  | EmptyString => EmptyString
  | String c s' => String (toLowerChar c) (toLowerCase s')
  end.

(** [s.startsWith(p)] *)
Fixpoint startsWith (p s : string) : bool :=
  match p, s with
  | EmptyString, _ => true
  | String _ _, EmptyString => false
  | String a p', String b s' => if ascii_dec a b then startsWith p' s' else false
  end.

(** [s.includes(sub)] *)
Fixpoint includes (sub s : string) : bool :=
  startsWith sub s ||
  match s with
  | EmptyString => false
  | String _ s' => includes sub s'
  end.

(** [s.replace(/\s+/g, ' ')]; [inRun] tells that the previous character
    was white space, already replaced. *)
Fixpoint collapseSpaces (inRun : bool) (s : string) : string :=
  match s with
  | EmptyString => EmptyString
  | String c s' =>
      if isWhiteSpace c
      then (if inRun then collapseSpaces true s'
            else String " " (collapseSpaces true s'))
      else String c (collapseSpaces false s')
  end.

Fixpoint trimStart (s : string) : string :=
  match s with
  | EmptyString => EmptyString
  | String c s' => if isWhiteSpace c then trimStart s' else s
  end.

Fixpoint trimEnd (s : string) : string :=
  match s with
  | EmptyString => EmptyString
  | String c s' =>
      match trimEnd s' with
      | EmptyString => if isWhiteSpace c then EmptyString else String c EmptyString
      | t => String c t
      end
  end.

(** [s.trim()] *)
Definition trim (s : string) : string := trimEnd (trimStart s).

(** [s.replace(/\D/g, '')] *)
Fixpoint keepDigits (s : string) : string :=
  match s with
  | EmptyString => EmptyString
  | String c s' => if isDigit c then String c (keepDigits s') else keepDigits s'
  end.

Definition digitVal (c : ascii) : Z := Z.of_nat (nat_of_ascii c) - 48.

(** The longest prefix of decimal digits of [s], and what follows it. *)
Fixpoint spanDigits (s : string) : string * string :=
  match s with
  | EmptyString => (EmptyString, EmptyString)
  | String c s' =>
      if isDigit c then let '(d, r) := spanDigits s' in (String c d, r)
      else (EmptyString, s)
  end.

Fixpoint digitsValue (acc : Z) (s : string) : Z :=
  match s with
  | EmptyString => acc
  | String c s' => digitsValue (10 * acc + digitVal c) s'
  end.

(** [parseInt(s, 10)]: optional leading white space and sign, then the
    longest run of digits; [None] stands for [NaN].  The value is the
    exact integer (a double is exact up to 2^53). *)
Definition parseInt (s : string) : option Z :=
  let t := trimStart s in
  let '(neg, u) :=
    match t with
    | String "-" u => (true, u)
    | String "+" u => (false, u)
    | _ => (false, t)
    end in
  match fst (spanDigits u) with
  | EmptyString => None
  | d => Some (if neg : bool then - digitsValue 0 d else digitsValue 0 d)
  end.

(** [n.toString()] for an integer. *)
Definition toString (n : Z) : string := NilZero.string_of_int (Z.to_int n).

(** [a || b] on strings: the empty string is falsy. *)
Definition orStr (a b : string) : string :=
  match a with EmptyString => b | _ => a end.

(** [s || undefined] *)
Definition strOrUndefined (s : string) : option string :=
  match s with EmptyString => None | _ => Some s end.

(** [n || undefined] on a number: [0] and [NaN] are falsy. *)
Definition numOrUndefined (n : option Z) : option Z :=
  match n with
  | Some k => if k =? 0 then None else Some k
  | None => None
  end.

(** [n || d] on a number. *)
Definition numOr (n : option Z) (d : Z) : Z :=
  match numOrUndefined n with Some k => k | None => d end.

End Js.

(** ** utils/helpers: text parsing *)

(** [cleanText]: the callers pass the [text()] of a selection, which is
    always a string. *)
Definition cleanText (text : string) : string :=
  match text with
  | EmptyString => EmptyString
  | _ => Js.trim (Js.collapseSpaces false text)
  end.

(** ** types: errors *)

Inductive ScholarErrorCode : Type :=
| RATE_LIMITED
| CAPTCHA_REQUIRED
| NOT_FOUND
| PARSE_ERROR
| NETWORK_ERROR
| INVALID_INPUT
| BLOCKED.

#[global] Instance ScholarErrorCode_eq_dec : EqDecision ScholarErrorCode.
Proof. solve_decision. Defined.

Record ScholarError : Type := mkScholarError {
  message : string;
  code : ScholarErrorCode;
  details : option string
}.

(** ** config *)

Module Config.
Record t : Type := mk {
  cacheEnabled : bool;
  cacheTtlMs : Z;
  serpApiKey : option string;
  useSerpApiFallback : bool
}.
End Config.

(** ** utils/cache: [ScholarCache] *)

Module ScholarCache.
Section Cache.
Context {T : Type}.

Record CacheEntry : Type := mkEntry {
  data : T;
  timestamp : Z;
  ttl : Z
}.

(** The private [Map<string, CacheEntry>]. *)
Abbreviation store := (gmap string CacheEntry).

Definition expired (now : Z) (entry : CacheEntry) : bool :=
  now - timestamp entry >? ttl entry.

(** [get(key)], with [now] the value of [Date.now()]; the result is the
    value returned ([None] for [null]) and the map afterwards. *)
Definition get (config : Config.t) (now : Z) (key : string) (cache : store)
  : option T * store :=
  if negb (Config.cacheEnabled config) then (None, cache)
  else match cache !! key with
       | None => (None, cache)
       | Some entry =>
           if expired now entry then (None, delete key cache)
           else (Some (data entry), cache)
       end.

(** [set(key, data, ttl?)] *)
Definition set (config : Config.t) (now : Z) (key : string) (d : T)
    (ttl' : option Z) (cache : store) : store :=
  if negb (Config.cacheEnabled config) then cache
  else <[key := {| data := d; timestamp := now;
                   ttl := default (Config.cacheTtlMs config) ttl' |}]> cache.

(** [delete(key)] *)
Definition delete_ (key : string) (cache : store) : bool * store :=
  (bool_decide (is_Some (cache !! key)), delete key cache).

(** [clear()] *)
Definition clear (cache : store) : store := ∅.

(** One tick of the periodic sweep installed by [startCleanup]. *)
Definition cleanup (now : Z) (cache : store) : store :=
  filter (fun kv => expired now kv.2 = false) cache.

End Cache.
Arguments CacheEntry : clear implicits.
Abbreviation store T := (gmap string (CacheEntry T)).
End ScholarCache.

(** ** utils/helpers: regular-expression helpers

    Each pattern of the helpers is written as a matcher that is tried at
    every position from the left, as [String.prototype.match] does. *)

Module Re.

(** The first position (from the left) at which [m] matches. *)
Fixpoint search {A : Type} (m : string -> option A) (s : string) : option A :=
  match m s with
  | Some a => Some a
  | None =>
      match s with
      | EmptyString => None
      | String _ s' => search m s'
      end
  end.

(** [s] without its prefix [p], when [p] is a prefix. *)
Fixpoint stripPrefix (p s : string) : option string :=
  match p, s with
  | EmptyString, _ => Some s
  | String _ _, EmptyString => None
  | String a p', String b s' => if ascii_dec a b then stripPrefix p' s' else None
  end.

(** as [stripPrefix], ignoring case (flag [i]); [p] is in lower case. *)
Fixpoint stripPrefixI (p s : string) : option string :=
  match p, s with
  | EmptyString, _ => Some s
  | String _ _, EmptyString => None
  | String a p', String b s' =>
      if ascii_dec a (Js.toLowerChar b) then stripPrefixI p' s' else None
  end.

(** [(\d+)] at the head of [s]: the digits and the rest. *)
Definition digits1 (s : string) : option (string * string) :=
  match Js.spanDigits s with
  | (EmptyString, _) => None
  | (d, r) => Some (d, r)
  end.

(** [lit(\d+)] at the head of [s]. *)
Definition litDigits (lit s : string) : option string :=
  r ← stripPrefix lit s; fst <$> digits1 r.

(** [s.split(sep)] for a non-empty separator; [cur] is the piece being
    read, reversed, and [skip] the number of characters of a separator
    just recognised that are still to be passed. *)
Fixpoint splitGo (sep : string) (skip : nat) (cur : string) (s : string)
  : list string :=
  match s with
  | EmptyString => [String.rev cur]
  | String c s' =>
      match skip with
      | S k => splitGo sep k cur s'
      | O =>
          if Js.startsWith sep s
          then String.rev cur :: splitGo sep (String.length sep - 1) EmptyString s'
          else splitGo sep O (String c cur) s'
      end
  end.

Definition split (sep s : string) : list string := splitGo sep O EmptyString s.

End Re.

(** ** utils/helpers: text parsing (continued) *)

(** The double quote, for the [author:] operator. *)
Definition dquote : string := String (ascii_of_nat 34) EmptyString.

(** [/\b(19|20)\d{2}\b/] at the head of [s] (the boundary before it is
    checked by the caller). *)
Definition yearAt (s : string) : option string :=
  match s with
  | String a (String b (String c (String d rest))) =>
      let century :=
        (bool_decide (a = "1"%char) && bool_decide (b = "9"%char))
        || (bool_decide (a = "2"%char) && bool_decide (b = "0"%char)) in
      let boundary :=
        match rest with
        | EmptyString => true
        | String e _ => negb (Js.isWordChar e)
        end in
      if century && Js.isDigit c && Js.isDigit d && boundary
      then Some (String a (String b (String c (String d EmptyString))))
      else None
  | _ => None
  end.

Fixpoint searchYear (prevWord : bool) (s : string) : option string :=
  match (if prevWord then None else yearAt s) with
  | Some y => Some y
  | None =>
      match s with
      | EmptyString => None
      | String c s' => searchYear (Js.isWordChar c) s'
      end
  end.

(** [extractYear] *)
Definition extractYear (text : string) : option Z :=
  y ← searchYear false text; Js.parseInt y.

(** [extractCitationCount]: [/Cited by (\d+)/i] *)
Definition extractCitationCount (text : string) : option Z :=
  d ← Re.search (fun s => r ← Re.stripPrefixI "cited by " s; fst <$> Re.digits1 r) text;
  Js.parseInt d.

(** [extractClusterId]: [/cluster=(\d+)|cites=(\d+)/] *)
Definition extractClusterId (url : string) : option string :=
  Re.search (fun s =>
    match Re.litDigits "cluster=" s with
    | Some d => Some d
    | None => Re.litDigits "cites=" s
    end) url.

(** [parseAuthors] *)
Definition parseAuthors (authorStr : string) : list string :=
  match authorStr with
  | EmptyString => []
  | _ => filter (fun a => a <> EmptyString) (map cleanText (Re.split "," authorStr))
  end.

(** [s.replace(/\d{4}/, '')]: the first four consecutive digits go. *)
Fixpoint dropFourDigits (s : string) : string :=
  match s with
  | String a (String b (String c (String d rest))) =>
      if Js.isDigit a && Js.isDigit b && Js.isDigit c && Js.isDigit d then rest
      else match s with
           | String x s' => String x (dropFourDigits s')
           | EmptyString => EmptyString
           end
  | _ => s
  end.

(** [s.replace(/^,|,$/g, '')] *)
Definition stripCommas (s : string) : string :=
  let t := match s with String "," t => t | _ => s end in
  match String.rev t with
  | String "," r => String.rev r
  | _ => t
  end.

(** [s.replace(/,/g, '')] *)
Fixpoint dropCommas (s : string) : string :=
  match s with
  | EmptyString => EmptyString
  | String c s' => if bool_decide (c = ","%char) then dropCommas s' else String c (dropCommas s')
  end.

(** ** utils/helpers: block detection *)

Definition rateLimitIndicators : list string :=
  [ "unusual traffic"; "automated requests"; "please show you"; "robot";
    "captcha"; "recaptcha"; "sorry, we can't"; "systems have detected" ].

(** [isRateLimited] *)
Definition isRateLimited (html : string) : bool :=
  let lowerHtml := Js.toLowerCase html in
  existsb (fun indicator => Js.includes indicator lowerHtml) rateLimitIndicators.

Definition blockIndicators : list string :=
  [ "access denied"; "forbidden"; "403"; "blocked" ].

(** [isBlocked] *)
Definition isBlocked (html : string) : bool :=
  let lowerHtml := Js.toLowerCase html in
  existsb (fun indicator => Js.includes indicator lowerHtml) blockIndicators.


(** ** utils/helpers: pacing configuration and back-off *)

Record RateLimitConfig : Type := mkRateLimitConfig {
  minDelay : Z;
  maxDelay : Z;
  maxRetries : Z;
  backoffMultiplier : Z
}.

(** [Partial<RateLimitConfig>] *)
Record PartialRateLimitConfig : Type := mkPartialRateLimitConfig {
  minDelay' : option Z;
  maxDelay' : option Z;
  maxRetries' : option Z;
  backoffMultiplier' : option Z
}.

Definition DEFAULT_RATE_LIMIT_CONFIG : RateLimitConfig :=
  {| minDelay := 1000; maxDelay := 5000; maxRetries := 3; backoffMultiplier := 2 |}.

(** [{ ...DEFAULT_RATE_LIMIT_CONFIG, ...config }] *)
Definition mergeRateLimitConfig (config : option PartialRateLimitConfig) : RateLimitConfig :=
  match config with
  | None => DEFAULT_RATE_LIMIT_CONFIG
  | Some c =>
      {| minDelay := default (minDelay DEFAULT_RATE_LIMIT_CONFIG) (minDelay' c);
         maxDelay := default (maxDelay DEFAULT_RATE_LIMIT_CONFIG) (maxDelay' c);
         maxRetries := default (maxRetries DEFAULT_RATE_LIMIT_CONFIG) (maxRetries' c);
         backoffMultiplier :=
           default (backoffMultiplier DEFAULT_RATE_LIMIT_CONFIG) (backoffMultiplier' c) |}
  end.

(** [getBackoffDelay(attempt, config?)]; [attempt] is a retry count. *)
Definition getBackoffDelay (attempt : nat) (config : option PartialRateLimitConfig) : Z :=
  let cfg := mergeRateLimitConfig config in
  let delay := minDelay cfg * Z.pow (backoffMultiplier cfg) (Z.of_nat attempt) in
  Z.min delay (maxDelay cfg * 10).

(** [getRandomDelay(min, max)], with [r] the numerator over 2^53 of the
    value drawn by [Math.random()] (so [0 <= r < 2^53]):
    [floor(random * (max - min + 1) + min)]. *)
Definition getRandomDelay (r : Z) (min max : Z) : Z :=
  (r * (max - min + 1)) / 2 ^ 53 + min.

(** ** utils/helpers: URLs

    A URL is kept as the [URL] object the builders fill: its path and the
    search parameters in the order they are set (each key is set once). *)

Record Url : Type := mkUrl {
  pathname : string;
  searchParams : list (string * string)
}.

#[global] Instance Url_eq_dec : EqDecision Url.
Proof. solve_decision. Defined.

Inductive SortBy : Type := relevance | date.

#[global] Instance SortBy_eq_dec : EqDecision SortBy.
Proof. solve_decision. Defined.

(** [if (cond) url.searchParams.set(k, v)] *)
Definition setIf (cond : bool) (k v : string) : list (string * string) :=
  if cond then [(k, v)] else [].

(** a number that is neither [undefined] nor [0] *)
Definition truthyNum (n : option Z) : bool :=
  match n with Some k => negb (k =? 0) | None => false end.

Definition truthyStr (s : option string) : bool :=
  match s with Some EmptyString | None => false | Some _ => true end.

Module SearchUrlParams.
Record t : Type := mk {
  query : option string;
  author : option string;
  yearStart : option Z;
  yearEnd : option Z;
  start : option Z;
  sortBy : option SortBy;
  includePatents : option bool;
  includeCitations : option bool;
  language : option string
}.
End SearchUrlParams.

(** [buildSearchUrl] *)
Definition buildSearchUrl (params : SearchUrlParams.t) : Url :=
  let q0 := Js.orStr (default EmptyString (SearchUrlParams.query params)) EmptyString in
  let q :=
    if truthyStr (SearchUrlParams.author params)
    then Js.trim ("author:" +:+ dquote +:+ default EmptyString (SearchUrlParams.author params)
                  +:+ dquote +:+ " " +:+ q0)
    else q0 in
  {| pathname := "/scholar";
     searchParams :=
       setIf (negb (bool_decide (q = EmptyString))) "q" q
       ++ setIf (truthyNum (SearchUrlParams.yearStart params)) "as_ylo"
            (Js.toString (default 0 (SearchUrlParams.yearStart params)))
       ++ setIf (truthyNum (SearchUrlParams.yearEnd params)) "as_yhi"
            (Js.toString (default 0 (SearchUrlParams.yearEnd params)))
       ++ setIf (truthyNum (SearchUrlParams.start params)) "start"
            (Js.toString (default 0 (SearchUrlParams.start params)))
       ++ setIf (bool_decide (SearchUrlParams.sortBy params = Some date)) "scisbd" "1"
       ++ [("hl", Js.orStr (default EmptyString (SearchUrlParams.language params)) "en")]
       ++ setIf (bool_decide (SearchUrlParams.includePatents params = Some false))
            "as_sdt" "0,5" |}.

(** [buildAuthorSearchUrl] *)
Definition buildAuthorSearchUrl (query : string) (organization : option string) : Url :=
  let mauthors :=
    if truthyStr organization
    then query +:+ " label:" +:+ default EmptyString organization
    else query in
  {| pathname := "/citations";
     searchParams := [("view_op", "search_authors"); ("mauthors", mauthors); ("hl", "en")] |}.

(** [buildAuthorProfileUrl] *)
Definition buildAuthorProfileUrl (scholarId : string) : Url :=
  {| pathname := "/citations"; searchParams := [("user", scholarId); ("hl", "en")] |}.

(** [buildCitationUrl] *)
Definition buildCitationUrl (clusterId : string) (start : option Z) (sortBy : option SortBy)
  : Url :=
  {| pathname := "/scholar";
     searchParams :=
       [("cites", clusterId); ("hl", "en")]
       ++ setIf (truthyNum start) "start" (Js.toString (default 0 start))
       ++ setIf (bool_decide (sortBy = Some date)) "scisbd" "1" |}.

(** [url.toString()]: what the scraper prefixes to relative links. *)
Definition SCHOLAR_BASE_URL : string := "https://scholar.google.com".

(** ** types: canonical records *)

Inductive PublicationSource : Type :=
| PUBLICATION_SEARCH | AUTHOR_PROFILE | CITATION | RELATED | VERSION
| ADVANCED_SEARCH | SERPAPI.

Module Publication.
Record t : Type := mk {
  title : string;
  authors : list string;
  year : option Z;
  venue : option string;
  abstract : option string;
  citationCount : option Z;
  url : option string;
  pdfUrl : option string;
  clusterId : option string;
  citedByUrl : option string;
  relatedUrl : option string;
  versionsUrl : option string;
  citesId : option string;
  versionsCount : option Z;
  eprintUrl : option string;
  source : option PublicationSource
}.

(** [pub.source = s] *)
Definition set_source (s : PublicationSource) (p : t) : t :=
  mk (title p) (authors p) (year p) (venue p) (abstract p) (citationCount p)
     (url p) (pdfUrl p) (clusterId p) (citedByUrl p) (relatedUrl p)
     (versionsUrl p) (citesId p) (versionsCount p) (eprintUrl p) (Some s).

(** [pub.clusterId = c] *)
Definition set_clusterId (c : string) (p : t) : t :=
  mk (title p) (authors p) (year p) (venue p) (abstract p) (citationCount p)
     (url p) (pdfUrl p) (Some c) (citedByUrl p) (relatedUrl p)
     (versionsUrl p) (citesId p) (versionsCount p) (eprintUrl p) (source p).
End Publication.

Module AuthorSnippet.
Record t : Type := mk {
  scholarId : string;
  name : string;
  affiliation : option string;
  emailDomain : option string;
  interests : option (list string);
  citationCount : option Z;
  url : option string;
  imageUrl : option string
}.
End AuthorSnippet.

Module CoAuthor.
Record t : Type := mk {
  scholarId : string;
  name : string;
  affiliation : option string
}.
End CoAuthor.

Module CitationsByYear.
(** [citations] is [None] when the bar text does not parse ([NaN]). *)
Record t : Type := mk {
  year : Z;
  citations : option Z
}.
End CitationsByYear.

Module Author.
Record t : Type := mk {
  scholarId : string;
  name : string;
  affiliation : option string;
  emailDomain : option string;
  interests : option (list string);
  citationCount : option Z;
  hIndex : option Z;
  hIndex5y : option Z;
  i10Index : option Z;
  i10Index5y : option Z;
  url : Url;
  imageUrl : option string;
  homepage : option string;
  publications : list Publication.t;
  coauthors : option (list CoAuthor.t);
  citationsByYear : option (list CitationsByYear.t)
}.
End Author.

(** ** types: options and results of the operations *)

Module PublicationSearchOptions.
Record t : Type := mk {
  query : string;
  author : option string;
  yearStart : option Z;
  yearEnd : option Z;
  numResults : option Z;
  startIndex : option Z;
  sortBy : option SortBy;
  includePatents : option bool;
  includeCitations : option bool;
  language : option string
}.
End PublicationSearchOptions.

Module Filters.
Record t : Type := mk {
  author : option string;
  source : option string;
  yearRange : option string;
  language : option string;
  includePatents : option bool;
  reviewArticlesOnly : option bool;
  sortBy : option SortBy
}.
End Filters.

Module PublicationSearchResult.
Record t : Type := mk {
  query : string;
  totalResults : option Z;
  filters : option Filters.t;
  publications : list Publication.t;
  hasMore : option bool;
  nextStartIndex : option Z
}.
End PublicationSearchResult.

Module AuthorSearchOptions.
Record t : Type := mk {
  query : string;
  organization : option string;
  numResults : option Z
}.
End AuthorSearchOptions.

Module AuthorSearchResult.
Record t : Type := mk {
  query : string;
  totalResults : option Z;
  authors : list AuthorSnippet.t;
  hasMore : option bool
}.
End AuthorSearchResult.

Module CitationSearchOptions.
Record t : Type := mk {
  clusterId : string;
  numResults : option Z;
  startIndex : option Z;
  sortBy : option SortBy
}.
End CitationSearchOptions.

Module CitationSearchResult.
(** [originalPublication] is [{ title; clusterId }]. *)
Record t : Type := mk {
  originalPublication : option (string * string);
  totalCitations : option Z;
  citations : list Publication.t;
  hasMore : option bool;
  nextStartIndex : option Z
}.
End CitationSearchResult.

Module AdvancedSearchOptions.
Record t : Type := mk {
  query : string;
  author : option string;
  source : option string;
  yearStart : option Z;
  yearEnd : option Z;
  language : option string;
  includePatents : option bool;
  reviewArticlesOnly : option bool;
  numResults : option Z;
  sortBy : option SortBy
}.
End AdvancedSearchOptions.

(** ** JavaScript arrays *)

Module Arr.
(** [arr.slice(0, n)]: a negative [n] counts from the end. *)
Definition slice0 {A : Type} (n : Z) (l : list A) : list A :=
  if n <? 0 then take (Z.to_nat (Z.of_nat (length l) + n)) l
  else take (Z.to_nat n) l.

(** [arr.length >= n] *)
Definition lengthGe {A : Type} (l : list A) (n : Z) : bool :=
  n <=? Z.of_nat (length l).

(** [arr.length < n] *)
Definition lengthLt {A : Type} (l : list A) (n : Z) : bool :=
  Z.of_nat (length l) <? n.
End Arr.

(** ** cheerio

    The scraper reads a page only through selector queries.  A loaded
    document is the record of the selections those queries return; an
    element keeps its text content and the attributes that are read. *)

Module Cheerio.
Record Element : Type := mkElement {
  el_text : string;
  el_href : option string;
  el_src : option string
}.

Definition Selection : Type := list Element.

(** [sel.text()]: the texts of all the matched elements, joined. *)
Definition text (sel : Selection) : string :=
  foldr (fun e acc => el_text e +:+ acc) EmptyString sel.

(** [sel.attr('href')]: the attribute of the first matched element. *)
Definition href (sel : Selection) : option string := e ← head sel; el_href e.

Definition src (sel : Selection) : option string := e ← head sel; el_src e.

(** [sel.eq(i)] *)
Definition eq (i : nat) (sel : Selection) : Selection :=
  match sel !! i with Some e => [e] | None => [] end.

(** [sel.first()] *)
Definition first (sel : Selection) : Selection := take 1 sel.

(** [sel.filter((_, a) => $(a).text().includes(word))] *)
Definition withText (word : string) (sel : Selection) : Selection :=
  filter (fun a => Js.includes word (el_text a) = true) sel.

(** An element matched by [.gs_r.gs_or.gs_scl]. *)
Record ResultCard : Type := mkResultCard {
  gs_rt_a : Selection;      (* .gs_rt a *)
  gs_rt : Selection;        (* .gs_rt *)
  gs_a : Selection;         (* .gs_a *)
  gs_rs : Selection;        (* .gs_rs *)
  gs_fl_a : Selection;      (* .gs_fl a *)
  gs_or_ggsm_a : Selection; (* .gs_or_ggsm a *)
  gs_ggs_a : Selection      (* .gs_ggs a *)
}.

(** An element matched by [.gsc_1usr]. *)
Record AuthorCard : Type := mkAuthorCard {
  gs_ai_name_a : Selection;
  gs_ai_aff : Selection;
  gs_ai_eml : Selection;
  gs_ai_int : Selection;
  gs_ai_cby : Selection;
  gs_ai_pho_img : Selection
}.

(** An element matched by [#gsc_a_b .gsc_a_tr]. *)
Record ProfileRow : Type := mkProfileRow {
  gsc_a_at : Selection;
  gs_gray : Selection;
  gsc_a_c_a : Selection
}.

(** An element matched by [#gsc_rsb_co .gsc_rsb_a]. *)
Record CoauthorItem : Type := mkCoauthorItem {
  co_a : Selection;
  gsc_rsb_a_ext : Selection
}.

(** The document, [$]. *)
Record API : Type := mkAPI {
  gs_r : list ResultCard;          (* .gs_r.gs_or.gs_scl *)
  gs_ab_mdw : Selection;           (* #gs_ab_md .gs_ab_mdw *)
  gsc_1usr : list AuthorCard;      (* .gsc_1usr *)
  gsc_prf_in : Selection;          (* #gsc_prf_in *)
  gsc_prf_il : Selection;          (* .gsc_prf_il *)
  gsc_prf_ivh : Selection;         (* #gsc_prf_ivh *)
  gsc_prf_ivh_a : Selection;       (* #gsc_prf_ivh a *)
  gsc_prf_int_a : Selection;       (* #gsc_prf_int a *)
  gsc_rsb_std : Selection;         (* #gsc_rsb_st td.gsc_rsb_std *)
  gsc_a_tr : list ProfileRow;      (* #gsc_a_b .gsc_a_tr *)
  gsc_rsb_a : list CoauthorItem;   (* #gsc_rsb_co .gsc_rsb_a *)
  gsc_g_t : Selection;             (* .gsc_md_hist_b .gsc_g_t *)
  gsc_g_al : Selection;            (* .gsc_md_hist_b .gsc_g_al *)
  gsc_prf_pup_img : Selection      (* #gsc_prf_pup-img *)
}.
End Cheerio.

(** ** scraper/scholar: extraction *)

(** [link ? `${SCHOLAR_BASE_URL}${link}` : undefined] *)
Definition absoluteUrl (link : option string) : option string :=
  if truthyStr link then Some (SCHOLAR_BASE_URL +:+ default EmptyString link) else None.

(** [s.match(/\d+/)?.[0]] *)
Definition firstDigits (s : string) : option string :=
  Re.search (fun t => fst <$> Re.digits1 t) s.

(** [o || undefined] on an optional string *)
Definition optOrUndefined (o : option string) : option string :=
  o ≫= Js.strOrUndefined.

(** The body of the [each] callback of [parsePublicationResults]:
    [None] when the card is skipped. *)
Definition parsePublicationCard (el : Cheerio.ResultCard) : option Publication.t :=
  let titleEl := Cheerio.gs_rt_a el in
  let title := Js.orStr (cleanText (Cheerio.text titleEl))
                        (cleanText (Cheerio.text (Cheerio.gs_rt el))) in
  let url := Cheerio.href titleEl in
  if bool_decide (title = EmptyString) then None
  else
    let metaText := cleanText (Cheerio.text (Cheerio.gs_a el)) in
    let metaParts := Re.split " - " metaText in
    let authors := parseAuthors (Js.orStr (nth 0 metaParts EmptyString) EmptyString) in
    let venueYear := Js.orStr (nth 1 metaParts EmptyString) EmptyString in
    let year := extractYear venueYear in
    let venue := Js.trim (stripCommas (Js.trim (dropFourDigits venueYear))) in
    let abstract := cleanText (Cheerio.text (Cheerio.gs_rs el)) in
    let citedBy := Cheerio.withText "Cited by" (Cheerio.gs_fl_a el) in
    let citedByText := cleanText (Cheerio.text citedBy) in
    let citationCount := extractCitationCount citedByText in
    let citedByLink := Cheerio.href citedBy in
    let citedByUrl := absoluteUrl citedByLink in
    let clusterId :=
      if truthyStr citedByLink then extractClusterId (default EmptyString citedByLink)
      else None in
    let relatedLink := Cheerio.href (Cheerio.withText "Related" (Cheerio.gs_fl_a el)) in
    let relatedUrl := absoluteUrl relatedLink in
    let versionsLink := Cheerio.withText "versions" (Cheerio.gs_fl_a el) in
    let versionsText := cleanText (Cheerio.text versionsLink) in
    let versionsCount :=
      match versionsText with
      | EmptyString => None
      | _ => Js.parseInt (Js.orStr (default EmptyString (firstDigits versionsText)) "0")
      end in
    let versionsUrl := absoluteUrl (Cheerio.href versionsLink) in
    let pdfLink := Cheerio.href (Cheerio.gs_or_ggsm_a el) in
    let eprintUrl := Cheerio.href (Cheerio.gs_ggs_a el) in
    Some {| Publication.title := title;
            Publication.authors := authors;
            Publication.year := year;
            Publication.venue := Js.strOrUndefined venue;
            Publication.abstract := Js.strOrUndefined abstract;
            Publication.citationCount := citationCount;
            Publication.url := optOrUndefined url;
            Publication.pdfUrl := optOrUndefined pdfLink;
            Publication.clusterId := clusterId;
            Publication.citedByUrl := citedByUrl;
            Publication.relatedUrl := relatedUrl;
            Publication.versionsUrl := versionsUrl;
            Publication.citesId := None;
            Publication.versionsCount := versionsCount;
            Publication.eprintUrl := optOrUndefined eprintUrl;
            Publication.source := Some PUBLICATION_SEARCH |}.

(** [parsePublicationResults]: the cards in document order, each one
    either pushed or skipped. *)
Definition parsePublicationResults (doc : Cheerio.API) : list Publication.t :=
  omap parsePublicationCard (Cheerio.gs_r doc).

(** [path.match(/user=([^&]+)/)]: the captured group. *)
Fixpoint spanNotAmp (s : string) : string :=
  match s with
  | EmptyString => EmptyString
  | String c s' => if bool_decide (c = "&"%char) then EmptyString else String c (spanNotAmp s')
  end.

Definition matchUser (path : string) : option string :=
  Re.search (fun s =>
    r ← Re.stripPrefix "user=" s;
    match spanNotAmp r with
    | EmptyString => None
    | g => Some g
    end) path.

(** [imageUrl?.startsWith('http') ? imageUrl : undefined] *)
Definition httpOnly (imageUrl : option string) : option string :=
  match imageUrl with
  | Some u => if Js.startsWith "http" u then Some u else None
  | None => None
  end.

(** [list.length > 0 ? list : undefined] *)
Definition nonEmptyOrUndefined {A : Type} (l : list A) : option (list A) :=
  match l with [] => None | _ => Some l end.

(** The body of the [each] callback of [parseAuthorSearchResults].  A
    [citationCount] that is [NaN] is rendered as absent. *)
Definition parseAuthorCard (el : Cheerio.AuthorCard) : option AuthorSnippet.t :=
  let nameEl := Cheerio.gs_ai_name_a el in
  let name := cleanText (Cheerio.text nameEl) in
  let profilePath := Cheerio.href nameEl in
  if bool_decide (name = EmptyString) then None
  else
    let scholarId := default EmptyString (profilePath ≫= matchUser) in
    let affiliation := cleanText (Cheerio.text (Cheerio.gs_ai_aff el)) in
    let emailDomain := cleanText (Cheerio.text (Cheerio.gs_ai_eml el)) in
    let interestsText := cleanText (Cheerio.text (Cheerio.gs_ai_int el)) in
    let interests :=
      match interestsText with
      | EmptyString => []
      | _ => map Js.trim (Re.split "," interestsText)
      end in
    let citedByText := cleanText (Cheerio.text (Cheerio.gs_ai_cby el)) in
    let citationCount :=
      match citedByText with
      | EmptyString => None
      | _ => Js.parseInt (Js.keepDigits citedByText)
      end in
    let imageUrl := Cheerio.src (Cheerio.gs_ai_pho_img el) in
    Some {| AuthorSnippet.scholarId := scholarId;
            AuthorSnippet.name := name;
            AuthorSnippet.affiliation := Js.strOrUndefined affiliation;
            AuthorSnippet.emailDomain := Js.strOrUndefined emailDomain;
            AuthorSnippet.interests := nonEmptyOrUndefined interests;
            AuthorSnippet.citationCount := citationCount;
            AuthorSnippet.url := absoluteUrl profilePath;
            AuthorSnippet.imageUrl := httpOnly imageUrl |}.

(** [parseAuthorSearchResults] *)
Definition parseAuthorSearchResults (doc : Cheerio.API) : list AuthorSnippet.t :=
  omap parseAuthorCard (Cheerio.gsc_1usr doc).

(** *** Author profile *)

(** [parseInt(cleanText(cells.eq(i).text()).replace(/\D/g, '') || '0', 10)] *)
Definition metricCell (citationCells : Cheerio.Selection) (i : nat) : option Z :=
  Js.parseInt
    (Js.orStr (Js.keepDigits (cleanText (Cheerio.text (Cheerio.eq i citationCells)))) "0").

(** A row of the publication table of a profile. *)
Definition parseProfileRow (el : Cheerio.ProfileRow) : option Publication.t :=
  let titleEl := Cheerio.gsc_a_at el in
  let title := cleanText (Cheerio.text titleEl) in
  let pubUrl := Cheerio.href titleEl in
  let authorVenue := Cheerio.gs_gray el in
  let authors := parseAuthors (cleanText (Cheerio.text (Cheerio.eq 0 authorVenue))) in
  let venueYear := cleanText (Cheerio.text (Cheerio.eq 1 authorVenue)) in
  let year := extractYear venueYear in
  let venue := Js.trim (dropCommas (dropFourDigits venueYear)) in
  let citations := Js.parseInt (Js.orStr (Cheerio.text (Cheerio.gsc_a_c_a el)) "0") in
  if bool_decide (title = EmptyString) then None
  else
    Some {| Publication.title := title;
            Publication.authors := authors;
            Publication.year := year;
            Publication.venue := Js.strOrUndefined venue;
            Publication.abstract := None;
            Publication.citationCount := Js.numOrUndefined citations;
            Publication.url := absoluteUrl pubUrl;
            Publication.pdfUrl := None;
            Publication.clusterId := None;
            Publication.citedByUrl := None;
            Publication.relatedUrl := None;
            Publication.versionsUrl := None;
            Publication.citesId := None;
            Publication.versionsCount := None;
            Publication.eprintUrl := None;
            Publication.source := Some AUTHOR_PROFILE |}.

Definition parseCoauthor (el : Cheerio.CoauthorItem) : option CoAuthor.t :=
  let linkEl := Cheerio.co_a el in
  let coauthorName := cleanText (Cheerio.text linkEl) in
  let coauthorUrl := Cheerio.href linkEl in
  let coauthorIdMatch := coauthorUrl ≫= matchUser in
  let coauthorAffil := cleanText (Cheerio.text (Cheerio.gsc_rsb_a_ext el)) in
  match coauthorName, coauthorIdMatch with
  | String _ _, Some id =>
      Some {| CoAuthor.scholarId := id;
              CoAuthor.name := coauthorName;
              CoAuthor.affiliation := Js.strOrUndefined coauthorAffil |}
  | _, _ => None
  end.

(** The [each] over the histogram labels; [i] is the index of [element]. *)
Definition parseCitationsByYear (doc : Cheerio.API) : list CitationsByYear.t :=
  omap (fun '(i, element) =>
          let yearText := cleanText (Cheerio.el_text element) in
          let barEl := Cheerio.eq i (Cheerio.gsc_g_al doc) in
          let citations := Js.parseInt (Js.orStr (cleanText (Cheerio.text barEl)) "0") in
          match Js.parseInt yearText with
          | Some year => Some {| CitationsByYear.year := year;
                                 CitationsByYear.citations := citations |}
          | None => None
          end)
       (imap (fun i e => (i, e)) (Cheerio.gsc_g_t doc)).

(** The part of [getAuthorProfile] after the existence check. *)
Definition parseAuthorProfile (scholarId : string) (url : Url) (doc : Cheerio.API)
  : Author.t :=
  let name := cleanText (Cheerio.text (Cheerio.gsc_prf_in doc)) in
  let affiliation := cleanText (Cheerio.text (Cheerio.first (Cheerio.gsc_prf_il doc))) in
  let emailDomain := cleanText (Cheerio.text (Cheerio.gsc_prf_ivh doc)) in
  let homepage := Cheerio.href (Cheerio.gsc_prf_ivh_a doc) in
  let interests :=
    filter (fun interest => interest <> EmptyString)
           (map (fun el => cleanText (Cheerio.el_text el)) (Cheerio.gsc_prf_int_a doc)) in
  let citationCells := Cheerio.gsc_rsb_std doc in
  let citationCount := metricCell citationCells 0 in
  let hIndex := metricCell citationCells 2 in
  let hIndex5y := metricCell citationCells 3 in
  let i10Index := metricCell citationCells 4 in
  let i10Index5y := metricCell citationCells 5 in
  let publications := omap parseProfileRow (Cheerio.gsc_a_tr doc) in
  let coauthors := omap parseCoauthor (Cheerio.gsc_rsb_a doc) in
  let citationsByYear := parseCitationsByYear doc in
  let imageUrl := Cheerio.src (Cheerio.gsc_prf_pup_img doc) in
  {| Author.scholarId := scholarId;
     Author.name := name;
     Author.affiliation := Js.strOrUndefined affiliation;
     Author.emailDomain := Js.strOrUndefined emailDomain;
     Author.interests := nonEmptyOrUndefined interests;
     Author.citationCount := Js.numOrUndefined citationCount;
     Author.hIndex := Js.numOrUndefined hIndex;
     Author.hIndex5y := Js.numOrUndefined hIndex5y;
     Author.i10Index := Js.numOrUndefined i10Index;
     Author.i10Index5y := Js.numOrUndefined i10Index5y;
     Author.url := url;
     Author.imageUrl := httpOnly imageUrl;
     Author.homepage := optOrUndefined homepage;
     Author.publications := publications;
     Author.coauthors := nonEmptyOrUndefined coauthors;
     Author.citationsByYear := nonEmptyOrUndefined citationsByYear |}.

(** ** providers/serpapi: response shapes

    Of an organic result only what [mapSerpApiResultToPublication] reads
    is kept; an optional chain [a?.b?.c] is one optional field. *)

Module SerpApiOrganicResult.
Record t : Type := mk {
  title : string;
  result_id : string;
  link : option string;
  snippet : option string;
  summary : option string;             (* publication_info?.summary *)
  author_names : option (list string); (* publication_info?.authors?.map(a => a.name) *)
  resource0_link : option string;      (* resources?.[0]?.link *)
  cited_by_total : option Z;           (* inline_links?.cited_by?.total *)
  cited_by_cites_id : option string;   (* inline_links?.cited_by?.cites_id *)
  versions_cluster_id : option string  (* inline_links?.versions?.cluster_id *)
}.
End SerpApiOrganicResult.

Module SerpApiResponse.
Record t : Type := mk {
  total_results : option Z;            (* search_information?.total_results *)
  organic_results : option (list SerpApiOrganicResult.t);
  error : option string
}.
End SerpApiResponse.

(** A query parameter of the alternate provider: a string or a number. *)
Inductive SerpParam : Type :=
| PStr (s : string)
| PNum (n : Z).

(** ** The process and its environment *)

(** What [axios.get] does: the promise resolves with [response.data] or
    rejects with an error carrying a [message]. *)
Inductive AxiosResult (D : Type) : Type :=
| Resolved (data : D)
| Rejected (message : string).
Arguments Resolved {D} data.
Arguments Rejected {D} message.

(** What the operations hand back to their callers. *)
Inductive OperationResult : Type :=
| PublicationSearch (r : PublicationSearchResult.t)
| AuthorSearch (r : AuthorSearchResult.t)
| AuthorProfile (r : Author.t)
| CitationSearch (r : CitationSearchResult.t)
| PublicationList (r : list Publication.t).

Module AdvancedUrlParams.
Record t : Type := mk {
  query : string;
  author : option string;
  source : option string;
  yearStart : option Z;
  yearEnd : option Z;
  language : option string;
  includePatents : option bool;
  reviewArticlesOnly : option bool;
  start : Z;
  sortBy : option SortBy
}.
End AdvancedUrlParams.

(** Everything outside the process.  The [n]-th HTTP request of the
    process is answered by [scholar_get n] or [serpapi_get n] and lasts
    [elapsed n] milliseconds; [Math_random n] is the [n]-th random draw.
    [cheerio_load] is the HTML parser.  The three URL builders that the
    scraper imports from the helpers but that the helpers do not define
    are part of the environment too. *)
Record Env : Type := mkEnv {
  scholar_get : nat -> Url -> AxiosResult string;
  serpapi_get : nat -> list (string * SerpParam) -> AxiosResult SerpApiResponse.t;
  elapsed : nat -> Z;
  Math_random : nat -> Z;
  cheerio_load : string -> Cheerio.API;
  buildRelatedUrl : string -> Url;
  buildVersionsUrl : string -> Url;
  buildAdvancedSearchUrl : AdvancedUrlParams.t -> Url
}.

(** The effects a run leaves behind, oldest first. *)
Inductive Event : Type :=
| EvSleep (ms : Z)
| EvScholarGet (url : Url)
| EvSerpApiGet (params : list (string * SerpParam)).

(** The mutable state of the process: the clock, the module variables
    [lastRequestTime] (helpers) and [useSerpApiFallback] (scraper), the
    [config] object, the entries of the singleton [cache], and the
    bookkeeping of the environment. *)
Record World : Type := mkWorld {
  now : Z;
  lastRequestTime : Z;
  useSerpApiFallback : bool;
  config : Config.t;
  cache : ScholarCache.store OperationResult;
  requests : nat;
  draws : nat;
  trace : list Event
}.

Definition initialWorld (cfg : Config.t) (start : Z) : World :=
  {| now := start; lastRequestTime := 0; useSerpApiFallback := false;
     config := cfg; cache := ∅; requests := 0; draws := 0; trace := [] |}.

(** What a JavaScript [throw] carries: a [ScholarError] or any other
    error object (only its [message] is ever read). *)
Inductive Thrown : Type :=
| IsScholarError (e : ScholarError)
| OtherError (msg : string).

Inductive Completion (A : Type) : Type :=
| Return (a : A)
| Throw (e : Thrown).
Arguments Return {A} a.
Arguments Throw {A} e.

(** An [async] computation: from a world to its completion and the world
    it leaves; [None] when the fuel given to a loop did not suffice. *)
Definition M (A : Type) : Type := World -> option (Completion A * World).

Definition ret {A} (a : A) : M A := fun w => Some (Return a, w).
Definition throw {A} (e : Thrown) : M A := fun w => Some (Throw e, w).
Definition throwScholar {A} (msg : string) (c : ScholarErrorCode) (d : option string) : M A :=
  throw (IsScholarError (mkScholarError msg c d)).
Definition outOfFuel {A} : M A := fun _ => None.

Definition bind {A B} (m : M A) (k : A -> M B) : M B :=
  fun w =>
    match m w with
    | Some (Return a, w') => k a w'
    | Some (Throw e, w') => Some (Throw e, w')
    | None => None
    end.

(** [try { m } catch (error) { h error }] *)
Definition tryCatch {A} (m : M A) (h : Thrown -> M A) : M A :=
  fun w =>
    match m w with
    | Some (Throw e, w') => h e w'
    | r => r
    end.

Notation "'do' x <- m ; k" := (bind m (fun x => k))
  (at level 10, x name, m at level 100, k at level 200, only parsing).
Notation "m ;; k" := (bind m (fun _ => k))
  (at level 100, k at level 200, right associativity, only parsing).

Definition gets {A} (f : World -> A) : M A := fun w => Some (Return (f w), w).
Definition modify (f : World -> World) : M unit := fun w => Some (Return tt, f w).

(** Field updates. *)
Definition set_now (t : Z) (w : World) : World :=
  mkWorld t (lastRequestTime w) (useSerpApiFallback w) (config w) (cache w)
          (requests w) (draws w) (trace w).
Definition set_lastRequestTime (t : Z) (w : World) : World :=
  mkWorld (now w) t (useSerpApiFallback w) (config w) (cache w)
          (requests w) (draws w) (trace w).
Definition set_useSerpApiFallback (b : bool) (w : World) : World :=
  mkWorld (now w) (lastRequestTime w) b (config w) (cache w)
          (requests w) (draws w) (trace w).
Definition set_requests (n : nat) (w : World) : World :=
  mkWorld (now w) (lastRequestTime w) (useSerpApiFallback w) (config w) (cache w)
          n (draws w) (trace w).
Definition set_draws (n : nat) (w : World) : World :=
  mkWorld (now w) (lastRequestTime w) (useSerpApiFallback w) (config w) (cache w)
          (requests w) n (trace w).
Definition emit (e : Event) (w : World) : World :=
  mkWorld (now w) (lastRequestTime w) (useSerpApiFallback w) (config w) (cache w)
          (requests w) (draws w) (trace w ++ [e]).

(** ** utils/helpers: pacing *)

(** [sleep(ms)]: the timer fires after [ms] milliseconds. *)
Definition sleep (ms : Z) : M unit :=
  modify (fun w => set_now (now w + Z.max ms 0) (emit (EvSleep ms) w)).

(** [Math.random()] *)
Definition random (env : Env) : M Z :=
  fun w => Some (Return (Math_random env (draws w)), set_draws (S (draws w)) w).

(** [waitForRateLimit(config?)] *)
Definition waitForRateLimit (env : Env) (config : option PartialRateLimitConfig) : M unit :=
  let cfg := mergeRateLimitConfig config in
  do now0 <- gets now;
  do last <- gets lastRequestTime;
  let timeSinceLastRequest := now0 - last in
  do r <- random env;
  let delay := getRandomDelay r (minDelay cfg) (maxDelay cfg) in
  (if timeSinceLastRequest <? delay then sleep (delay - timeSinceLastRequest) else ret tt) ;;
  modify (fun w => set_lastRequestTime (now w) w).

(** ** scraper/scholar: the HTTP client *)

Definition MAX_RETRIES : nat := 3.

(** [axios.get(url, ...)] against the primary source.  The headers of the
    request (among them the user agent, taken from [getUserAgent]) do
    not appear: the answer is the environment's, whatever they are. *)
Definition axiosGetScholar (env : Env) (url : Url) : M (AxiosResult string) :=
  fun w =>
    let n := requests w in
    Some (Return (scholar_get env n url),
          set_now (now w + elapsed env n) (set_requests (S n) (emit (EvScholarGet url) w))).

(** [fetchPage(url, retryCount = 0)].  A rejected [axios.get] is the only
    exception of the [try] block that is not a [ScholarError]; the
    [catch] block rethrows the [ScholarError]s. *)
Fixpoint fetchPage (env : Env) (fuel : nat) (url : Url) (retryCount : nat) : M string :=
  match fuel with
  | O => outOfFuel
  | S fuel' =>
      waitForRateLimit env None ;;
      tryCatch
        (do response <- axiosGetScholar env url;
         match response with
         | Rejected msg => throw (OtherError msg)
         | Resolved html =>
             if isRateLimited html then
               throwScholar "Rate limited by Google Scholar. Please try again later."
                            RATE_LIMITED None
             else if isBlocked html then
               throwScholar "Access blocked by Google Scholar." BLOCKED None
             else ret html
         end)
        (fun error =>
           match error with
           | IsScholarError _ => throw error
           | OtherError axiosError_message =>
               if (retryCount <? MAX_RETRIES)%nat then
                 let delay := getBackoffDelay retryCount None in
                 sleep delay ;;
                 fetchPage env fuel' url (retryCount + 1)
               else
                 throwScholar ("Network error: " +:+ axiosError_message) NETWORK_ERROR
                              (Some axiosError_message)
           end)
  end.

(** ** providers/serpapi *)

(** [isSerpApiAvailable()] *)
Definition isSerpApiAvailable (cfg : Config.t) : bool :=
  truthyStr (Config.serpApiKey cfg) && Config.useSerpApiFallback cfg.

(** [getApiKey()] *)
Definition getApiKey : M string :=
  do cfg <- gets config;
  if truthyStr (Config.serpApiKey cfg) then ret (default EmptyString (Config.serpApiKey cfg))
  else throwScholar "SerpAPI key not configured. Set SERPAPI_KEY environment variable."
                    INVALID_INPUT None.

(** [extractYearFromSummary] *)
Definition extractYearFromSummary (summary : option string) : option Z :=
  if truthyStr summary then extractYear (default EmptyString summary) else None.

Fixpoint noLineBreak (s : string) : bool :=
  match s with
  | EmptyString => true
  | String c s' =>
      negb (bool_decide (c = ascii_of_nat 10) || bool_decide (c = ascii_of_nat 13))
      && noLineBreak s'
  end.

(** [/,\s*\d{4}.*$/] at the head of [s] *)
Definition commaYearTail (s : string) : bool :=
  match s with
  | String "," r =>
      match Js.trimStart r with
      | String a (String b (String c (String d rest))) =>
          Js.isDigit a && Js.isDigit b && Js.isDigit c && Js.isDigit d && noLineBreak rest
      | _ => false
      end
  | _ => false
  end.

(** [s.replace(/,\s*\d{4}.*$/, '')] *)
Fixpoint dropCommaYearTail (s : string) : string :=
  if commaYearTail s then EmptyString
  else match s with
       | EmptyString => EmptyString
       | String c s' => String c (dropCommaYearTail s')
       end.

(** [extractVenueFromSummary] *)
Definition extractVenueFromSummary (summary : option string) : string :=
  if truthyStr summary then
    let parts := Re.split " - " (default EmptyString summary) in
    if (2 <=? length parts)%nat then Js.trim (dropCommaYearTail (nth 1 parts EmptyString))
    else EmptyString
  else EmptyString.

(** [mapSerpApiResultToPublication] *)
Definition mapSerpApiResultToPublication (result : SerpApiOrganicResult.t) : Publication.t :=
  let authors := default [] (SerpApiOrganicResult.author_names result) in
  let year := extractYearFromSummary (SerpApiOrganicResult.summary result) in
  {| Publication.title := SerpApiOrganicResult.title result;
     Publication.authors := authors;
     Publication.year := year;
     Publication.venue := Some (extractVenueFromSummary (SerpApiOrganicResult.summary result));
     Publication.abstract :=
       Some (Js.orStr (default EmptyString (SerpApiOrganicResult.snippet result)) EmptyString);
     Publication.citationCount :=
       Some (Js.numOr (SerpApiOrganicResult.cited_by_total result) 0);
     Publication.url :=
       Some (Js.orStr (default EmptyString (SerpApiOrganicResult.link result)) EmptyString);
     Publication.pdfUrl := SerpApiOrganicResult.resource0_link result;
     Publication.clusterId :=
       Some (Js.orStr (default EmptyString (SerpApiOrganicResult.versions_cluster_id result))
                      (SerpApiOrganicResult.result_id result));
     Publication.citedByUrl := None;
     Publication.relatedUrl := None;
     Publication.versionsUrl := None;
     Publication.citesId := SerpApiOrganicResult.cited_by_cites_id result;
     Publication.versionsCount := None;
     Publication.eprintUrl := None;
     Publication.source := Some SERPAPI |}.

(** [axios.get(SERPAPI_BASE_URL, { params })] *)
Definition axiosGetSerpApi (env : Env) (params : list (string * SerpParam))
  : M (AxiosResult SerpApiResponse.t) :=
  fun w =>
    let n := requests w in
    Some (Return (serpapi_get env n params),
          set_now (now w + elapsed env n) (set_requests (S n) (emit (EvSerpApiGet params) w))).

(** [cond ? [(k, v)] : []] for the optional parameters *)
Definition paramIf (cond : bool) (k : string) (v : SerpParam) : list (string * SerpParam) :=
  if cond then [(k, v)] else [].

(** [searchPublicationsSerpApi] *)
Definition searchPublicationsSerpApi (env : Env) (options : PublicationSearchOptions.t)
  : M PublicationSearchResult.t :=
  let query := PublicationSearchOptions.query options in
  let wanted := Js.numOr (PublicationSearchOptions.numResults options) 10 in
  do apiKey <- getApiKey;
  let q :=
    if truthyStr (PublicationSearchOptions.author options)
    then "author:" +:+ dquote +:+ default EmptyString (PublicationSearchOptions.author options)
         +:+ dquote +:+ " " +:+ query
    else query in
  let params : list (string * SerpParam) :=
    ([("engine", PStr "google_scholar"); ("q", PStr q); ("api_key", PStr apiKey);
     ("hl", PStr "en"); ("num", PNum (Z.min wanted 20))]
    ++ paramIf (truthyNum (PublicationSearchOptions.yearStart options)) "as_ylo"
         (PNum (default 0 (PublicationSearchOptions.yearStart options)))
    ++ paramIf (truthyNum (PublicationSearchOptions.yearEnd options)) "as_yhi"
         (PNum (default 0 (PublicationSearchOptions.yearEnd options)))
    ++ paramIf (truthyNum (PublicationSearchOptions.startIndex options)) "start"
         (PNum (default 0 (PublicationSearchOptions.startIndex options)))
    ++ paramIf (bool_decide (PublicationSearchOptions.sortBy options = Some date)) "scisbd"
         (PNum 1))%list in
  tryCatch
    (do response <- axiosGetSerpApi env params;
     match response with
     | Rejected msg => throw (OtherError msg)
     | Resolved data =>
         if truthyStr (SerpApiResponse.error data) then
           throwScholar ("SerpAPI error: " +:+ default EmptyString (SerpApiResponse.error data))
                        NETWORK_ERROR None
         else
           let publications :=
             map mapSerpApiResultToPublication
                 (default [] (SerpApiResponse.organic_results data)) in
           let more := Arr.lengthGe publications wanted in
           ret {| PublicationSearchResult.query := query;
                  PublicationSearchResult.totalResults := SerpApiResponse.total_results data;
                  PublicationSearchResult.filters := None;
                  PublicationSearchResult.publications := publications;
                  PublicationSearchResult.hasMore := Some more;
                  PublicationSearchResult.nextStartIndex :=
                    if more
                    then Some (Js.numOr (PublicationSearchOptions.startIndex options) 0
                               + Z.of_nat (length publications))
                    else None |}
     end)
    (fun error =>
       match error with
       | IsScholarError _ => throw error
       | OtherError axiosError_message =>
           throwScholar ("SerpAPI request failed: " +:+ axiosError_message) NETWORK_ERROR None
       end).

(** ** scraper/scholar: the operations *)

(** [fetchPage(url)]: the default [retryCount] is [0]; the recursion
    of [fetchPage] is at most [MAX_RETRIES] deep. *)
Definition fetch (env : Env) (url : Url) : M string :=
  fetchPage env (S MAX_RETRIES) url 0.

Definition resultsPerPage : Z := 10.

(** The pagination loop, as [searchPublications], [getCitations] and
    [advancedSearch] write it:
<<
    while (publications.length < numResults) {
      const url = build({ ..., start: currentStart });
      const html = await fetchPage(url);
      const results = parsePublicationResults(cheerio.load(html));
      results.forEach(tag);
      if (results.length === 0) break;
      publications.push(...results);
      currentStart += resultsPerPage;
      if (publications.length < numResults) await sleep(1000);
    }
>>
    It yields [publications] and [currentStart] as the loop leaves them. *)
Fixpoint paginate (env : Env) (fuel : nat) (build : Z -> Url)
    (tag : Publication.t -> Publication.t) (numResults : Z)
    (publications : list Publication.t) (currentStart : Z)
  : M (list Publication.t * Z) :=
  if Arr.lengthLt publications numResults then
    match fuel with
    | O => outOfFuel
    | S fuel' =>
        let url := build currentStart in
        do html <- fetch env url;
        let results := map tag (parsePublicationResults (cheerio_load env html)) in
        match results with
        | [] => ret (publications, currentStart)
        | _ =>
            let publications := (publications ++ results)%list in
            let currentStart := currentStart + resultsPerPage in
            (if Arr.lengthLt publications numResults then sleep 1000 else ret tt) ;;
            paginate env fuel' build tag numResults publications currentStart
        end
    end
  else ret (publications, currentStart).

(** [options.yearStart || options.yearEnd ? `${...}-${...}` : undefined] *)
Definition yearRangeOf (yearStart yearEnd : option Z) : option string :=
  let show (y : option Z) := if truthyNum y then Js.toString (default 0 y) else "any" in
  if truthyNum yearStart || truthyNum yearEnd
  then Some (show yearStart +:+ "-" +:+ show yearEnd)
  else None.

Definition searchUrlOf (options : PublicationSearchOptions.t) (start : Z) : Url :=
  buildSearchUrl
    {| SearchUrlParams.query := Some (PublicationSearchOptions.query options);
       SearchUrlParams.author := PublicationSearchOptions.author options;
       SearchUrlParams.yearStart := PublicationSearchOptions.yearStart options;
       SearchUrlParams.yearEnd := PublicationSearchOptions.yearEnd options;
       SearchUrlParams.start := Some start;
       SearchUrlParams.sortBy := PublicationSearchOptions.sortBy options;
       SearchUrlParams.includePatents := PublicationSearchOptions.includePatents options;
       SearchUrlParams.includeCitations := None;
       SearchUrlParams.language := None |}.

(** [error instanceof ScholarError && (error.code === BLOCKED ||
    error.code === RATE_LIMITED)] *)
Definition isBlockingError (error : Thrown) : bool :=
  match error with
  | IsScholarError e =>
      bool_decide (code e = BLOCKED) || bool_decide (code e = RATE_LIMITED)
  | OtherError _ => false
  end.

(** [searchPublications] *)
Definition searchPublications (env : Env) (fuel : nat) (options : PublicationSearchOptions.t)
  : M PublicationSearchResult.t :=
  do flag <- gets useSerpApiFallback;
  do cfg <- gets config;
  if flag && isSerpApiAvailable cfg then searchPublicationsSerpApi env options
  else
    let numResults := default 10 (PublicationSearchOptions.numResults options) in
    let startIndex := default 0 (PublicationSearchOptions.startIndex options) in
    if bool_decide (Js.trim (PublicationSearchOptions.query options) = EmptyString) then
      throwScholar "Search query is required" INVALID_INPUT None
    else
      do outcome <-
        tryCatch
          (do st <- paginate env fuel (searchUrlOf options) id numResults [] startIndex;
           ret (inl st))
          (fun error =>
             do cfg' <- gets config;
             if isBlockingError error && isSerpApiAvailable cfg' then
               modify (set_useSerpApiFallback true) ;;
               do r <- searchPublicationsSerpApi env options;
               ret (inr r)
             else throw error);
      match outcome with
      | inr r => ret r
      | inl (publications, currentStart) =>
          ret {| PublicationSearchResult.query := PublicationSearchOptions.query options;
                 PublicationSearchResult.totalResults := None;
                 PublicationSearchResult.filters :=
                   Some {| Filters.author := PublicationSearchOptions.author options;
                           Filters.source := None;
                           Filters.yearRange :=
                             yearRangeOf (PublicationSearchOptions.yearStart options)
                                         (PublicationSearchOptions.yearEnd options);
                           Filters.language := None;
                           Filters.includePatents := None;
                           Filters.reviewArticlesOnly := None;
                           Filters.sortBy := PublicationSearchOptions.sortBy options |};
                 PublicationSearchResult.publications := Arr.slice0 numResults publications;
                 PublicationSearchResult.hasMore := Some (Arr.lengthGe publications numResults);
                 PublicationSearchResult.nextStartIndex := Some currentStart |}
      end.

(** [searchAuthors] *)
Definition searchAuthors (env : Env) (options : AuthorSearchOptions.t)
  : M AuthorSearchResult.t :=
  if bool_decide (Js.trim (AuthorSearchOptions.query options) = EmptyString) then
    throwScholar "Author search query is required" INVALID_INPUT None
  else
    let url := buildAuthorSearchUrl (AuthorSearchOptions.query options)
                                    (AuthorSearchOptions.organization options) in
    do html <- fetch env url;
    let authors := parseAuthorSearchResults (cheerio_load env html) in
    ret {| AuthorSearchResult.query := AuthorSearchOptions.query options;
           AuthorSearchResult.totalResults := Some (Z.of_nat (length authors));
           AuthorSearchResult.authors :=
             Arr.slice0 (Js.numOr (AuthorSearchOptions.numResults options) 10) authors;
           AuthorSearchResult.hasMore := Some (Arr.lengthGe authors 10) |}.

(** [getAuthorProfile] *)
Definition getAuthorProfile (env : Env) (scholarId : string) : M Author.t :=
  if bool_decide (Js.trim scholarId = EmptyString) then
    throwScholar "Scholar ID is required" INVALID_INPUT None
  else
    let url := buildAuthorProfileUrl scholarId in
    do html <- fetch env url;
    let doc := cheerio_load env html in
    match Cheerio.gsc_prf_in doc with
    | [] => throwScholar ("Author profile not found: " +:+ scholarId) NOT_FOUND None
    | _ => ret (parseAuthorProfile scholarId url doc)
    end.

(** [text.match(/About ([\d,]+) results/)]: the captured group. *)
Fixpoint spanDigitsCommas (s : string) : string * string :=
  match s with
  | EmptyString => (EmptyString, EmptyString)
  | String c s' =>
      if Js.isDigit c || bool_decide (c = ","%char)
      then let '(d, r) := spanDigitsCommas s' in (String c d, r)
      else (EmptyString, s)
  end.

Definition matchAboutResults (text : string) : option string :=
  Re.search (fun s =>
    r ← Re.stripPrefix "About " s;
    match spanDigitsCommas r with
    | (EmptyString, _) => None
    | (g, r') => if Js.startsWith " results" r' then Some g else None
    end) text.

(** [getCitations] *)
Definition getCitations (env : Env) (fuel : nat) (options : CitationSearchOptions.t)
  : M CitationSearchResult.t :=
  let clusterId := CitationSearchOptions.clusterId options in
  if bool_decide (Js.trim clusterId = EmptyString) then
    throwScholar "Cluster ID is required for citation search" INVALID_INPUT None
  else
    let numResults := default 10 (CitationSearchOptions.numResults options) in
    let startIndex := default 0 (CitationSearchOptions.startIndex options) in
    do st <- paginate env fuel
               (fun start => buildCitationUrl clusterId (Some start)
                                              (CitationSearchOptions.sortBy options))
               (Publication.set_source CITATION) numResults [] startIndex;
    let '(citations, currentStart) := st in
    do html <- fetch env (buildCitationUrl clusterId None None);
    let totalCitationsMatch :=
      matchAboutResults (Cheerio.text (Cheerio.gs_ab_mdw (cheerio_load env html))) in
    let totalCitations :=
      match totalCitationsMatch with
      | Some g => Js.parseInt (dropCommas g)
      | None => Some (Z.of_nat (length citations))
      end in
    ret {| CitationSearchResult.originalPublication := Some (EmptyString, clusterId);
           CitationSearchResult.totalCitations := totalCitations;
           CitationSearchResult.citations := Arr.slice0 numResults citations;
           CitationSearchResult.hasMore := Some (Arr.lengthGe citations numResults);
           CitationSearchResult.nextStartIndex := Some currentStart |}.

(** [getRelatedArticles(clusterId, numResults = 10)] *)
Definition getRelatedArticles (env : Env) (clusterId : string) (numResults : option Z)
  : M (list Publication.t) :=
  if bool_decide (Js.trim clusterId = EmptyString) then
    throwScholar "Cluster ID is required for finding related articles" INVALID_INPUT None
  else
    do html <- fetch env (buildRelatedUrl env clusterId);
    let publications :=
      map (Publication.set_source RELATED)
          (parsePublicationResults (cheerio_load env html)) in
    ret (Arr.slice0 (default 10 numResults) publications).

(** [getAllVersions] *)
Definition getAllVersions (env : Env) (clusterId : string) : M (list Publication.t) :=
  if bool_decide (Js.trim clusterId = EmptyString) then
    throwScholar "Cluster ID is required for finding all versions" INVALID_INPUT None
  else
    do html <- fetch env (buildVersionsUrl env clusterId);
    ret (map (fun pub => Publication.set_clusterId clusterId (Publication.set_source VERSION pub))
             (parsePublicationResults (cheerio_load env html))).

Definition advancedUrlOf (env : Env) (options : AdvancedSearchOptions.t) (start : Z) : Url :=
  buildAdvancedSearchUrl env
    {| AdvancedUrlParams.query := AdvancedSearchOptions.query options;
       AdvancedUrlParams.author := AdvancedSearchOptions.author options;
       AdvancedUrlParams.source := AdvancedSearchOptions.source options;
       AdvancedUrlParams.yearStart := AdvancedSearchOptions.yearStart options;
       AdvancedUrlParams.yearEnd := AdvancedSearchOptions.yearEnd options;
       AdvancedUrlParams.language := AdvancedSearchOptions.language options;
       AdvancedUrlParams.includePatents := AdvancedSearchOptions.includePatents options;
       AdvancedUrlParams.reviewArticlesOnly := AdvancedSearchOptions.reviewArticlesOnly options;
       AdvancedUrlParams.start := start;
       AdvancedUrlParams.sortBy := AdvancedSearchOptions.sortBy options |}.

(** [advancedSearch] *)
Definition advancedSearch (env : Env) (fuel : nat) (options : AdvancedSearchOptions.t)
  : M PublicationSearchResult.t :=
  if bool_decide (Js.trim (AdvancedSearchOptions.query options) = EmptyString) then
    throwScholar "Search query is required" INVALID_INPUT None
  else
    let numResults := default 10 (AdvancedSearchOptions.numResults options) in
    do st <- paginate env fuel (advancedUrlOf env options)
               (Publication.set_source ADVANCED_SEARCH) numResults [] 0;
    let '(publications, currentStart) := st in
    ret {| PublicationSearchResult.query := AdvancedSearchOptions.query options;
           PublicationSearchResult.totalResults := None;
           PublicationSearchResult.filters :=
             Some {| Filters.author := AdvancedSearchOptions.author options;
                     Filters.source := AdvancedSearchOptions.source options;
                     Filters.yearRange :=
                       yearRangeOf (AdvancedSearchOptions.yearStart options)
                                   (AdvancedSearchOptions.yearEnd options);
                     Filters.language := AdvancedSearchOptions.language options;
                     Filters.includePatents := AdvancedSearchOptions.includePatents options;
                     Filters.reviewArticlesOnly :=
                       AdvancedSearchOptions.reviewArticlesOnly options;
                     Filters.sortBy := AdvancedSearchOptions.sortBy options |};
           PublicationSearchResult.publications := Arr.slice0 numResults publications;
           PublicationSearchResult.hasMore := Some (Arr.lengthGe publications numResults);
           PublicationSearchResult.nextStartIndex := Some currentStart |}.

(** ** The process as a transition system

    A caller (the tool dispatcher) invokes the operations one after the
    other; each invocation takes the world where the previous one left
    it. *)

Inductive Call : Type :=
| CallSearchPublications (options : PublicationSearchOptions.t)
| CallSearchAuthors (options : AuthorSearchOptions.t)
| CallGetAuthorProfile (scholarId : string)
| CallGetCitations (options : CitationSearchOptions.t)
| CallGetRelatedArticles (clusterId : string) (numResults : option Z)
| CallGetAllVersions (clusterId : string)
| CallAdvancedSearch (options : AdvancedSearchOptions.t).

Definition mapM {A B} (f : A -> B) (m : M A) : M B := do a <- m; ret (f a).

Definition invoke (env : Env) (fuel : nat) (c : Call) : M OperationResult :=
  match c with
  | CallSearchPublications o => mapM PublicationSearch (searchPublications env fuel o)
  | CallSearchAuthors o => mapM AuthorSearch (searchAuthors env o)
  | CallGetAuthorProfile id => mapM AuthorProfile (getAuthorProfile env id)
  | CallGetCitations o => mapM CitationSearch (getCitations env fuel o)
  | CallGetRelatedArticles id n => mapM PublicationList (getRelatedArticles env id n)
  | CallGetAllVersions id => mapM PublicationList (getAllVersions env id)
  | CallAdvancedSearch o => mapM PublicationSearch (advancedSearch env fuel o)
  end.

(** One step: an invocation that completes (normally or by a throw). *)
Inductive step (env : Env) : World -> World -> Prop :=
| step_invoke fuel c w r w' :
    invoke env fuel c w = Some (r, w') -> step env w w'.

(** The worlds a process goes through: [run env ws] when [ws] lists the
    successive worlds, each one reached from the one before by a step. *)
Inductive run (env : Env) : list World -> Prop :=
| run_one w : run env [w]
| run_cons w w' ws : step env w w' -> run env (w' :: ws) -> run env (w :: w' :: ws).

(** The number of transitions of the flag from [false] to [true] along a
    list of worlds. *)
Fixpoint flips (ws : list World) : nat :=
  match ws with
  | w :: ((w' :: _) as rest) =>
      (if negb (useSerpApiFallback w) && useSerpApiFallback w' then 1 else 0)%nat + flips rest
  | _ => 0%nat
  end.

(** ** Notions used by the statements *)

(** [m] relates the world it starts from to the world it leaves by [R],
    whenever it completes. *)
Definition preserves (R : World -> World -> Prop) {A} (m : M A) : Prop :=
  forall w r w', m w = Some (r, w') -> R w w'.

(** The flag, once set, stays set. *)
Definition flagMonotone (w w' : World) : Prop :=
  useSerpApiFallback w = true -> useSerpApiFallback w' = true.

(** Neither the provider selection nor the configuration nor the cache
    changes. *)
Definition selectorUntouched (w w' : World) : Prop :=
  useSerpApiFallback w' = useSerpApiFallback w
  /\ config w' = config w
  /\ cache w' = cache w.

Definition isSerpApiEvent (e : Event) : bool :=
  match e with EvSerpApiGet _ => true | _ => false end.

Definition isScholarEvent (e : Event) : bool :=
  match e with EvScholarGet _ => true | _ => false end.

(** The run only extends the trace, and never by a request to the
    alternate provider. *)
Definition noSerpApiTraffic (w w' : World) : Prop :=
  exists evs, trace w' = (trace w ++ evs)%list
              /\ forallb (fun e => negb (isSerpApiEvent e)) evs = true.

(** The world [waitForRateLimit()] leaves. *)
Definition paced (env : Env) (w : World) : World :=
  match waitForRateLimit env None w with
  | Some (_, w') => w'
  | None => w
  end.

(** The world after the [n]-th request has been issued and answered. *)
Definition requested (env : Env) (url : Url) (w : World) : World :=
  set_now (now w + elapsed env (requests w))
          (set_requests (S (requests w)) (emit (EvScholarGet url) w)).

(** The world [sleep(ms)] leaves. *)
Definition slept (ms : Z) (w : World) : World :=
  set_now (now w + Z.max ms 0) (emit (EvSleep ms) w).

(** What the pacer may add to the trace: nothing, or one sleep. *)
Definition pacingEvents (evs : list Event) : Prop :=
  evs = [] \/ exists ms, evs = [EvSleep ms].

(** The three errors [fetchPage] throws. *)
Definition rateLimitedError : Thrown :=
  IsScholarError
    {| message := "Rate limited by Google Scholar. Please try again later.";
       code := RATE_LIMITED; details := None |}.

Definition blockedError : Thrown :=
  IsScholarError
    {| message := "Access blocked by Google Scholar."; code := BLOCKED; details := None |}.

Definition networkError (axiosError_message : string) : Thrown :=
  IsScholarError
    {| message := "Network error: " +:+ axiosError_message;
       code := NETWORK_ERROR; details := Some axiosError_message |}.

(** How [fetchPage] classifies a body it received. *)
Definition classify (html : string) : Completion string :=
  if isRateLimited html then Throw rateLimitedError
  else if isBlocked html then Throw blockedError
  else Return html.

(** The title the extractor reads off a card:
    [cleanText(titleEl.text()) || cleanText($el.find('.gs_rt').text())]. *)
Definition cardTitle (el : Cheerio.ResultCard) : string :=
  Js.orStr (cleanText (Cheerio.text (Cheerio.gs_rt_a el)))
           (cleanText (Cheerio.text (Cheerio.gs_rt el))).

Definition nonEmpty (s : string) : bool := negb (bool_decide (s = EmptyString)).

(** The paginator as the specification words it: [collect] calls fetch
    and extract against successive pages of fixed size [resultsPerPage],
    appending the records and advancing the offset by the page size,
    until the records reach [targetCount] or a page yields no record,
    with a fixed delay between pages when more are still needed.
    [collect records offset w records' offset' w'] relates the state of
    the loop at some iteration to the state in which the loop stops. *)
Inductive collect (env : Env) (build : Z -> Url) (tag : Publication.t -> Publication.t)
    (targetCount : Z)
  : list Publication.t -> Z -> World -> list Publication.t -> Z -> World -> Prop :=
| collect_reached records offset w :
    targetCount <= Z.of_nat (length records) ->
    collect env build tag targetCount records offset w records offset w
| collect_exhausted records offset w html w1 :
    Z.of_nat (length records) < targetCount ->
    fetch env (build offset) w = Some (Return html, w1) ->
    map tag (parsePublicationResults (cheerio_load env html)) = [] ->
    collect env build tag targetCount records offset w records offset w1
| collect_page records offset w html w1 page records' offset' w' :
    Z.of_nat (length records) < targetCount ->
    fetch env (build offset) w = Some (Return html, w1) ->
    page = map tag (parsePublicationResults (cheerio_load env html)) ->
    page <> [] ->
    collect env build tag targetCount
            (records ++ page) (offset + resultsPerPage)
            (if Arr.lengthLt (records ++ page) targetCount then slept 1000 w1 else w1)
            records' offset' w' ->
    collect env build tag targetCount records offset w records' offset' w'.

(** ** A small world to run the operations in

    A source that serves two result pages of ten cards each (the 14th
    and 15th cards carry no title) and nothing beyond them, a page of
    nine cards of which one carries no title, and one author profile. *)

Module Example.

Definition element (t : string) (h : option string) : Cheerio.Element :=
  Cheerio.mkElement t h None.

Definition titledCard (t : string) : Cheerio.ResultCard :=
  {| Cheerio.gs_rt_a := [element t (Some ("https://example.org/" +:+ t))];
     Cheerio.gs_rt := [element t None];
     Cheerio.gs_a := [element "A Smith, B Jones - Nature, 2019 - nature.com" None];
     Cheerio.gs_rs := [element "  An   abstract. " None];
     Cheerio.gs_fl_a :=
       [ element "Cited by 12" (Some "/scholar?cites=123&hl=en");
         element "Related articles" (Some "/scholar?q=related:abc");
         element "All 3 versions" (Some "/scholar?cluster=123") ];
     Cheerio.gs_or_ggsm_a := [];
     Cheerio.gs_ggs_a := [] |}.

(** A card whose title elements are missing. *)
Definition untitledCard : Cheerio.ResultCard :=
  {| Cheerio.gs_rt_a := [];
     Cheerio.gs_rt := [element "   " None];
     Cheerio.gs_a := [element "C Lee - 2020" None];
     Cheerio.gs_rs := [];
     Cheerio.gs_fl_a := [];
     Cheerio.gs_or_ggsm_a := [];
     Cheerio.gs_ggs_a := [] |}.

Definition emptyDoc : Cheerio.API :=
  Cheerio.mkAPI [] [] [] [] [] [] [] [] [] [] [] [] [] [].

Definition resultsDoc (cards : list Cheerio.ResultCard) : Cheerio.API :=
  Cheerio.mkAPI cards [] [] [] [] [] [] [] [] [] [] [] [] [].

Definition pageOne : list Cheerio.ResultCard :=
  map titledCard ["P1"; "P2"; "P3"; "P4"; "P5"; "P6"; "P7"; "P8"; "P9"; "P10"].

Definition pageTwo : list Cheerio.ResultCard :=
  (map titledCard ["P11"; "P12"; "P13"] ++ [untitledCard; untitledCard]
   ++ map titledCard ["P16"; "P17"; "P18"; "P19"; "P20"])%list.

Definition nineCards : list Cheerio.ResultCard :=
  (map titledCard ["N1"; "N2"; "N3"; "N4"] ++ [untitledCard]
   ++ map titledCard ["N6"; "N7"; "N8"; "N9"])%list.

(** A profile whose metrics table lacks the 5-year i10 cell and shows
    an h-index of 0. *)
Definition profileDoc : Cheerio.API :=
  Cheerio.mkAPI [] [] []
    [element "Ada Lovelace" None] [element "Analytical Engines Ltd" None] [] [] []
    [ element "1,234" None; element "321" None; element "0" None;
      element "7" None; element "12" None ]
    [] [] [] [] [].

Definition load (html : string) : Cheerio.API :=
  if bool_decide (html = "<page 1>") then resultsDoc pageOne
  else if bool_decide (html = "<page 2>") then resultsDoc pageTwo
  else if bool_decide (html = "<nine cards>") then resultsDoc nineCards
  else if bool_decide (html = "<profile>") then profileDoc
  else emptyDoc.

(** The value of a search parameter of a URL. *)
Definition param (k : string) (url : Url) : option string :=
  snd <$> head (filter (fun kv => kv.1 = k) (searchParams url)).

(** The source: result pages by offset, the profile of one user. *)
Definition source (_ : nat) (url : Url) : AxiosResult string :=
  match param "user" url with
  | Some _ => Resolved "<profile>"
  | None =>
      match param "start" url with
      | None => Resolved "<page 1>"
      | Some s => if bool_decide (s = "10") then Resolved "<page 2>"
                  else Resolved "<no results>"
      end
  end.

(** A source that challenges every request. *)
Definition challenging (_ : nat) (_ : Url) : AxiosResult string :=
  Resolved "<h1>403 Forbidden</h1> Our systems have detected unusual traffic".

(** A source that cannot be reached. *)
Definition unreachable (n : nat) (_ : Url) : AxiosResult string :=
  Rejected "timeout of 30000ms exceeded".

(** A source that is reached at the third attempt. *)
Definition flaky (n : nat) (url : Url) : AxiosResult string :=
  if (n <? 2)%nat then Rejected "socket hang up" else source n url.

Definition serpResult : SerpApiOrganicResult.t :=
  {| SerpApiOrganicResult.title := "Attention is all you need";
     SerpApiOrganicResult.result_id := "r1";
     SerpApiOrganicResult.link := Some "https://example.org/attention";
     SerpApiOrganicResult.snippet := None;
     SerpApiOrganicResult.summary := Some "A Vaswani, N Shazeer - NeurIPS, 2017 - neurips.cc";
     SerpApiOrganicResult.author_names := Some ["A Vaswani"; "N Shazeer"];
     SerpApiOrganicResult.resource0_link := None;
     SerpApiOrganicResult.cited_by_total := Some 100000;
     SerpApiOrganicResult.cited_by_cites_id := Some "c1";
     SerpApiOrganicResult.versions_cluster_id := Some "v1" |}.

Definition alternate (_ : nat) (_ : list (string * SerpParam))
  : AxiosResult SerpApiResponse.t :=
  Resolved {| SerpApiResponse.total_results := Some 1;
              SerpApiResponse.organic_results := Some [serpResult];
              SerpApiResponse.error := None |}.

Definition env (get : nat -> Url -> AxiosResult string) : Env :=
  {| scholar_get := get;
     serpapi_get := alternate;
     elapsed := fun _ => 120;
     Math_random := fun _ => 2 ^ 52;
     cheerio_load := load;
     buildRelatedUrl := fun id => mkUrl "/scholar" [("q", "related:" +:+ id); ("hl", "en")];
     buildVersionsUrl := fun id => mkUrl "/scholar" [("cluster", id); ("hl", "en")];
     buildAdvancedSearchUrl := fun p =>
       mkUrl "/scholar"
             ([("as_q", AdvancedUrlParams.query p)]
              ++ setIf (negb (AdvancedUrlParams.start p =? 0)) "start"
                   (Js.toString (AdvancedUrlParams.start p))) |}.

(** Caching on, the alternate provider configured and enabled. *)
Definition withAlternate : Config.t :=
  {| Config.cacheEnabled := true; Config.cacheTtlMs := 3600000;
     Config.serpApiKey := Some "key"; Config.useSerpApiFallback := true |}.

(** The default configuration: no alternate provider. *)
Definition primaryOnly : Config.t :=
  {| Config.cacheEnabled := true; Config.cacheTtlMs := 3600000;
     Config.serpApiKey := None; Config.useSerpApiFallback := false |}.

Definition transformerSearch : PublicationSearchOptions.t :=
  {| PublicationSearchOptions.query := "transformer neural network";
     PublicationSearchOptions.author := None;
     PublicationSearchOptions.yearStart := None;
     PublicationSearchOptions.yearEnd := None;
     PublicationSearchOptions.numResults := Some 10;
     PublicationSearchOptions.startIndex := None;
     PublicationSearchOptions.sortBy := Some relevance;
     PublicationSearchOptions.includePatents := None;
     PublicationSearchOptions.includeCitations := None;
     PublicationSearchOptions.language := None |}.

Definition citationsOf123 : CitationSearchOptions.t :=
  {| CitationSearchOptions.clusterId := "123";
     CitationSearchOptions.numResults := Some 10;
     CitationSearchOptions.startIndex := None;
     CitationSearchOptions.sortBy := Some relevance |}.

(** The world an invocation leaves (the starting world if it does not
    complete). *)
Definition after (e : Env) (fuel : nat) (c : Call) (w : World) : World :=
  match invoke e fuel c w with
  | Some (_, w') => w'
  | None => w
  end.

Definition start (cfg : Config.t) : World := initialWorld cfg 1700000000000.

(** The profile page, parsed. *)
Definition profile : Author.t :=
  parseAuthorProfile "abc" (buildAuthorProfileUrl "abc") profileDoc.

Definition searchCall : Call := CallSearchPublications transformerSearch.

End Example.

(** * Further parts of the sources *)

From Stdlib Require DecimalZ DecimalPos.

(** ** Notions for the operations as a whole *)

(** What a computation can end in: [Q] holds of the value it returns,
    [E] of what it throws. *)
Definition ensures {A} (m : M A) (Q : A -> Prop) (E : Thrown -> Prop) : Prop :=
  forall w out w', m w = Some (out, w') ->
    match out with
    | Return a => Q a
    | Throw e => E e
    end.

(** A [ScholarError] whose code is one of [codes]. *)
Definition scholarErrorIn (codes : list ScholarErrorCode) (e : Thrown) : Prop :=
  exists se, e = IsScholarError se /\ In (code se) codes.

(** The argument each operation validates first. *)
Definition callInput (c : Call) : string :=
  match c with
  | CallSearchPublications o => PublicationSearchOptions.query o
  | CallSearchAuthors o => AuthorSearchOptions.query o
  | CallGetAuthorProfile id => id
  | CallGetCitations o => CitationSearchOptions.clusterId o
  | CallGetRelatedArticles id _ => id
  | CallGetAllVersions id => id
  | CallAdvancedSearch o => AdvancedSearchOptions.query o
  end.

(** Whether the call is answered by the alternate provider from the
    start: only [searchPublications] looks at the flag. *)
Definition startsOnAlternate (c : Call) (w : World) : bool :=
  match c with
  | CallSearchPublications _ => useSerpApiFallback w && isSerpApiAvailable (config w)
  | _ => false
  end.

Definition isSearchPublications (c : Call) : bool :=
  match c with CallSearchPublications _ => true | _ => false end.

(** The publications a result carries. *)
Definition resultPublications (r : OperationResult) : list Publication.t :=
  match r with
  | PublicationSearch r => PublicationSearchResult.publications r
  | AuthorSearch _ => []
  | AuthorProfile a => Author.publications a
  | CitationSearch r => CitationSearchResult.citations r
  | PublicationList l => l
  end.

(** The number of records a result carries. *)
Definition recordCount (r : OperationResult) : nat :=
  match r with
  | AuthorSearch r => length (AuthorSearchResult.authors r)
  | _ => length (resultPublications r)
  end.

(** The provenance tags the publications of each operation can carry. *)
Definition sourcesOf (c : Call) : list PublicationSource :=
  match c with
  | CallSearchPublications _ => [PUBLICATION_SEARCH; SERPAPI]
  | CallSearchAuthors _ => []
  | CallGetAuthorProfile _ => [AUTHOR_PROFILE]
  | CallGetCitations _ => [CITATION]
  | CallGetRelatedArticles _ _ => [RELATED]
  | CallGetAllVersions _ => [VERSION]
  | CallAdvancedSearch _ => [ADVANCED_SEARCH]
  end.

(** The number of records the caller asked for, where the operation
    takes one. *)
Definition requestedCount (c : Call) : option Z :=
  match c with
  | CallSearchPublications o => Some (default 10 (PublicationSearchOptions.numResults o))
  | CallSearchAuthors o => Some (Js.numOr (AuthorSearchOptions.numResults o) 10)
  | CallGetAuthorProfile _ => None
  | CallGetCitations o => Some (default 10 (CitationSearchOptions.numResults o))
  | CallGetRelatedArticles _ n => Some (default 10 n)
  | CallGetAllVersions _ => None
  | CallAdvancedSearch o => Some (default 10 (AdvancedSearchOptions.numResults o))
  end.

Definition fromSerpApi (p : Publication.t) : Prop := Publication.source p = Some SERPAPI.

(** The [params] object [searchPublicationsSerpApi] builds. *)
Definition serpSearchParams (apiKey : string) (options : PublicationSearchOptions.t)
  : list (string * SerpParam) :=
  let query := PublicationSearchOptions.query options in
  let q :=
    if truthyStr (PublicationSearchOptions.author options)
    then "author:" +:+ dquote +:+ default EmptyString (PublicationSearchOptions.author options)
         +:+ dquote +:+ " " +:+ query
    else query in
  ([("engine", PStr "google_scholar"); ("q", PStr q); ("api_key", PStr apiKey);
    ("hl", PStr "en");
    ("num", PNum (Z.min (Js.numOr (PublicationSearchOptions.numResults options) 10) 20))]
   ++ paramIf (truthyNum (PublicationSearchOptions.yearStart options)) "as_ylo"
        (PNum (default 0 (PublicationSearchOptions.yearStart options)))
   ++ paramIf (truthyNum (PublicationSearchOptions.yearEnd options)) "as_yhi"
        (PNum (default 0 (PublicationSearchOptions.yearEnd options)))
   ++ paramIf (truthyNum (PublicationSearchOptions.startIndex options)) "start"
        (PNum (default 0 (PublicationSearchOptions.startIndex options)))
   ++ paramIf (bool_decide (PublicationSearchOptions.sortBy options = Some date)) "scisbd"
        (PNum 1))%list.

(** The world after a request to the alternate provider. *)
Definition requestedSerpApi (env : Env) (params : list (string * SerpParam)) (w : World)
  : World :=
  set_now (now w + elapsed env (requests w))
          (set_requests (S (requests w)) (emit (EvSerpApiGet params) w)).

(** A publication carries one of the tags of the call that produced it
    and, unless it came from the alternate provider, a title. *)
Definition tagged (c : Call) (p : Publication.t) : Prop :=
  exists s, Publication.source p = Some s
            /\ In s (sourcesOf c)
            /\ (s <> SERPAPI -> Publication.title p <> EmptyString).

(** The result holds no more records than were asked for, unless it is a
    publication search answered by the alternate provider. *)
Definition withinCount (c : Call) (r : OperationResult) : Prop :=
  forall n, requestedCount c = Some n -> 0 <= n ->
    Z.of_nat (recordCount r) <= n
    \/ (isSearchPublications c = true /\ Forall fromSerpApi (resultPublications r)).

(** The error codes the operations throw. *)
Definition operationCodes : list ScholarErrorCode :=
  [RATE_LIMITED; BLOCKED; NETWORK_ERROR; INVALID_INPUT; NOT_FOUND].

Definition commonCodes : list ScholarErrorCode :=
  [RATE_LIMITED; BLOCKED; NETWORK_ERROR; INVALID_INPUT].

(** ** More of the example world *)

Module Example2.

(** A source whose pages hold nothing the scraper looks for. *)
Definition emptySource (_ : nat) (_ : Url) : AxiosResult string :=
  Resolved "<html></html>".

End Example2.

Module Example3.

(** A search without a query. *)
Definition blankSearch : PublicationSearchOptions.t :=
  PublicationSearchOptions.mk "" None None None (Some 5) (Some 20) None None None None.

(** A search that asks for no record, from the fourth page on. *)
Definition noRecords : PublicationSearchOptions.t :=
  PublicationSearchOptions.mk "transformer" None None None (Some 0) (Some 30) None None None None.

(** The world once the selector has tripped. *)
Definition onAlternate : World :=
  set_useSerpApiFallback true (Example.start Example.withAlternate).

End Example3.

(** ** Notions for the cost of an operation *)

(** [m] sends at most [k] requests (to either provider). *)
Definition spends (k : nat) {A} (m : M A) : Prop :=
  forall w out w', m w = Some (out, w') ->
    (requests w <= requests w' <= requests w + k)%nat.

(** The number of pages a call may ask for: the count requested. *)
Definition callPages (c : Call) : nat :=
  match c with
  | CallSearchPublications o => Z.to_nat (default 10 (PublicationSearchOptions.numResults o))
  | CallGetCitations o => Z.to_nat (default 10 (CitationSearchOptions.numResults o))
  | CallAdvancedSearch o => Z.to_nat (default 10 (AdvancedSearchOptions.numResults o))
  | _ => 0
  end.

(** The most requests a call can send: four attempts for each page, four
    more for the total of [getCitations], one for the failover of
    [searchPublications]. *)
Definition requestBudget (c : Call) : nat :=
  match c with
  | CallSearchPublications _ => 4 * callPages c + 1
  | CallGetCitations _ => 4 * callPages c + 4
  | CallAdvancedSearch _ => 4 * callPages c
  | _ => 4
  end.

(** [m] completes from every world. *)
Definition terminates {A} (m : M A) : Prop := forall w, exists out, m w = Some out.

(** Whatever [m1] completes with, [m2] completes with too. *)
Definition extends {A} (m1 m2 : M A) : Prop :=
  forall w out, m1 w = Some out -> m2 w = Some out.

(** ** Notions for the text helpers *)

(** The text [/\b(19|20)\d{2}\b/] matches: 19 or 20 and two digits. *)
Definition yearShape (y : string) : Prop :=
  exists c d,
    (y = String "1" (String "9" (String c (String d EmptyString)))
     \/ y = String "2" (String "0" (String c (String d EmptyString))))
    /\ Js.isDigit c = true /\ Js.isDigit d = true.





(** ** utils/helpers: user agents *)

Module UserAgentConfig.
Record t : Type := mk {
  userAgents : list string;
  rotate : bool
}.
End UserAgentConfig.

Definition DEFAULT_USER_AGENTS : list string :=
  [ "Mozilla/5.0 (Windows NT 10.0; Win64; x64) AppleWebKit/537.36 (KHTML, like Gecko) Chrome/120.0.0.0 Safari/537.36";
    "Mozilla/5.0 (Macintosh; Intel Mac OS X 10_15_7) AppleWebKit/537.36 (KHTML, like Gecko) Chrome/120.0.0.0 Safari/537.36";
    "Mozilla/5.0 (Windows NT 10.0; Win64; x64; rv:121.0) Gecko/20100101 Firefox/121.0";
    "Mozilla/5.0 (Macintosh; Intel Mac OS X 10_15_7) AppleWebKit/605.1.15 (KHTML, like Gecko) Version/17.2 Safari/605.1.15";
    "Mozilla/5.0 (X11; Linux x86_64) AppleWebKit/537.36 (KHTML, like Gecko) Chrome/120.0.0.0 Safari/537.36" ].

(** [arr[i]] for a number [i]; [None] is [NaN] as an index and
    [undefined] as a result. *)
Definition at_ {A : Type} (arr : list A) (i : option Z) : option A :=
  match i with
  | Some k => if k <? 0 then None else arr !! Z.to_nat k
  | None => None
  end.

(** [a % b] on numbers ([None] is [NaN]): the remainder has the sign of
    [a], and there is none by zero. *)
Definition jsRem (a : option Z) (b : Z) : option Z :=
  match a with
  | Some x => if b =? 0 then None else Some (Z.rem x b)
  | None => None
  end.

(** [getUserAgent(config)].  [random] is the draw of [Math.random()], as
    for [getRandomDelay]; [currentUserAgentIndex] is the module variable,
    returned as the call leaves it.  An array, even an empty one, is
    truthy, so [config?.userAgents || DEFAULT_USER_AGENTS] is the list of
    [config] whenever there is a [config]. *)
Definition getUserAgent (random : Z) (config : option UserAgentConfig.t)
    (currentUserAgentIndex : option Z) : option string * option Z :=
  let agents :=
    match config with
    | Some c => UserAgentConfig.userAgents c
    | None => DEFAULT_USER_AGENTS
    end in
  if match config with Some c => UserAgentConfig.rotate c | None => false end then
    let currentUserAgentIndex :=
      jsRem ((fun i => i + 1) <$> currentUserAgentIndex) (Z.of_nat (length agents)) in
    (at_ agents currentUserAgentIndex, currentUserAgentIndex)
  else
    (at_ agents (Some ((random * Z.of_nat (length agents)) / 2 ^ 53)), currentUserAgentIndex).

(** The configuration [fetchPage] and [downloadPaper] pass. *)
Definition requestUserAgentConfig : UserAgentConfig.t :=
  {| UserAgentConfig.userAgents := []; UserAgentConfig.rotate := true |}.

(** [k] calls in a row with the same [config], the [i]-th of them with
    the draw [random i]: the agents returned and the index left. *)
Fixpoint getUserAgents (random : nat -> Z) (i k : nat) (config : option UserAgentConfig.t)
    (currentUserAgentIndex : option Z) : list (option string) * option Z :=
  match k with
  | O => ([], currentUserAgentIndex)
  | S k' =>
      let '(agent, index) := getUserAgent (random i) config currentUserAgentIndex in
      let '(rest, final) := getUserAgents random (S i) k' config index in
      (agent :: rest, final)
  end.

(** ** scraper/scholar: BibTeX *)

(** The line feed of the template strings. *)
Definition nl : string := String (ascii_of_nat 10) EmptyString.

(** [arr.join(sep)] *)
Definition join (sep : string) (arr : list string) : string := String.concat sep arr.

(** [`${key}${year}`] of [generateBibTeX]: the last word of the first
    author in lower case (or [unknown]), then the year (or [n.d.]). *)
Definition citationKey (publication : Publication.t) : string :=
  let key :=
    Js.orStr
      match Publication.authors publication with
      | first :: _ => Js.toLowerCase (List.last (Re.split " " first) EmptyString)
      | [] => EmptyString
      end
      "unknown" in
  let year :=
    if truthyNum (Publication.year publication)
    then Js.toString (default 0 (Publication.year publication))
    else "n.d." in
  key +:+ year.

(** [generateBibTeX] *)
Definition generateBibTeX (publication : Publication.t) : string :=
  let authors := join " and " (Publication.authors publication) in
  let bibtex := "@article{" +:+ citationKey publication +:+ "," +:+ nl in
  let bibtex := bibtex +:+ "  title = {" +:+ Publication.title publication +:+ "}," +:+ nl in
  let bibtex := bibtex +:+ "  author = {" +:+ authors +:+ "}," +:+ nl in
  let bibtex :=
    if truthyNum (Publication.year publication)
    then bibtex +:+ "  year = {" +:+ Js.toString (default 0 (Publication.year publication))
                +:+ "}," +:+ nl
    else bibtex in
  let bibtex :=
    if truthyStr (Publication.venue publication)
    then bibtex +:+ "  journal = {" +:+ default EmptyString (Publication.venue publication)
                +:+ "}," +:+ nl
    else bibtex in
  let bibtex :=
    if truthyStr (Publication.url publication)
    then bibtex +:+ "  url = {" +:+ default EmptyString (Publication.url publication)
                +:+ "}," +:+ nl
    else bibtex in
  bibtex +:+ "}".


(** ** tools/handlers

    The server (index) registers eleven tools; each registration
    validates the arguments against its schema and passes the tool's
    name and the arguments to [handleToolCall].  A call is kept as the
    name together with the arguments as the handler for that name reads
    them; the arguments of the six tools without a handler are never
    read. *)

Module TOOL_NAMES.
Definition SEARCH_PUBLICATIONS : string := "search_publications".
Definition SEARCH_AUTHOR : string := "search_author".
Definition GET_AUTHOR_PROFILE : string := "get_author_profile".
Definition GET_CITATIONS : string := "get_citations".
Definition GENERATE_BIBTEX : string := "generate_bibtex".
Definition GET_RELATED_ARTICLES : string := "get_related_articles".
Definition GET_ALL_VERSIONS : string := "get_all_versions".
Definition DOWNLOAD_PAPER : string := "download_paper".
Definition LIST_PAPERS : string := "list_papers".
Definition READ_PAPER : string := "read_paper".
Definition ADVANCED_SEARCH : string := "advanced_search".
End TOOL_NAMES.

Module Content.
Record t : Type := mk {
  type : string;
  text : string
}.
End Content.

Module ToolResult.
Record t : Type := mk {
  content : list Content.t;
  isError : option bool
}.
End ToolResult.

Module SearchPublicationsArgs.
Record t : Type := mk {
  query : string;
  author : option string;
  yearStart : option Z;
  yearEnd : option Z;
  numResults : option Z;
  sortBy : option SortBy
}.
End SearchPublicationsArgs.

Module SearchAuthorArgs.
Record t : Type := mk {
  query : string;
  organization : option string;
  numResults : option Z
}.
End SearchAuthorArgs.

Module GetAuthorProfileArgs.
Record t : Type := mk {
  scholarId : string
}.
End GetAuthorProfileArgs.

Module GetCitationsArgs.
Record t : Type := mk {
  clusterId : string;
  numResults : option Z;
  sortBy : option SortBy
}.
End GetCitationsArgs.

Module GenerateBibtexArgs.
Record t : Type := mk {
  title : string;
  authors : list string;
  year : option Z;
  venue : option string;
  url : option string
}.
End GenerateBibtexArgs.

Inductive ToolCall : Type :=
| SearchPublicationsTool (args : SearchPublicationsArgs.t)
| SearchAuthorTool (args : SearchAuthorArgs.t)
| GetAuthorProfileTool (args : GetAuthorProfileArgs.t)
| GetCitationsTool (args : GetCitationsArgs.t)
| GenerateBibtexTool (args : GenerateBibtexArgs.t)
| GetRelatedArticlesTool
| GetAllVersionsTool
| DownloadPaperTool
| ListPapersTool
| ReadPaperTool
| AdvancedSearchTool.

(** The name each registration passes. *)
Definition toolName (c : ToolCall) : string :=
  match c with
  | SearchPublicationsTool _ => TOOL_NAMES.SEARCH_PUBLICATIONS
  | SearchAuthorTool _ => TOOL_NAMES.SEARCH_AUTHOR
  | GetAuthorProfileTool _ => TOOL_NAMES.GET_AUTHOR_PROFILE
  | GetCitationsTool _ => TOOL_NAMES.GET_CITATIONS
  | GenerateBibtexTool _ => TOOL_NAMES.GENERATE_BIBTEX
  | GetRelatedArticlesTool => TOOL_NAMES.GET_RELATED_ARTICLES
  | GetAllVersionsTool => TOOL_NAMES.GET_ALL_VERSIONS
  | DownloadPaperTool => TOOL_NAMES.DOWNLOAD_PAPER
  | ListPapersTool => TOOL_NAMES.LIST_PAPERS
  | ReadPaperTool => TOOL_NAMES.READ_PAPER
  | AdvancedSearchTool => TOOL_NAMES.ADVANCED_SEARCH
  end.

(** The names [handleToolCall] has a case for. *)
Definition handledNames : list string :=
  [TOOL_NAMES.SEARCH_PUBLICATIONS; TOOL_NAMES.SEARCH_AUTHOR; TOOL_NAMES.GET_AUTHOR_PROFILE;
   TOOL_NAMES.GET_CITATIONS; TOOL_NAMES.GENERATE_BIBTEX].

(** [{ content: [{ type: 'text', text }] }] *)
Definition textResult (text : string) (isError : option bool) : ToolResult.t :=
  {| ToolResult.content := [ {| Content.type := "text"; Content.text := text |} ];
     ToolResult.isError := isError |}.

(** [if (s) output += f(s)] on an optional string *)
Definition whenStr (s : option string) (f : string -> string) : string :=
  if truthyStr s then f (default EmptyString s) else EmptyString.

(** [if (n) output += f(n)] on an optional number *)
Definition whenNum (n : option Z) (f : Z -> string) : string :=
  if truthyNum n then f (default 0 n) else EmptyString.

(** [`${n || 'N/A'}`] on an optional number *)
Definition numOrNA (n : option Z) : string :=
  if truthyNum n then Js.toString (default 0 n) else "N/A".

(** [arr.slice(-n)] for a positive [n] *)
Definition sliceLast {A : Type} (n : nat) (arr : list A) : list A :=
  drop (length arr - n) arr.

(** The object literal [handleSearchPublications] passes on. *)
Definition publicationOptions (args : SearchPublicationsArgs.t) : PublicationSearchOptions.t :=
  {| PublicationSearchOptions.query := SearchPublicationsArgs.query args;
     PublicationSearchOptions.author := SearchPublicationsArgs.author args;
     PublicationSearchOptions.yearStart := SearchPublicationsArgs.yearStart args;
     PublicationSearchOptions.yearEnd := SearchPublicationsArgs.yearEnd args;
     PublicationSearchOptions.numResults :=
       Some (Js.numOr (SearchPublicationsArgs.numResults args) 10);
     PublicationSearchOptions.startIndex := None;
     PublicationSearchOptions.sortBy :=
       Some (default relevance (SearchPublicationsArgs.sortBy args));
     PublicationSearchOptions.includePatents := None;
     PublicationSearchOptions.includeCitations := None;
     PublicationSearchOptions.language := None |}.

(** The object literal [handleSearchAuthor] passes on. *)
Definition authorOptions (args : SearchAuthorArgs.t) : AuthorSearchOptions.t :=
  {| AuthorSearchOptions.query := SearchAuthorArgs.query args;
     AuthorSearchOptions.organization := SearchAuthorArgs.organization args;
     AuthorSearchOptions.numResults := Some (Js.numOr (SearchAuthorArgs.numResults args) 10) |}.

(** The object literal [handleGetCitations] passes on. *)
Definition citationOptions (args : GetCitationsArgs.t) : CitationSearchOptions.t :=
  {| CitationSearchOptions.clusterId := GetCitationsArgs.clusterId args;
     CitationSearchOptions.numResults := Some (Js.numOr (GetCitationsArgs.numResults args) 10);
     CitationSearchOptions.startIndex := None;
     CitationSearchOptions.sortBy := Some (default relevance (GetCitationsArgs.sortBy args)) |}.

(** The [Publication] [handleGenerateBibtex] builds. *)
Definition bibtexPublication (args : GenerateBibtexArgs.t) : Publication.t :=
  {| Publication.title := GenerateBibtexArgs.title args;
     Publication.authors := GenerateBibtexArgs.authors args;
     Publication.year := GenerateBibtexArgs.year args;
     Publication.venue := GenerateBibtexArgs.venue args;
     Publication.abstract := None;
     Publication.citationCount := None;
     Publication.url := GenerateBibtexArgs.url args;
     Publication.pdfUrl := None;
     Publication.clusterId := None;
     Publication.citedByUrl := None;
     Publication.relatedUrl := None;
     Publication.versionsUrl := None;
     Publication.citesId := None;
     Publication.versionsCount := None;
     Publication.eprintUrl := None;
     Publication.source := None |}.

(** [handleError].  What the operations throw is a [ScholarError] or an
    [Error] with a message. *)
Definition handleError (error : Thrown) : ToolResult.t :=
  match error with
  | IsScholarError e =>
      let message := "Error: " +:+ message e in
      let message :=
        match code e with
        | RATE_LIMITED =>
            message +:+ nl +:+ nl +:+
            "Google Scholar has rate-limited requests. Please wait a few minutes before trying again."
        | CAPTCHA_REQUIRED =>
            message +:+ nl +:+ nl +:+
            "Google Scholar is requiring CAPTCHA verification. Try again later."
        | BLOCKED =>
            message +:+ nl +:+ nl +:+
            "Access to Google Scholar has been blocked. Try again later or use a different network."
        | NOT_FOUND =>
            message +:+ nl +:+ nl +:+
            "The requested resource was not found. Please check the ID and try again."
        | INVALID_INPUT =>
            message +:+ nl +:+ nl +:+
            "Please check your input parameters and try again."
        | _ => message
        end in
      textResult message (Some true)
  | OtherError errorMessage => textResult ("Error: " +:+ errorMessage) (Some true)
  end.

Section Handlers.

(** The environment of the handlers: the operations' environment, the
    locale's [Number.prototype.toLocaleString] ([None] is [NaN]) and the
    text of a URL. *)
Variable env : Env.
Variable toLocaleString : option Z -> string.
Variable href : Url -> string.

(** The body of the [forEach] of [formatPublicationResults]. *)
Definition formatPublication (index : nat) (pub : Publication.t) : string :=
  "## " +:+ Js.toString (Z.of_nat index + 1) +:+ ". " +:+ Publication.title pub +:+ nl +:+ nl
  +:+ match Publication.authors pub with
      | [] => EmptyString
      | authors => "**Authors:** " +:+ join ", " authors +:+ nl
      end
  +:+ (if truthyStr (Publication.venue pub) then
         "**Venue:** " +:+ default EmptyString (Publication.venue pub)
         +:+ whenNum (Publication.year pub) (fun year => " (" +:+ Js.toString year +:+ ")")
         +:+ nl
       else whenNum (Publication.year pub) (fun year => "**Year:** " +:+ Js.toString year +:+ nl))
  +:+ whenStr (Publication.abstract pub) (fun abstract => "**Abstract:** " +:+ abstract +:+ nl)
  +:+ match Publication.citationCount pub with
      | Some citationCount =>
          "**Citations:** " +:+ toLocaleString (Some citationCount) +:+ nl
      | None => EmptyString
      end
  +:+ whenStr (Publication.url pub) (fun url => "**URL:** " +:+ url +:+ nl)
  +:+ whenStr (Publication.pdfUrl pub) (fun pdfUrl => "**PDF:** " +:+ pdfUrl +:+ nl)
  +:+ whenStr (Publication.clusterId pub)
        (fun clusterId => "**Cluster ID:** " +:+ clusterId +:+ " (use with get_citations)" +:+ nl)
  +:+ nl +:+ "---" +:+ nl +:+ nl.

(** [formatPublicationResults] *)
Definition formatPublicationResults (publications : list Publication.t) (query : string)
  : string :=
  "# Publication Search Results" +:+ nl +:+ nl
  +:+ "**Query:** " +:+ query +:+ nl
  +:+ "**Results found:** " +:+ Js.toString (Z.of_nat (length publications)) +:+ nl +:+ nl
  +:+ String.concat EmptyString (imap formatPublication publications).

(** [handleSearchPublications] *)
Definition handleSearchPublications (fuel : nat) (args : SearchPublicationsArgs.t)
  : M ToolResult.t :=
  do result <- searchPublications env fuel (publicationOptions args);
  let formattedResults :=
    formatPublicationResults (PublicationSearchResult.publications result)
                             (PublicationSearchResult.query result) in
  ret (textResult formattedResults None).

(** The body of the [forEach] of [handleSearchAuthor]. *)
Definition formatAuthor (index : nat) (author : AuthorSnippet.t) : string :=
  "## " +:+ Js.toString (Z.of_nat index + 1) +:+ ". " +:+ AuthorSnippet.name author
  +:+ nl +:+ nl
  +:+ whenStr (AuthorSnippet.affiliation author)
        (fun affiliation => "**Affiliation:** " +:+ affiliation +:+ nl)
  +:+ whenStr (AuthorSnippet.emailDomain author)
        (fun emailDomain => "**Email Domain:** " +:+ emailDomain +:+ nl)
  +:+ match AuthorSnippet.interests author with
      | Some (_ :: _ as interests) =>
          "**Research Interests:** " +:+ join ", " interests +:+ nl
      | _ => EmptyString
      end
  +:+ whenNum (AuthorSnippet.citationCount author)
        (fun citationCount => "**Total Citations:** " +:+ toLocaleString (Some citationCount)
                              +:+ nl)
  +:+ whenStr (Some (AuthorSnippet.scholarId author))
        (fun scholarId => "**Scholar ID:** " +:+ scholarId +:+ nl)
  +:+ whenStr (AuthorSnippet.url author) (fun url => "**Profile URL:** " +:+ url +:+ nl)
  +:+ nl +:+ "---" +:+ nl +:+ nl.

(** [handleSearchAuthor] *)
Definition handleSearchAuthor (args : SearchAuthorArgs.t) : M ToolResult.t :=
  do result <- searchAuthors env (authorOptions args);
  let output :=
    "# Author Search Results for " +:+ dquote +:+ SearchAuthorArgs.query args +:+ dquote
    +:+ nl +:+ nl
    +:+ "Found " +:+ Js.toString (Z.of_nat (length (AuthorSearchResult.authors result)))
    +:+ " authors" +:+ nl +:+ nl
    +:+ String.concat EmptyString (imap formatAuthor (AuthorSearchResult.authors result)) in
  ret (textResult output None).

(** The bodies of the three [forEach] of [handleGetAuthorProfile]. *)
Definition formatProfilePublication (index : nat) (pub : Publication.t) : string :=
  Js.toString (Z.of_nat index + 1) +:+ ". **" +:+ Publication.title pub +:+ "**" +:+ nl
  +:+ match Publication.authors pub with
      | [] => EmptyString
      | authors => "   Authors: " +:+ join ", " authors +:+ nl
      end
  +:+ whenStr (Publication.venue pub) (fun venue => "   Venue: " +:+ venue)
  +:+ whenNum (Publication.year pub) (fun year => " (" +:+ Js.toString year +:+ ")")
  +:+ nl
  +:+ whenNum (Publication.citationCount pub)
        (fun citationCount => "   Citations: " +:+ Js.toString citationCount +:+ nl)
  +:+ nl.

Definition formatCoauthor (coauthor : CoAuthor.t) : string :=
  "- **" +:+ CoAuthor.name coauthor +:+ "**"
  +:+ whenStr (CoAuthor.affiliation coauthor) (fun affiliation => " (" +:+ affiliation +:+ ")")
  +:+ " - ID: " +:+ CoAuthor.scholarId coauthor +:+ nl.

Definition formatYearData (yearData : CitationsByYear.t) : string :=
  "| " +:+ Js.toString (CitationsByYear.year yearData) +:+ " | "
  +:+ match CitationsByYear.citations yearData with
      | Some citations => Js.toString citations
      | None => "NaN"
      end
  +:+ " |" +:+ nl.

(** The text [handleGetAuthorProfile] builds. *)
Definition formatProfile (author : Author.t) : string :=
  "# Author Profile: " +:+ Author.name author +:+ nl +:+ nl
  +:+ "## Basic Information" +:+ nl +:+ nl
  +:+ whenStr (Author.affiliation author)
        (fun affiliation => "**Affiliation:** " +:+ affiliation +:+ nl)
  +:+ whenStr (Author.emailDomain author)
        (fun emailDomain => "**Email Domain:** " +:+ emailDomain +:+ nl)
  +:+ whenStr (Author.homepage author) (fun homepage => "**Homepage:** " +:+ homepage +:+ nl)
  +:+ match Author.interests author with
      | Some (_ :: _ as interests) =>
          "**Research Interests:** " +:+ join ", " interests +:+ nl
      | _ => EmptyString
      end
  +:+ "**Scholar ID:** " +:+ Author.scholarId author +:+ nl
  +:+ "**Profile URL:** " +:+ href (Author.url author) +:+ nl +:+ nl
  +:+ "## Citation Metrics" +:+ nl +:+ nl
  +:+ "| Metric | All Time | Last 5 Years |" +:+ nl
  +:+ "|--------|----------|---------------|" +:+ nl
  +:+ "| Citations | "
  +:+ Js.orStr match Author.citationCount author with
               | Some citationCount => toLocaleString (Some citationCount)
               | None => EmptyString
               end "N/A"
  +:+ " | - |" +:+ nl
  +:+ "| h-index | " +:+ numOrNA (Author.hIndex author) +:+ " | "
  +:+ numOrNA (Author.hIndex5y author) +:+ " |" +:+ nl
  +:+ "| i10-index | " +:+ numOrNA (Author.i10Index author) +:+ " | "
  +:+ numOrNA (Author.i10Index5y author) +:+ " |" +:+ nl
  +:+ nl
  +:+ match Author.publications author with
      | [] => EmptyString
      | publications =>
          "## Recent Publications ("
          +:+ Js.toString (Z.of_nat (length publications)) +:+ ")" +:+ nl +:+ nl
          +:+ String.concat EmptyString (imap formatProfilePublication (Arr.slice0 10 publications))
      end
  +:+ match Author.coauthors author with
      | Some (_ :: _ as coauthors) =>
          "## Coauthors" +:+ nl +:+ nl
          +:+ String.concat EmptyString (map formatCoauthor (Arr.slice0 10 coauthors))
          +:+ nl
      | _ => EmptyString
      end
  +:+ match Author.citationsByYear author with
      | Some (_ :: _ as citationsByYear) =>
          "## Citations by Year" +:+ nl +:+ nl
          +:+ "| Year | Citations |" +:+ nl
          +:+ "|------|----------|" +:+ nl
          +:+ String.concat EmptyString (map formatYearData (sliceLast 10 citationsByYear))
          +:+ nl
      | _ => EmptyString
      end.

(** [handleGetAuthorProfile] *)
Definition handleGetAuthorProfile (args : GetAuthorProfileArgs.t) : M ToolResult.t :=
  do author <- getAuthorProfile env (GetAuthorProfileArgs.scholarId args);
  ret (textResult (formatProfile author) None).

(** [handleGetCitations].  The [totalCitations] of a result is a number,
    [NaN] ([None]) included. *)
Definition handleGetCitations (fuel : nat) (args : GetCitationsArgs.t) : M ToolResult.t :=
  do result <- getCitations env fuel (citationOptions args);
  let output :=
    "# Citations for Cluster ID: " +:+ GetCitationsArgs.clusterId args +:+ nl +:+ nl
    +:+ "**Total Citations:** "
    +:+ Js.orStr (toLocaleString (CitationSearchResult.totalCitations result)) "Unknown" +:+ nl
    +:+ "**Showing:** "
    +:+ Js.toString (Z.of_nat (length (CitationSearchResult.citations result)))
    +:+ " papers" +:+ nl +:+ nl
    +:+ formatPublicationResults (CitationSearchResult.citations result) "Citations"
    +:+ (if bool_decide (CitationSearchResult.hasMore result = Some true) then
           nl +:+ "*More citations available. Use startIndex: "
           +:+ match CitationSearchResult.nextStartIndex result with
               | Some nextStartIndex => Js.toString nextStartIndex
               | None => "undefined"
               end
           +:+ " to fetch next page.*" +:+ nl
         else EmptyString) in
  ret (textResult output None).

(** [handleGenerateBibtex] *)
Definition handleGenerateBibtex (args : GenerateBibtexArgs.t) : ToolResult.t :=
  let bibtex := generateBibTeX (bibtexPublication args) in
  textResult ("# BibTeX Entry" +:+ nl +:+ nl +:+ "```bibtex" +:+ nl +:+ bibtex +:+ nl +:+ "```")
             None.

(** [handleToolCall(toolName, args)]: the [switch] on the name, inside
    the [try] whose [catch] is [handleError]. *)
Definition handleToolCall (fuel : nat) (c : ToolCall) : M ToolResult.t :=
  tryCatch
    match c with
    | SearchPublicationsTool args => handleSearchPublications fuel args
    | SearchAuthorTool args => handleSearchAuthor args
    | GetAuthorProfileTool args => handleGetAuthorProfile args
    | GetCitationsTool args => handleGetCitations fuel args
    | GenerateBibtexTool args => ret (handleGenerateBibtex args)
    | _ => ret (textResult ("Unknown tool: " +:+ toolName c) (Some true))
    end
    (fun error => ret (handleError error)).

End Handlers.

(** The operation a tool call runs, if it runs one. *)
Definition toolOperation (c : ToolCall) : option Call :=
  match c with
  | SearchPublicationsTool args => Some (CallSearchPublications (publicationOptions args))
  | SearchAuthorTool args => Some (CallSearchAuthors (authorOptions args))
  | GetAuthorProfileTool args => Some (CallGetAuthorProfile (GetAuthorProfileArgs.scholarId args))
  | GetCitationsTool args => Some (CallGetCitations (citationOptions args))
  | _ => None
  end.

(** The fuel that covers a tool call. *)
Definition toolPages (c : ToolCall) : nat :=
  match toolOperation c with
  | Some op => callPages op
  | None => 0
  end.

(** The text of an answer. *)
Definition answerText (r : ToolResult.t) : string :=
  match ToolResult.content r with
  | [item] => Content.text item
  | _ => EmptyString
  end.

(** ** More of the example world: the handlers' environment *)

Module Example4.

(** Numbers printed without grouping. *)
Definition plain (n : option Z) : string :=
  match n with
  | Some k => Js.toString k
  | None => "NaN"
  end.

(** A URL printed as its path. *)
Definition path (url : Url) : string := pathname url.

(** A profile that does not exist. *)
Definition nobody : ToolCall := GetAuthorProfileTool (GetAuthorProfileArgs.mk "nobody").

(** An entry by two authors. *)
Definition entry : Publication.t :=
  bibtexPublication
    (GenerateBibtexArgs.mk "Attention is all you need" ["Ashish Vaswani"; "Noam Shazeer"]
                           (Some 2017) None None).


End Example4.

(** ** Notions for the extracted fields *)


(** An optional text that is absent rather than empty. *)
Definition present (o : option string) : Prop := o <> Some EmptyString.



(** * Properties *)

(** ** The monad *)

Lemma bind_Some {A B} (m : M A) (k : A -> M B) w r w' :
  bind m k w = Some (r, w') ->
  (exists a w1, m w = Some (Return a, w1) /\ k a w1 = Some (r, w'))
  \/ (exists e, m w = Some (Throw e, w') /\ r = Throw e).
Proof.
  unfold bind. destruct (m w) as [[[a|e] w1]|] eqn:E; intros H; try discriminate.
  - left. eauto.
  - right. inversion H; subst. eauto.
Qed.

Lemma tryCatch_Some {A} (m : M A) (h : Thrown -> M A) w r w' :
  tryCatch m h w = Some (r, w') ->
  (exists a, m w = Some (Return a, w') /\ r = Return a)
  \/ (exists e w1, m w = Some (Throw e, w1) /\ h e w1 = Some (r, w')).
Proof.
  unfold tryCatch. destruct (m w) as [[[a|e] w1]|] eqn:E; intros H; try discriminate.
  - left. inversion H; subst. eauto.
  - right. eauto.
Qed.

Section Preservation.
Variable R : World -> World -> Prop.
Hypothesis R_refl : forall w, R w w.
Hypothesis R_trans : forall a b c, R a b -> R b c -> R a c.
(** the bookkeeping updates are harmless *)
Hypothesis R_now : forall t w, R w (set_now t w).
Hypothesis R_last : forall t w, R w (set_lastRequestTime t w).
Hypothesis R_requests : forall w, R w (set_requests (S (requests w)) w).
Hypothesis R_draws : forall w, R w (set_draws (S (draws w)) w).
Hypothesis R_sleep : forall ms w, R w (emit (EvSleep ms) w).
Hypothesis R_get : forall url w, R w (emit (EvScholarGet url) w).

Lemma preserves_ret {A} (a : A) : preserves R (ret a).
Proof. intros w r w' H. inversion H; subst. apply R_refl. Qed.

Lemma preserves_throw {A} e : preserves R (@throw A e).
Proof. intros w r w' H. inversion H; subst. apply R_refl. Qed.

Lemma preserves_gets {A} (f : World -> A) : preserves R (gets f).
Proof. intros w r w' H. inversion H; subst. apply R_refl. Qed.

Lemma preserves_outOfFuel {A} : preserves R (@outOfFuel A).
Proof. intros w r w' H. discriminate. Qed.

Lemma preserves_bind {A B} (m : M A) (k : A -> M B) :
  preserves R m -> (forall a, preserves R (k a)) -> preserves R (bind m k).
Proof.
  intros Hm Hk w r w' H.
  apply bind_Some in H as [(a & w1 & H1 & H2) | (e & H1 & _)].
  - eapply R_trans; [eapply Hm | eapply Hk]; eauto.
  - eapply Hm; eauto.
Qed.

Lemma preserves_tryCatch {A} (m : M A) (h : Thrown -> M A) :
  preserves R m -> (forall e, preserves R (h e)) -> preserves R (tryCatch m h).
Proof.
  intros Hm Hh w r w' H.
  apply tryCatch_Some in H as [(a & H1 & _) | (e & w1 & H1 & H2)].
  - eapply Hm; eauto.
  - eapply R_trans; [eapply Hm | eapply Hh]; eauto.
Qed.

Lemma preserves_if {A} (b : bool) (m1 m2 : M A) :
  preserves R m1 -> preserves R m2 -> preserves R (if b then m1 else m2).
Proof. destruct b; auto. Qed.

Lemma preserves_sleep ms : preserves R (sleep ms).
Proof.
  intros w r w' H. inversion H; subst.
  eapply R_trans; [apply R_sleep | apply R_now].
Qed.

Lemma preserves_random env : preserves R (random env).
Proof. intros w r w' H. inversion H; subst. apply R_draws. Qed.

Lemma preserves_waitForRateLimit env c : preserves R (waitForRateLimit env c).
Proof.
  unfold waitForRateLimit.
  apply preserves_bind; [apply preserves_gets | intros now0].
  apply preserves_bind; [apply preserves_gets | intros last].
  apply preserves_bind; [apply preserves_random | intros r].
  apply preserves_bind.
  - apply preserves_if; [apply preserves_sleep | apply preserves_ret].
  - intros _ w res w' H. inversion H; subst. apply R_last.
Qed.

Lemma preserves_axiosGetScholar env url : preserves R (axiosGetScholar env url).
Proof.
  intros w r w' H. inversion H; subst.
  eapply R_trans; [apply R_get |]. eapply R_trans; [apply R_requests | apply R_now].
Qed.

Lemma preserves_fetchPage env fuel url : forall rc, preserves R (fetchPage env fuel url rc).
Proof.
  induction fuel as [|fuel IH]; intros rc; simpl.
  - apply preserves_outOfFuel.
  - apply preserves_bind; [apply preserves_waitForRateLimit | intros _].
    apply preserves_tryCatch.
    + apply preserves_bind; [apply preserves_axiosGetScholar | intros [html|msg]].
      * repeat apply preserves_if; first [apply preserves_throw | apply preserves_ret].
      * apply preserves_throw.
    + intros [e|msg]; [apply preserves_throw |].
      apply preserves_if; [| apply preserves_throw].
      apply preserves_bind; [apply preserves_sleep | intros _; apply IH].
Qed.

Lemma preserves_fetch env url : preserves R (fetch env url).
Proof. apply preserves_fetchPage. Qed.

Lemma preserves_paginate env fuel build tag numResults :
  forall pubs cur, preserves R (paginate env fuel build tag numResults pubs cur).
Proof.
  induction fuel as [|fuel IH]; intros pubs cur; simpl.
  - apply preserves_if; [apply preserves_outOfFuel | apply preserves_ret].
  - apply preserves_if; [| apply preserves_ret].
    apply preserves_bind; [apply preserves_fetch | intros html].
    destruct (map tag _); [apply preserves_ret |].
    apply preserves_bind; [| intros _; apply IH].
    apply preserves_if; [apply preserves_sleep | apply preserves_ret].
Qed.

Lemma preserves_mapM {A B} (f : A -> B) (m : M A) :
  preserves R m -> preserves R (mapM f m).
Proof. intros H. apply preserves_bind; [exact H | intros a; apply preserves_ret]. Qed.

Lemma preserves_searchAuthors env o : preserves R (searchAuthors env o).
Proof.
  unfold searchAuthors. apply preserves_if; [apply preserves_throw |].
  apply preserves_bind; [apply preserves_fetch | intros html; apply preserves_ret].
Qed.

Lemma preserves_getAuthorProfile env id : preserves R (getAuthorProfile env id).
Proof.
  unfold getAuthorProfile. apply preserves_if; [apply preserves_throw |].
  apply preserves_bind; [apply preserves_fetch | intros html].
  destruct (Cheerio.gsc_prf_in _); [apply preserves_throw | apply preserves_ret].
Qed.

Lemma preserves_getCitations env fuel o : preserves R (getCitations env fuel o).
Proof.
  unfold getCitations. apply preserves_if; [apply preserves_throw |].
  apply preserves_bind; [apply preserves_paginate | intros [citations cur]].
  apply preserves_bind; [apply preserves_fetch | intros html; apply preserves_ret].
Qed.

Lemma preserves_getRelatedArticles env id n : preserves R (getRelatedArticles env id n).
Proof.
  unfold getRelatedArticles. apply preserves_if; [apply preserves_throw |].
  apply preserves_bind; [apply preserves_fetch | intros html; apply preserves_ret].
Qed.

Lemma preserves_getAllVersions env id : preserves R (getAllVersions env id).
Proof.
  unfold getAllVersions. apply preserves_if; [apply preserves_throw |].
  apply preserves_bind; [apply preserves_fetch | intros html; apply preserves_ret].
Qed.

Lemma preserves_advancedSearch env fuel o : preserves R (advancedSearch env fuel o).
Proof.
  unfold advancedSearch. apply preserves_if; [apply preserves_throw |].
  apply preserves_bind; [apply preserves_paginate | intros [pubs cur]; apply preserves_ret].
Qed.

(** the two updates that only [searchPublications] performs *)
Hypothesis R_serp : forall params w, R w (emit (EvSerpApiGet params) w).
Hypothesis R_flag : forall w, R w (set_useSerpApiFallback true w).

Lemma preserves_axiosGetSerpApi env params : preserves R (axiosGetSerpApi env params).
Proof.
  intros w r w' H. inversion H; subst.
  eapply R_trans; [apply R_serp |]. eapply R_trans; [apply R_requests | apply R_now].
Qed.

Lemma preserves_searchPublicationsSerpApi env o :
  preserves R (searchPublicationsSerpApi env o).
Proof.
  unfold searchPublicationsSerpApi.
  apply preserves_bind.
  - unfold getApiKey. apply preserves_bind; [apply preserves_gets | intros cfg].
    apply preserves_if; [apply preserves_ret | apply preserves_throw].
  - intros apiKey. apply preserves_tryCatch.
    + apply preserves_bind; [apply preserves_axiosGetSerpApi | intros [data|msg]].
      * apply preserves_if; [apply preserves_throw | apply preserves_ret].
      * apply preserves_throw.
    + intros [e|msg]; apply preserves_throw.
Qed.

Lemma preserves_searchPublications env fuel o :
  preserves R (searchPublications env fuel o).
Proof.
  unfold searchPublications.
  apply preserves_bind; [apply preserves_gets | intros flag].
  apply preserves_bind; [apply preserves_gets | intros cfg].
  apply preserves_if; [apply preserves_searchPublicationsSerpApi |].
  apply preserves_if; [apply preserves_throw |].
  apply preserves_bind.
  - apply preserves_tryCatch.
    + apply preserves_bind; [apply preserves_paginate | intros st; apply preserves_ret].
    + intros error. apply preserves_bind; [apply preserves_gets | intros cfg'].
      apply preserves_if; [| apply preserves_throw].
      apply preserves_bind.
      * intros w r w' H. inversion H; subst. apply R_flag.
      * intros _. apply preserves_bind;
          [apply preserves_searchPublicationsSerpApi | intros r; apply preserves_ret].
  - intros [[pubs cur]|r]; apply preserves_ret.
Qed.

Lemma preserves_invoke env fuel c : preserves R (invoke env fuel c).
Proof.
  destruct c; simpl; apply preserves_mapM;
    auto using preserves_searchPublications, preserves_searchAuthors,
      preserves_getAuthorProfile, preserves_getCitations, preserves_getRelatedArticles,
      preserves_getAllVersions, preserves_advancedSearch.
Qed.

End Preservation.

(** ** The provider selector *)

Lemma step_flagMonotone env w w' : step env w w' -> flagMonotone w w'.
Proof.
  intros [fuel c w0 r w1 H].
  eapply (preserves_invoke flagMonotone); eauto;
    unfold flagMonotone; simpl; auto.
Qed.

Lemma run_flagMonotone env ws :
  run env ws ->
  forall i j wi wj, (i <= j)%nat -> ws !! i = Some wi -> ws !! j = Some wj ->
                    flagMonotone wi wj.
Proof.
  induction 1 as [w | w w' ws Hstep Hrun IH]; intros i j wi wj Hij Hi Hj.
  - destruct i, j; simpl in *; try discriminate; try lia.
    inversion Hi; inversion Hj; subst. intros E; exact E.
  - destruct i as [|i].
    + simpl in Hi. inversion Hi; subst.
      destruct j as [|j]; simpl in Hj.
      * inversion Hj; subst. intros E; exact E.
      * intros E. eapply (IH 0%nat j w' wj); [lia | reflexivity | exact Hj |].
        eapply step_flagMonotone; eauto.
    + destruct j as [|j]; [lia |]. simpl in Hi, Hj.
      eapply IH; [| exact Hi | exact Hj]. lia.
Qed.

Lemma run_flips env ws :
  run env ws ->
  (flips ws <= 1)%nat
  /\ (forall w rest, ws = w :: rest -> useSerpApiFallback w = true -> flips ws = 0%nat).
Proof.
  induction 1 as [w | w w' ws Hstep Hrun [IH1 IH2]].
  - split; [simpl; lia | intros; reflexivity].
  - pose proof (step_flagMonotone _ _ _ Hstep) as Hmono.
    split.
    + change (((if negb (useSerpApiFallback w) && useSerpApiFallback w' then 1 else 0)
               + flips (w' :: ws) <= 1)%nat).
      destruct (useSerpApiFallback w) eqn:Ew; cbn [negb andb Nat.add].
      * exact IH1.
      * destruct (useSerpApiFallback w') eqn:Ew'; cbn [negb andb Nat.add]; [| exact IH1].
        rewrite (IH2 w' ws eq_refl Ew'). lia.
    + intros w0 rest E Hw0. inversion E; subst.
      change (((if negb (useSerpApiFallback w0) && useSerpApiFallback w' then 1 else 0)
               + flips (w' :: ws) = 0)%nat).
      rewrite Hw0. cbn [negb andb Nat.add]. apply (IH2 w' ws eq_refl). apply Hmono, Hw0.
Qed.

(** C3.  The provider-selection flag starts at primary ([false]); along
    every execution of the process, once the flag is set it is set in
    every later world (no transition from alternate back to primary),
    and the flag goes from primary to alternate at most once. *)
Theorem selector_flag_is_sticky env cfg t0 ws :
  run env (initialWorld cfg t0 :: ws) ->
  useSerpApiFallback (initialWorld cfg t0) = false
  /\ (forall i j wi wj,
        (i <= j)%nat ->
        (initialWorld cfg t0 :: ws) !! i = Some wi ->
        (initialWorld cfg t0 :: ws) !! j = Some wj ->
        useSerpApiFallback wi = true -> useSerpApiFallback wj = true)
  /\ (flips (initialWorld cfg t0 :: ws) <= 1)%nat.
Proof.
  intros Hrun. split; [reflexivity | split].
  - intros i j wi wj Hij Hi Hj. eapply run_flagMonotone; eauto.
  - apply (run_flips _ _ Hrun).
Qed.

(** ** The pacer and the HTTP client *)

Lemma waitForRateLimit_paced env w :
  waitForRateLimit env None w = Some (Return tt, paced env w).
Proof.
  unfold paced, waitForRateLimit, bind, gets, random, modify, sleep, ret.
  cbn. destruct (_ <? _); reflexivity.
Qed.

Lemma paced_facts env w :
  requests (paced env w) = requests w
  /\ useSerpApiFallback (paced env w) = useSerpApiFallback w
  /\ config (paced env w) = config w
  /\ cache (paced env w) = cache w
  /\ exists p, pacingEvents p /\ trace (paced env w) = (trace w ++ p)%list.
Proof.
  unfold paced, waitForRateLimit, bind, gets, random, modify, sleep, ret.
  cbn. destruct (_ <? _); cbn; repeat split; trivial.
  - eexists; split; [right; eexists; reflexivity | reflexivity].
  - exists []; split; [left; reflexivity | symmetry; apply app_nil_r].
Qed.

Lemma requests_paced env w : requests (paced env w) = requests w.
Proof. apply paced_facts. Qed.

(** One attempt of [fetchPage], spelled out. *)
Lemma fetchPage_attempt env fuel url rc w :
  fetchPage env (S fuel) url rc w =
  let w1 := requested env url (paced env w) in
  match scholar_get env (requests w) url with
  | Resolved html => Some (classify html, w1)
  | Rejected msg =>
      if (rc <? MAX_RETRIES)%nat
      then fetchPage env fuel url (rc + 1) (slept (getBackoffDelay rc None) w1)
      else Some (Throw (networkError msg), w1)
  end.
Proof.
  cbn [fetchPage]. unfold bind at 1. rewrite waitForRateLimit_paced.
  unfold tryCatch, bind, axiosGetScholar. rewrite requests_paced.
  destruct (scholar_get env (requests w) url) as [html|msg]; cbv beta iota zeta.
  - unfold classify, throwScholar, throw, ret, rateLimitedError, blockedError, requested.
    rewrite requests_paced.
    destruct (isRateLimited html); [reflexivity |].
    destruct (isBlocked html); reflexivity.
  - unfold requested. rewrite requests_paced.
    destruct (rc <? MAX_RETRIES)%nat; reflexivity.
Qed.

Lemma requests_requested env url w : requests (requested env url w) = S (requests w).
Proof. reflexivity. Qed.

Lemma requests_slept ms w : requests (slept ms w) = requests w.
Proof. reflexivity. Qed.

(** *** Strings: a body that contains a phrase *)


Lemma startsWith_app p s : Js.startsWith p (p +:+ s) = true.
Proof.
  induction p as [|c p IH]; simpl; [reflexivity |].
  destruct (ascii_dec c c); [exact IH | congruence].
Qed.

Lemma includes_app pre sub post : Js.includes sub (pre +:+ sub +:+ post) = true.
Proof.
  induction pre as [|c pre IH].
  - simpl. destruct (sub +:+ post) eqn:E; simpl.
    + rewrite <- E, startsWith_app. reflexivity.
    + rewrite <- E, startsWith_app. reflexivity.
  - change (Js.includes sub (String c (pre +:+ sub +:+ post)) = true).
    cbn [Js.includes]. rewrite IH. apply orb_true_r.
Qed.


Lemma trace_requested env url w :
  trace (requested env url w) = (trace w ++ [EvScholarGet url])%list.
Proof. reflexivity. Qed.

Lemma trace_slept ms w : trace (slept ms w) = (trace w ++ [EvSleep ms])%list.
Proof. reflexivity. Qed.

Lemma trace_paced env w :
  exists p, pacingEvents p /\ trace (paced env w) = (trace w ++ p)%list.
Proof. apply paced_facts. Qed.

(** After [k] rejected attempts, an attempt that is answered is
    classified, whatever the retry count reached. *)
Lemma fetchPage_answered env url k :
  forall fuel rc w html,
    (k < fuel)%nat -> (rc + k <= MAX_RETRIES)%nat ->
    (forall j, (j < k)%nat -> exists m, scholar_get env (requests w + j) url = Rejected m) ->
    scholar_get env (requests w + k) url = Resolved html ->
    exists w', fetchPage env fuel url rc w = Some (classify html, w')
               /\ requests w' = (requests w + S k)%nat.
Proof.
  induction k as [|k IH]; intros fuel rc w html Hfuel Hrc Hrej Hres.
  - destruct fuel as [|fuel]; [lia |].
    rewrite fetchPage_attempt. cbv zeta.
    rewrite Nat.add_0_r in Hres. rewrite Hres.
    eexists; split; [reflexivity |]. rewrite requests_requested, requests_paced. lia.
  - destruct fuel as [|fuel]; [lia |].
    rewrite fetchPage_attempt. cbv zeta.
    destruct (Hrej 0%nat ltac:(lia)) as [m Hm]. rewrite Nat.add_0_r in Hm. rewrite Hm.
    replace (rc <? MAX_RETRIES)%nat with true by (symmetry; apply Nat.ltb_lt; lia).
    set (w1 := slept _ _).
    assert (E : requests w1 = S (requests w)).
    { unfold w1. rewrite requests_slept, requests_requested, requests_paced. reflexivity. }
    destruct (IH fuel (rc + 1)%nat w1 html) as (w' & Hw' & Hreq); try lia.
    + intros j Hj. rewrite E. destruct (Hrej (S j) ltac:(lia)) as [m' Hm'].
      exists m'. rewrite <- Hm'. f_equal. lia.
    + rewrite E, <- Hres. f_equal. lia.
    + exists w'. split; [exact Hw' | rewrite Hreq, E; lia].
Qed.


Lemma getBackoffDelay_default attempt :
  getBackoffDelay attempt None = Z.min (1000 * 2 ^ Z.of_nat attempt) (10 * 5000).
Proof. reflexivity. Qed.

(** Four rejected attempts in a row: three retries, spaced by the
    back-off delays, then the network error. *)
Lemma fetch_exhausted env url w (msg : nat -> string) :
  (forall j, (j <= MAX_RETRIES)%nat ->
             scholar_get env (requests w + j) url = Rejected (msg j)) ->
  exists w' p0 p1 p2 p3,
    fetch env url w = Some (Throw (networkError (msg 3%nat)), w')
    /\ requests w' = (requests w + 4)%nat
    /\ pacingEvents p0 /\ pacingEvents p1 /\ pacingEvents p2 /\ pacingEvents p3
    /\ trace w' =
       (trace w ++ p0 ++ [EvScholarGet url; EvSleep (getBackoffDelay 0 None)]
                ++ p1 ++ [EvScholarGet url; EvSleep (getBackoffDelay 1 None)]
                ++ p2 ++ [EvScholarGet url; EvSleep (getBackoffDelay 2 None)]
                ++ p3 ++ [EvScholarGet url])%list.
Proof.
  intros H.
  pose proof (H 0%nat ltac:(unfold MAX_RETRIES; lia)) as H0.
  pose proof (H 1%nat ltac:(unfold MAX_RETRIES; lia)) as H1.
  pose proof (H 2%nat ltac:(unfold MAX_RETRIES; lia)) as H2.
  pose proof (H 3%nat ltac:(unfold MAX_RETRIES; lia)) as H3.
  rewrite Nat.add_0_r in H0.
  unfold fetch. change (S MAX_RETRIES) with 4%nat.
  rewrite fetchPage_attempt; cbv zeta. rewrite H0.
  change (0 <? MAX_RETRIES)%nat with true. cbv iota.
  set (w1 := slept (getBackoffDelay 0 None) (requested env url (paced env w))).
  assert (E1 : requests w1 = (requests w + 1)%nat).
  { unfold w1. rewrite requests_slept, requests_requested, requests_paced. lia. }
  rewrite fetchPage_attempt; cbv zeta. rewrite E1, H1.
  change (0 + 1 <? MAX_RETRIES)%nat with true. cbv iota.
  set (w2 := slept (getBackoffDelay (0 + 1) None) (requested env url (paced env w1))).
  assert (E2 : requests w2 = (requests w + 2)%nat).
  { unfold w2. rewrite requests_slept, requests_requested, requests_paced, E1. lia. }
  rewrite fetchPage_attempt; cbv zeta. rewrite E2, H2.
  change (0 + 1 + 1 <? MAX_RETRIES)%nat with true. cbv iota.
  set (w3 := slept (getBackoffDelay (0 + 1 + 1) None) (requested env url (paced env w2))).
  assert (E3 : requests w3 = (requests w + 3)%nat).
  { unfold w3. rewrite requests_slept, requests_requested, requests_paced, E2. lia. }
  rewrite fetchPage_attempt; cbv zeta. rewrite E3, H3.
  change (0 + 1 + 1 + 1 <? MAX_RETRIES)%nat with false. cbv iota.
  destruct (trace_paced env w) as (p0 & Hp0 & T0).
  destruct (trace_paced env w1) as (p1 & Hp1 & T1).
  destruct (trace_paced env w2) as (p2 & Hp2 & T2).
  destruct (trace_paced env w3) as (p3 & Hp3 & T3).
  exists (requested env url (paced env w3)), p0, p1, p2, p3.
  split; [reflexivity |].
  split; [rewrite requests_requested, requests_paced, E3; lia |].
  repeat (split; [assumption |]).
  rewrite trace_requested, T3. unfold w3.
  rewrite trace_slept, trace_requested, T2. unfold w2.
  rewrite trace_slept, trace_requested, T1. unfold w1.
  rewrite trace_slept, trace_requested, T0.
  change (0 + 1 + 1)%nat with 2%nat. change (0 + 1)%nat with 1%nat.
  repeat rewrite <- app_assoc. reflexivity.
Qed.

(** A blocking signal on the first attempt: one request, no back-off
    sleep, and the error of the signal. *)
Lemma fetch_blocking_signal env url w html :
  scholar_get env (requests w) url = Resolved html ->
  isRateLimited html = true \/ isBlocked html = true ->
  exists w' e p,
    fetch env url w = Some (Throw (IsScholarError e), w')
    /\ (code e = RATE_LIMITED \/ code e = BLOCKED)
    /\ requests w' = S (requests w)
    /\ pacingEvents p
    /\ trace w' = (trace w ++ p ++ [EvScholarGet url])%list
    /\ selectorUntouched w w'.
Proof.
  intros Hres Hsig. unfold fetch. rewrite fetchPage_attempt; cbv zeta. rewrite Hres.
  destruct (trace_paced env w) as (p & Hp & T).
  destruct (paced_facts env w) as (_ & Hf & Hc & Hs & _).
  assert (exists e, classify html = Throw (IsScholarError e)
                    /\ (code e = RATE_LIMITED \/ code e = BLOCKED)) as (e & He & Hcode).
  { unfold classify. destruct (isRateLimited html).
    - eexists; split; [reflexivity | left; reflexivity].
    - destruct Hsig as [? | Hb]; [discriminate |]. rewrite Hb.
      eexists; split; [reflexivity | right; reflexivity]. }
  exists (requested env url (paced env w)), e, p. rewrite He.
  split; [reflexivity |]. split; [exact Hcode |].
  split; [rewrite requests_requested, requests_paced; reflexivity |].
  split; [exact Hp |].
  split; [rewrite trace_requested, T, <- app_assoc; reflexivity |].
  unfold selectorUntouched, requested; simpl. auto.
Qed.

(** C8.  [getBackoffDelay(attempt)] is [minDelay * multiplier^attempt]
    capped at [10 * maxDelay]; a transport failure is retried, and an
    attempt that is answered after at most [MAX_RETRIES = 3] failures
    decides the outcome; four failures in a row end in NETWORK_ERROR
    after exactly four requests with the back-off delays of attempts 0,
    1 and 2 slept between them; a RATE_LIMITED or BLOCKED answer is
    thrown after that single request, without back-off and without a
    further request. *)
Theorem fetch_retry_policy env url w :
  (forall attempt c,
      getBackoffDelay attempt c =
      Z.min (minDelay (mergeRateLimitConfig c)
             * backoffMultiplier (mergeRateLimitConfig c) ^ Z.of_nat attempt)
            (10 * maxDelay (mergeRateLimitConfig c)))
  /\ (forall attempt,
         getBackoffDelay attempt None = Z.min (1000 * 2 ^ Z.of_nat attempt) (10 * 5000))
  /\ (forall k html,
         (k <= MAX_RETRIES)%nat ->
         (forall j, (j < k)%nat ->
                    exists m, scholar_get env (requests w + j) url = Rejected m) ->
         scholar_get env (requests w + k) url = Resolved html ->
         exists w', fetch env url w = Some (classify html, w')
                    /\ requests w' = (requests w + S k)%nat)
  /\ (forall msg : nat -> string,
         (forall j, (j <= MAX_RETRIES)%nat ->
                    scholar_get env (requests w + j) url = Rejected (msg j)) ->
         exists w' p0 p1 p2 p3,
           fetch env url w = Some (Throw (networkError (msg 3%nat)), w')
           /\ requests w' = (requests w + 4)%nat
           /\ pacingEvents p0 /\ pacingEvents p1 /\ pacingEvents p2 /\ pacingEvents p3
           /\ trace w' =
              (trace w ++ p0 ++ [EvScholarGet url; EvSleep 1000]
                       ++ p1 ++ [EvScholarGet url; EvSleep 2000]
                       ++ p2 ++ [EvScholarGet url; EvSleep 4000]
                       ++ p3 ++ [EvScholarGet url])%list)
  /\ (forall html,
         scholar_get env (requests w) url = Resolved html ->
         isRateLimited html = true \/ isBlocked html = true ->
         exists w' e p,
           fetch env url w = Some (Throw (IsScholarError e), w')
           /\ (code e = RATE_LIMITED \/ code e = BLOCKED)
           /\ requests w' = S (requests w)
           /\ pacingEvents p
           /\ trace w' = (trace w ++ p ++ [EvScholarGet url])%list).
Proof.
  split; [| split; [| split; [| split]]].
  - intros attempt c. unfold getBackoffDelay. f_equal. apply Z.mul_comm.
  - exact getBackoffDelay_default.
  - intros k html Hk Hrej Hres.
    apply (fetchPage_answered env url k (S MAX_RETRIES) 0%nat w html); auto; simpl; lia.
  - intros msg H. exact (fetch_exhausted env url w msg H).
  - intros html Hres Hsig.
    destruct (fetch_blocking_signal env url w html Hres Hsig)
      as (w' & e & p & H1 & H2 & H3 & H4 & H5 & _).
    exists w', e, p. auto.
Qed.

(** ** The result cache *)

Section CacheProperties.
Context {T : Type}.
Implicit Types (cache : ScholarCache.store T) (cfg : Config.t).

Lemma cache_get_fresh cfg now now' key (v : T) ttl' cache :
  Config.cacheEnabled cfg = true ->
  now' - now <= default (Config.cacheTtlMs cfg) ttl' ->
  ScholarCache.get cfg now' key (ScholarCache.set cfg now key v ttl' cache)
  = (Some v, ScholarCache.set cfg now key v ttl' cache).
Proof.
  intros Hen Hle. unfold ScholarCache.get, ScholarCache.set.
  rewrite Hen. cbn [negb]. rewrite lookup_insert_eq. unfold ScholarCache.expired. cbn.
  replace (_ >? _) with false; [reflexivity |].
  symmetry. rewrite Z.gtb_ltb. apply Z.ltb_ge. exact Hle.
Qed.

Lemma cache_get_expired cfg now' key entry cache :
  Config.cacheEnabled cfg = true ->
  cache !! key = Some entry ->
  now' - ScholarCache.timestamp entry > ScholarCache.ttl entry ->
  ScholarCache.get cfg now' key cache = (None, delete key cache).
Proof.
  intros Hen Hk Hexp. unfold ScholarCache.get.
  rewrite Hen, Hk. cbn [negb].
  unfold ScholarCache.expired.
  replace (_ >? _) with true; [reflexivity |].
  symmetry. rewrite Z.gtb_ltb. apply Z.ltb_lt. lia.
Qed.

Lemma cache_get_Some cfg now' key cache (x : T) cache' :
  ScholarCache.get cfg now' key cache = (Some x, cache') ->
  exists entry, cache !! key = Some entry /\ ScholarCache.data entry = x
                /\ now' - ScholarCache.timestamp entry <= ScholarCache.ttl entry
                /\ cache' = cache.
Proof.
  unfold ScholarCache.get. destruct (negb _); [discriminate |].
  destruct (cache !! key) as [entry|]; [| discriminate].
  unfold ScholarCache.expired.
  destruct (_ >? _) eqn:E; [discriminate |].
  intros H. inversion H; subst. exists entry. repeat split.
  rewrite Z.gtb_ltb in E. apply Z.ltb_ge in E. exact E.
Qed.

(** The periodic sweep keeps exactly the entries that have not expired. *)
Lemma cleanup_lookup now key entry cache :
  ScholarCache.cleanup now cache !! key = Some entry
  <-> cache !! key = Some entry /\ ScholarCache.expired now entry = false.
Proof. unfold ScholarCache.cleanup. apply map_lookup_filter_Some. Qed.

End CacheProperties.

(** C9.  With caching enabled: a [get] that follows a [set] of the same
    key before more than the entry's ttl has elapsed -- in particular
    immediately, for a ttl that is not negative -- returns the value
    that was set; a [get] of an entry older than its ttl returns
    nothing and removes the entry; and no [get] ever returns an entry
    whose age exceeds its ttl. *)
Theorem cache_roundtrip_and_expiry {T : Type} (cfg : Config.t)
    (cache : ScholarCache.store T) (key : string) :
  Config.cacheEnabled cfg = true ->
  (forall now (v : T) ttl',
      0 <= default (Config.cacheTtlMs cfg) ttl' ->
      ScholarCache.get cfg now key (ScholarCache.set cfg now key v ttl' cache)
      = (Some v, ScholarCache.set cfg now key v ttl' cache))
  /\ (forall now now' (v : T) ttl',
         now' - now <= default (Config.cacheTtlMs cfg) ttl' ->
         fst (ScholarCache.get cfg now' key (ScholarCache.set cfg now key v ttl' cache))
         = Some v)
  /\ (forall now' entry,
         cache !! key = Some entry ->
         now' - ScholarCache.timestamp entry > ScholarCache.ttl entry ->
         ScholarCache.get cfg now' key cache = (None, delete key cache)
         /\ delete key cache !! key = None)
  /\ (forall now' x cache',
         ScholarCache.get cfg now' key cache = (Some x, cache') ->
         exists entry, cache !! key = Some entry /\ ScholarCache.data entry = x
                       /\ now' - ScholarCache.timestamp entry <= ScholarCache.ttl entry).
Proof.
  intros Hen. split; [| split; [| split]].
  - intros now v ttl' Httl. apply cache_get_fresh; [exact Hen | lia].
  - intros now now' v ttl' Hle. rewrite cache_get_fresh; auto.
  - intros now' entry Hk Hexp. split.
    + apply (cache_get_expired cfg now' key entry cache); auto.
    + apply lookup_delete_eq.
  - intros now' x cache' H. apply cache_get_Some in H as (entry & ? & ? & ? & _). eauto.
Qed.

(** ** Author metrics *)

Lemma numOrUndefined_not_zero n : Js.numOrUndefined n <> Some 0.
Proof.
  unfold Js.numOrUndefined. destruct n as [k|]; [| discriminate].
  destruct (k =? 0) eqn:E; [discriminate |].
  intros H. inversion H; subst. discriminate.
Qed.

Lemma numOrUndefined_zero n : n = Some 0 \/ n = None -> Js.numOrUndefined n = None.
Proof. intros [-> | ->]; reflexivity. Qed.

Lemma metricCell_missing cells i : cells !! i = None -> metricCell cells i = Some 0.
Proof.
  intros H. unfold metricCell, Cheerio.eq. rewrite H. reflexivity.
Qed.

Lemma getAuthorProfile_Return env scholarId w a w' :
  getAuthorProfile env scholarId w = Some (Return a, w') ->
  exists html,
    a = parseAuthorProfile scholarId (buildAuthorProfileUrl scholarId) (cheerio_load env html).
Proof.
  unfold getAuthorProfile. destruct (bool_decide _); [discriminate |].
  intros H. apply bind_Some in H as [(html & w1 & _ & H) | (e & _ & ?)]; [| discriminate].
  exists html. destruct (Cheerio.gsc_prf_in _); [discriminate |].
  inversion H; subst. reflexivity.
Qed.

(** C10.  An [Author] returned by [getAuthorProfile] is the profile
    parsed from some fetched page; none of its five bibliometric fields
    is [0]; and a field is absent whenever its cell of the metrics table
    is missing or parses to [0]. *)
Theorem author_metrics_never_zero env scholarId w a w' :
  getAuthorProfile env scholarId w = Some (Return a, w') ->
  exists doc,
    a = parseAuthorProfile scholarId (buildAuthorProfileUrl scholarId) doc
    /\ Author.citationCount a <> Some 0
    /\ Author.hIndex a <> Some 0
    /\ Author.hIndex5y a <> Some 0
    /\ Author.i10Index a <> Some 0
    /\ Author.i10Index5y a <> Some 0
    /\ (let cells := Cheerio.gsc_rsb_std doc in
        let absent (i : nat) :=
          cells !! i = None \/ metricCell cells i = Some 0 \/ metricCell cells i = None in
        (absent 0%nat -> Author.citationCount a = None)
        /\ (absent 2%nat -> Author.hIndex a = None)
        /\ (absent 3%nat -> Author.hIndex5y a = None)
        /\ (absent 4%nat -> Author.i10Index a = None)
        /\ (absent 5%nat -> Author.i10Index5y a = None)).
Proof.
  intros H. apply getAuthorProfile_Return in H as [html ->].
  exists (cheerio_load env html). split; [reflexivity |].
  cbn [parseAuthorProfile Author.citationCount Author.hIndex Author.hIndex5y
       Author.i10Index Author.i10Index5y].
  repeat (split; [apply numOrUndefined_not_zero |]).
  cbv zeta.
  repeat split; (intros [Hm | Hz]; apply numOrUndefined_zero;
                 [left; apply metricCell_missing; exact Hm | tauto]).
Qed.

(** ** Extraction *)

Lemma parsePublicationCard_untitled el :
  cardTitle el = EmptyString -> parsePublicationCard el = None.
Proof.
  intros H. unfold parsePublicationCard. fold (cardTitle el). rewrite H. reflexivity.
Qed.

Lemma parsePublicationCard_titled el :
  cardTitle el <> EmptyString ->
  exists p, parsePublicationCard el = Some p /\ Publication.title p = cardTitle el.
Proof.
  intros H. unfold parsePublicationCard. fold (cardTitle el).
  rewrite bool_decide_eq_false_2 by exact H. eexists; split; reflexivity.
Qed.

Lemma parsePublicationCard_Some el p :
  parsePublicationCard el = Some p ->
  Publication.title p = cardTitle el /\ cardTitle el <> EmptyString.
Proof.
  destruct (decide (cardTitle el = EmptyString)) as [E|E].
  - rewrite (parsePublicationCard_untitled el E). discriminate.
  - destruct (parsePublicationCard_titled el E) as (q & Hq & Ht).
    rewrite Hq. intros H; inversion H; subst. auto.
Qed.

Lemma omap_cons_match {A B} (f : A -> option B) (x : A) (l : list A) :
  omap f (x :: l) = match f x with Some y => y :: omap f l | None => omap f l end.
Proof. reflexivity. Qed.

Lemma titles_of_cards cards :
  map Publication.title (omap parsePublicationCard cards)
  = filter (fun t => t <> EmptyString) (map cardTitle cards).
Proof.
  induction cards as [|el cards IH]; [reflexivity |].
  rewrite omap_cons_match. cbn [map].
  destruct (decide (cardTitle el = EmptyString)) as [E|E].
  - rewrite (parsePublicationCard_untitled el E), filter_cons_False by tauto. exact IH.
  - destruct (parsePublicationCard_titled el E) as (p & Hp & Ht).
    rewrite Hp, filter_cons_True by exact E. cbn [map]. rewrite Ht, IH. reflexivity.
Qed.

Lemma omap_all_titled cards :
  Forall (fun el => cardTitle el <> EmptyString) cards ->
  length (omap parsePublicationCard cards) = length cards.
Proof.
  intros H. rewrite <- (length_map Publication.title), titles_of_cards.
  rewrite <- (length_map cardTitle cards).
  f_equal. induction H as [|el cards Hel _ IH]; [reflexivity |].
  cbn [map]. rewrite filter_cons_True by exact Hel. f_equal. exact IH.
Qed.

(** C6.  For every page, every publication that the extractor returns
    has a non-empty title; the titles returned are, in order, the
    non-empty titles of the cards; a card without a title is left out
    and the cards around it are extracted as if it were not there: nine
    cards of which one has no title give eight records. *)
Theorem extraction_drops_untitled_cards env html :
  let doc := cheerio_load env html in
  Forall (fun p => Publication.title p <> EmptyString) (parsePublicationResults doc)
  /\ map Publication.title (parsePublicationResults doc)
     = filter (fun t => t <> EmptyString) (map cardTitle (Cheerio.gs_r doc))
  /\ (forall before el after,
         Cheerio.gs_r doc = (before ++ el :: after)%list ->
         cardTitle el = EmptyString ->
         parsePublicationResults doc
         = (omap parsePublicationCard before ++ omap parsePublicationCard after)%list)
  /\ (forall before el after,
         Cheerio.gs_r doc = (before ++ el :: after)%list ->
         length (Cheerio.gs_r doc) = 9%nat ->
         cardTitle el = EmptyString ->
         Forall (fun c => cardTitle c <> EmptyString) (before ++ after) ->
         length (parsePublicationResults doc) = 8%nat).
Proof.
  intros doc. unfold parsePublicationResults.
  assert (Hsplit : forall before el after,
             Cheerio.gs_r doc = (before ++ el :: after)%list ->
             cardTitle el = EmptyString ->
             omap parsePublicationCard (Cheerio.gs_r doc)
             = (omap parsePublicationCard before ++ omap parsePublicationCard after)%list).
  { intros before el after E Hel. rewrite E, omap_app, omap_cons_match.
    rewrite (parsePublicationCard_untitled el Hel). reflexivity. }
  split; [| split; [| split]].
  - apply Forall_forall. intros p Hp.
    apply list_elem_of_omap in Hp as (el & _ & Hel).
    apply parsePublicationCard_Some in Hel as [-> ?]. assumption.
  - apply titles_of_cards.
  - exact Hsplit.
  - intros before el after E Hlen Hel Hall.
    rewrite (Hsplit before el after E Hel), <- omap_app, (omap_all_titled _ Hall).
    rewrite E in Hlen. rewrite length_app in Hlen. cbn [length] in Hlen.
    rewrite length_app. lia.
Qed.

(** ** Pagination *)

Lemma fetchPage_total env url :
  forall fuel rc w,
    (MAX_RETRIES - rc < fuel)%nat -> exists out, fetchPage env fuel url rc w = Some out.
Proof.
  induction fuel as [|fuel IH]; intros rc w Hfuel; [lia |].
  rewrite fetchPage_attempt. cbv zeta.
  destruct (scholar_get env (requests w) url) as [html|msg]; [eauto |].
  destruct (rc <? MAX_RETRIES)%nat eqn:E; [| eauto].
  apply Nat.ltb_lt in E. apply IH. lia.
Qed.

Lemma fetch_total env url w : exists out, fetch env url w = Some out.
Proof. apply fetchPage_total. lia. Qed.

Lemma lengthLt_true {A} (l : list A) n : Arr.lengthLt l n = true <-> Z.of_nat (length l) < n.
Proof. unfold Arr.lengthLt. apply Z.ltb_lt. Qed.

Lemma lengthLt_false {A} (l : list A) n : Arr.lengthLt l n = false <-> n <= Z.of_nat (length l).
Proof. unfold Arr.lengthLt. apply Z.ltb_ge. Qed.

(** One iteration of the loop, spelled out. *)
Lemma paginate_iteration env fuel build tag numResults publications currentStart w :
  paginate env (S fuel) build tag numResults publications currentStart w =
  if Arr.lengthLt publications numResults then
    match fetch env (build currentStart) w with
    | Some (Return html, w1) =>
        match map tag (parsePublicationResults (cheerio_load env html)) with
        | [] => Some (Return (publications, currentStart), w1)
        | page =>
            paginate env fuel build tag numResults (publications ++ page)
                     (currentStart + resultsPerPage)
                     (if Arr.lengthLt (publications ++ page) numResults
                      then slept 1000 w1 else w1)
        end
    | Some (Throw e, w1) => Some (Throw e, w1)
    | None => None
    end
  else Some (Return (publications, currentStart), w).
Proof.
  cbn [paginate]. destruct (Arr.lengthLt publications numResults); [| reflexivity].
  unfold bind at 1. destruct (fetch env (build currentStart) w) as [[[html|e] w1]|];
    try reflexivity.
  destruct (map tag _) as [|p page]; [reflexivity |].
  unfold bind. destruct (Arr.lengthLt _ numResults); reflexivity.
Qed.

Lemma paginate_0 env build tag numResults publications currentStart w :
  paginate env 0 build tag numResults publications currentStart w =
  if Arr.lengthLt publications numResults then None
  else Some (Return (publications, currentStart), w).
Proof. cbn [paginate]. destruct (Arr.lengthLt _ _); reflexivity. Qed.

(** The loop ends: each page that does not end it adds a record. *)
Lemma paginate_total env build tag numResults :
  forall fuel publications currentStart w,
    (Z.to_nat (numResults - Z.of_nat (length publications)) <= fuel)%nat ->
    exists out, paginate env fuel build tag numResults publications currentStart w = Some out.
Proof.
  induction fuel as [|fuel IH]; intros pubs cur w Hfuel.
  - rewrite paginate_0. destruct (Arr.lengthLt pubs numResults) eqn:E; [| eauto].
    apply lengthLt_true in E. lia.
  - rewrite paginate_iteration. destruct (Arr.lengthLt pubs numResults) eqn:E; [| eauto].
    apply lengthLt_true in E.
    destruct (fetch_total env (build cur) w) as [[[html|e] w1] ->]; [| eauto].
    destruct (map tag _) as [|p page] eqn:Epage; [eauto |].
    apply IH. rewrite length_app. cbn [length]. lia.
Qed.

(** What the loop returns, it has collected. *)
Lemma paginate_collect env build tag numResults :
  forall fuel publications currentStart w pubs cur w',
    paginate env fuel build tag numResults publications currentStart w
    = Some (Return (pubs, cur), w') ->
    collect env build tag numResults publications currentStart w pubs cur w'.
Proof.
  induction fuel as [|fuel IH]; intros publications currentStart w pubs cur w' H.
  - rewrite paginate_0 in H. destruct (Arr.lengthLt _ _) eqn:E; [discriminate |].
    inversion H; subst. apply collect_reached. apply lengthLt_false. exact E.
  - rewrite paginate_iteration in H. destruct (Arr.lengthLt _ _) eqn:E.
    + apply lengthLt_true in E.
      destruct (fetch env (build currentStart) w) as [[[html|e] w1]|] eqn:F;
        try discriminate.
      destruct (map tag _) as [|p page] eqn:Epage.
      * inversion H; subst. eapply collect_exhausted; eauto.
      * eapply collect_page; eauto.
        -- rewrite Epage. discriminate.
        -- rewrite Epage. apply IH. exact H.
    + inversion H; subst. apply collect_reached. apply lengthLt_false. exact E.
Qed.

(** What a collection looks like: whole non-empty pages appended one
    after the other, the offset advanced by ten for each, never a page
    more once the target is reached, and at the end either the target
    reached or a page without records. *)
Lemma collect_shape env build tag targetCount records offset w records' offset' w' :
  collect env build tag targetCount records offset w records' offset' w' ->
  exists pages : list (list Publication.t),
    records' = (records ++ concat pages)%list
    /\ Forall (fun page => page <> []) pages
    /\ offset' = offset + 10 * Z.of_nat (length pages)
    /\ (forall k, (k < length pages)%nat ->
                  Z.of_nat (length (records ++ concat (take k pages))) < targetCount)
    /\ (targetCount <= Z.of_nat (length records')
        \/ (Z.of_nat (length records') < targetCount
            /\ exists wk html,
                 fetch env (build offset') wk = Some (Return html, w')
                 /\ parsePublicationResults (cheerio_load env html) = [])).
Proof.
  induction 1 as [records offset w Hge
                 | records offset w html w1 Hlt Hfetch Hempty
                 | records offset w html w1 page records' offset' w' Hlt Hfetch Hpage Hne _ IH].
  - exists []. cbn [concat length]. rewrite app_nil_r.
    repeat split; auto; [lia | intros k Hk; cbn in Hk; lia].
  - exists []. cbn [concat length]. rewrite app_nil_r.
    repeat split; auto; [lia | intros k Hk; cbn in Hk; lia |].
    right. split; [exact Hlt |]. exists w, html. split; [exact Hfetch |].
    destruct (parsePublicationResults _); [reflexivity | discriminate].
  - destruct IH as (pages & Hrec & Hall & Hoff & Hprefix & Hstop).
    exists (page :: pages). cbn [concat length].
    split; [rewrite Hrec, <- app_assoc; reflexivity |].
    split; [constructor; assumption |].
    split; [unfold resultsPerPage in Hoff; lia |].
    split; [| exact Hstop].
    intros [|k] Hk.
    + cbn [take concat]. rewrite app_nil_r. exact Hlt.
    + cbn [take concat]. rewrite app_assoc. apply Hprefix. cbn in Hk. lia.
Qed.

Lemma slice0_length {A} (n : Z) (l : list A) :
  0 <= n -> Z.of_nat (length (Arr.slice0 n l)) <= n.
Proof.
  intros Hn. unfold Arr.slice0. destruct (n <? 0) eqn:E; [apply Z.ltb_lt in E; lia |].
  rewrite length_take. lia.
Qed.

Lemma paginate_more_fuel env build tag numResults :
  forall fuel fuel' publications currentStart w out,
    paginate env fuel build tag numResults publications currentStart w = Some out ->
    (fuel <= fuel')%nat ->
    paginate env fuel' build tag numResults publications currentStart w = Some out.
Proof.
  induction fuel as [|fuel IH]; intros fuel' pubs cur w out H Hle.
  - rewrite paginate_0 in H. destruct (Arr.lengthLt pubs numResults) eqn:E; [discriminate |].
    destruct fuel'; [rewrite paginate_0 | rewrite paginate_iteration]; rewrite E; exact H.
  - destruct fuel' as [|fuel']; [lia |].
    rewrite paginate_iteration in H. rewrite paginate_iteration.
    destruct (Arr.lengthLt pubs numResults); [| exact H].
    destruct (fetch env (build cur) w) as [[[html|e] w1]|]; try exact H.
    destruct (map tag _) as [|p page]; [exact H |].
    apply IH; [exact H | lia].
Qed.


(** ** A search served by its first page *)

Lemma paginate_done env fuel build tag numResults publications currentStart w :
  numResults <= Z.of_nat (length publications) ->
  paginate env fuel build tag numResults publications currentStart w
  = Some (Return (publications, currentStart), w).
Proof.
  intros H. apply lengthLt_false in H.
  destruct fuel; [rewrite paginate_0 | rewrite paginate_iteration]; rewrite H; reflexivity.
Qed.

Lemma fetch_first_answer env url w html :
  scholar_get env (requests w) url = Resolved html ->
  fetch env url w = Some (classify html, requested env url (paced env w)).
Proof.
  intros H. unfold fetch. rewrite fetchPage_attempt. cbv zeta. rewrite H. reflexivity.
Qed.

Lemma slice0_all {A} (n : Z) (l : list A) : Z.of_nat (length l) = n -> Arr.slice0 n l = l.
Proof.
  intros <-. unfold Arr.slice0.
  destruct (_ <? 0) eqn:E; [apply Z.ltb_lt in E; lia |].
  rewrite Nat2Z.id. apply firstn_all.
Qed.

Lemma searchPublications_first_page env fuel options w html :
  useSerpApiFallback w = false ->
  Js.trim (PublicationSearchOptions.query options) <> EmptyString ->
  PublicationSearchOptions.numResults options = Some 10 ->
  (0 < fuel)%nat ->
  scholar_get env (requests w)
              (searchUrlOf options (default 0 (PublicationSearchOptions.startIndex options)))
  = Resolved html ->
  isRateLimited html = false ->
  isBlocked html = false ->
  length (parsePublicationResults (cheerio_load env html)) = 10%nat ->
  exists r w',
    searchPublications env fuel options w = Some (Return r, w')
    /\ PublicationSearchResult.publications r = parsePublicationResults (cheerio_load env html)
    /\ length (PublicationSearchResult.publications r) = 10%nat
    /\ Forall (fun p => Publication.title p <> EmptyString)
              (PublicationSearchResult.publications r)
    /\ PublicationSearchResult.hasMore r = Some true
    /\ PublicationSearchResult.nextStartIndex r
       = Some (default 0 (PublicationSearchOptions.startIndex options) + 10)
    /\ requests w' = S (requests w)
    /\ cache w' = cache w.
Proof.
  intros Hflag Hq Hn Hfuel Hget Hrl Hbl Hlen.
  destruct fuel as [|fuel]; [lia |].
  set (results := parsePublicationResults (cheerio_load env html)) in *.
  assert (Hpag : paginate env (S fuel) (searchUrlOf options) id 10 []
                          (default 0 (PublicationSearchOptions.startIndex options)) w
                 = Some (Return (results,
                                 default 0 (PublicationSearchOptions.startIndex options) + 10),
                         requested env
                           (searchUrlOf options
                              (default 0 (PublicationSearchOptions.startIndex options)))
                           (paced env w))).
  { rewrite paginate_iteration. change (Arr.lengthLt [] 10) with true. cbv iota.
    rewrite (fetch_first_answer _ _ _ _ Hget). unfold classify. rewrite Hrl, Hbl.
    rewrite map_id. fold results.
    destruct results as [|p rest] eqn:E; [discriminate |].
    cbn [app]. rewrite <- E.
    replace (Arr.lengthLt results 10) with false
      by (symmetry; apply lengthLt_false; rewrite E, Hlen; lia).
    apply paginate_done. rewrite E, Hlen. lia. }
  unfold searchPublications, bind at 1, gets. rewrite Hflag. cbn [andb].
  unfold bind at 1. rewrite Hn. change (default 10 (Some 10)) with 10.
  rewrite bool_decide_eq_false_2 by exact Hq.
  unfold bind at 1, tryCatch, bind at 1. rewrite Hpag. cbn [ret].
  do 2 eexists. split; [reflexivity |].
  cbn [PublicationSearchResult.publications PublicationSearchResult.hasMore
       PublicationSearchResult.nextStartIndex].
  assert (Hall : Arr.slice0 10 results = results) by (apply slice0_all; rewrite Hlen; lia).
  rewrite Hall.
  split; [reflexivity |]. split; [exact Hlen |].
  split.
  { apply Forall_forall. intros p Hp.
    apply list_elem_of_omap in Hp as (el & _ & Hel).
    apply parsePublicationCard_Some in Hel as [-> ?]. assumption. }
  split; [| split; [reflexivity | split]].
  - f_equal. unfold Arr.lengthGe. apply Z.leb_le. rewrite Hlen. lia.
  - rewrite requests_requested, requests_paced. reflexivity.
  - unfold requested. cbn. apply paced_facts.
Qed.

(** C5, as the code has it.  A search for ten results whose first page
    gives ten records returns exactly these ten records, each with a
    non-empty title, after a single request: no second page is asked
    for, whatever its cards are, and [hasMore] is [true], with the next
    offset ten further. *)
Theorem search_served_by_first_page env fuel options w html :
  useSerpApiFallback w = false ->
  Js.trim (PublicationSearchOptions.query options) <> EmptyString ->
  PublicationSearchOptions.numResults options = Some 10 ->
  (0 < fuel)%nat ->
  scholar_get env (requests w)
              (searchUrlOf options (default 0 (PublicationSearchOptions.startIndex options)))
  = Resolved html ->
  isRateLimited html = false ->
  isBlocked html = false ->
  length (parsePublicationResults (cheerio_load env html)) = 10%nat ->
  exists r w',
    searchPublications env fuel options w = Some (Return r, w')
    /\ PublicationSearchResult.publications r = parsePublicationResults (cheerio_load env html)
    /\ length (PublicationSearchResult.publications r) = 10%nat
    /\ Forall (fun p => Publication.title p <> EmptyString)
              (PublicationSearchResult.publications r)
    /\ PublicationSearchResult.hasMore r = Some true
    /\ PublicationSearchResult.nextStartIndex r
       = Some (default 0 (PublicationSearchOptions.startIndex options) + 10)
    /\ requests w' = S (requests w).
Proof.
  intros Hflag Hq Hn Hfuel Hget Hrl Hbl Hlen.
  destruct (searchPublications_first_page env fuel options w html)
    as (r & w' & H1 & H2 & H3 & H4 & H5 & H6 & H7 & _); auto.
  exists r, w'. auto 10.
Qed.

(** ** Failover *)

Lemma pacingEvents_no_serpapi p :
  pacingEvents p -> forallb (fun e => negb (isSerpApiEvent e)) p = true.
Proof. intros [-> | [ms ->]]; reflexivity. Qed.

(** The first fetch of a pagination loop meets a blocking signal: the
    loop throws it. *)
Lemma paginate_blocked env fuel build tag numResults start w html :
  0 < numResults ->
  scholar_get env (requests w) (build start) = Resolved html ->
  isRateLimited html = true \/ isBlocked html = true ->
  exists w' e,
    paginate env (S fuel) build tag numResults [] start w
    = Some (Throw (IsScholarError e), w')
    /\ (code e = RATE_LIMITED \/ code e = BLOCKED)
    /\ selectorUntouched w w'
    /\ noSerpApiTraffic w w'
    /\ requests w' = S (requests w).
Proof.
  intros Hn Hget Hsig.
  destruct (fetch_blocking_signal env (build start) w html Hget Hsig)
    as (w' & e & p & Hf & Hcode & Hreq & Hp & Htr & Hsel).
  exists w', e. rewrite paginate_iteration.
  replace (Arr.lengthLt [] numResults) with true
    by (symmetry; apply lengthLt_true; cbn [length]; lia).
  rewrite Hf. split; [reflexivity |]. split; [exact Hcode |]. split; [exact Hsel |].
  split; [| exact Hreq].
  exists (p ++ [EvScholarGet (build start)])%list. split; [exact Htr |].
  rewrite forallb_app, (pacingEvents_no_serpapi p Hp). reflexivity.
Qed.

(** [searchPublications] fails over: the flag is set and the alternate
    provider answers in place of the primary. *)
Lemma searchPublications_failover env fuel options w html :
  useSerpApiFallback w = false ->
  isSerpApiAvailable (config w) = true ->
  Js.trim (PublicationSearchOptions.query options) <> EmptyString ->
  0 < default 10 (PublicationSearchOptions.numResults options) ->
  scholar_get env (requests w)
              (searchUrlOf options (default 0 (PublicationSearchOptions.startIndex options)))
  = Resolved html ->
  isRateLimited html = true \/ isBlocked html = true ->
  exists w1,
    selectorUntouched w w1
    /\ searchPublications env (S fuel) options w
       = searchPublicationsSerpApi env options (set_useSerpApiFallback true w1)
    /\ forall r w', searchPublications env (S fuel) options w = Some (r, w') ->
                    useSerpApiFallback w' = true.
Proof.
  intros Hflag Hav Hq Hn Hget Hsig.
  destruct (paginate_blocked env fuel (searchUrlOf options) id _ _ w html Hn Hget Hsig)
    as (w1 & e & Hpag & Hcode & Hsel & _ & _).
  exists w1. split; [exact Hsel |].
  assert (E : searchPublications env (S fuel) options w
              = searchPublicationsSerpApi env options (set_useSerpApiFallback true w1)).
  { unfold searchPublications, bind at 1, gets. rewrite Hflag. cbn [andb].
    unfold bind at 1.
    rewrite bool_decide_eq_false_2 by exact Hq.
    unfold bind at 1, tryCatch, bind at 1. rewrite Hpag.
    unfold bind at 1, gets. cbv beta iota.
    destruct Hsel as (_ & Hcfg & _). rewrite Hcfg, Hav.
    replace (isBlockingError (IsScholarError e)) with true
      by (cbn [isBlockingError]; destruct Hcode as [-> | ->]; reflexivity).
    cbn [andb]. unfold bind at 1, modify. unfold bind at 1.
    destruct (searchPublicationsSerpApi env options (set_useSerpApiFallback true w1))
      as [[[r|e'] w2]|]; reflexivity. }
  split; [exact E |].
  intros r w' H. rewrite E in H.
  eapply (preserves_searchPublicationsSerpApi flagMonotone); eauto;
    unfold flagMonotone; cbn; auto.
Qed.

(** Without an alternate provider the error of the primary reaches the
    caller as it is. *)
Lemma searchPublications_no_alternate env fuel options w html :
  isSerpApiAvailable (config w) = false ->
  Js.trim (PublicationSearchOptions.query options) <> EmptyString ->
  0 < default 10 (PublicationSearchOptions.numResults options) ->
  scholar_get env (requests w)
              (searchUrlOf options (default 0 (PublicationSearchOptions.startIndex options)))
  = Resolved html ->
  isRateLimited html = true \/ isBlocked html = true ->
  exists w' e,
    searchPublications env (S fuel) options w = Some (Throw (IsScholarError e), w')
    /\ fetch env (searchUrlOf options (default 0 (PublicationSearchOptions.startIndex options))) w
       = Some (Throw (IsScholarError e), w')
    /\ selectorUntouched w w'
    /\ noSerpApiTraffic w w'.
Proof.
  intros Hav Hq Hn Hget Hsig.
  destruct (paginate_blocked env fuel (searchUrlOf options) id _ _ w html Hn Hget Hsig)
    as (w1 & e & Hpag & Hcode & Hsel & Htr & _).
  exists w1, e. split; [| split; [| split; assumption]].
  - unfold searchPublications, bind at 1, gets. cbv beta iota.
    unfold bind at 1. cbv beta iota. rewrite Hav, andb_false_r.
    rewrite bool_decide_eq_false_2 by exact Hq.
    unfold bind at 1, tryCatch, bind at 1. rewrite Hpag.
    unfold bind at 1, gets. cbv beta iota.
    destruct Hsel as (_ & Hcfg & _). rewrite Hcfg, Hav, andb_false_r. reflexivity.
  - rewrite paginate_iteration in Hpag.
    replace (Arr.lengthLt [] (default 10 (PublicationSearchOptions.numResults options)))
      with true in Hpag by (symmetry; apply lengthLt_true; cbn [length]; lia).
    destruct (fetch_blocking_signal env _ w html Hget Hsig) as (w0 & e0 & p & Hf & _).
    rewrite Hf in Hpag. rewrite Hf. inversion Hpag; subst. reflexivity.
Qed.

(** C1, at the input where the code departs from it.  [getCitations]
    meets a RATE_LIMITED or BLOCKED answer while the alternate provider
    is configured and enabled: the error of the primary reaches the
    caller, the provider-selection flag is left as it was, and the
    alternate provider is not asked. *)
Theorem getCitations_does_not_fail_over env fuel options w html :
  isSerpApiAvailable (config w) = true ->
  Js.trim (CitationSearchOptions.clusterId options) <> EmptyString ->
  0 < default 10 (CitationSearchOptions.numResults options) ->
  scholar_get env (requests w)
    (buildCitationUrl (CitationSearchOptions.clusterId options)
                      (Some (default 0 (CitationSearchOptions.startIndex options)))
                      (CitationSearchOptions.sortBy options))
  = Resolved html ->
  isRateLimited html = true \/ isBlocked html = true ->
  exists w' e,
    getCitations env (S fuel) options w = Some (Throw (IsScholarError e), w')
    /\ (code e = RATE_LIMITED \/ code e = BLOCKED)
    /\ useSerpApiFallback w' = useSerpApiFallback w
    /\ noSerpApiTraffic w w'.
Proof.
  intros Hav Hid Hn Hget Hsig.
  destruct (paginate_blocked env fuel
              (fun start => buildCitationUrl (CitationSearchOptions.clusterId options)
                                             (Some start)
                                             (CitationSearchOptions.sortBy options))
              (Publication.set_source CITATION) _ _ w html Hn Hget Hsig)
    as (w' & e & Hpag & Hcode & Hsel & Htr & _).
  exists w', e. split; [| split; [exact Hcode | split; [apply Hsel | exact Htr]]].
  unfold getCitations. rewrite bool_decide_eq_false_2 by exact Hid.
  unfold bind at 1. rewrite Hpag. reflexivity.
Qed.

(** ** The cache and the operations *)

Lemma invoke_keeps_cache env fuel c w r w' :
  invoke env fuel c w = Some (r, w') -> cache w' = cache w.
Proof.
  intros H.
  eapply (preserves_invoke (fun a b => cache b = cache a)); eauto; cbn; congruence.
Qed.

(** C2, at the input where the code departs from it.  No operation
    stores anything in the result cache or removes anything from it;
    a search that its first page serves sends a request whatever the
    cache holds; and in the example world the same search invoked twice
    in a row sends the same request twice and leaves the cache empty. *)
Theorem operations_bypass_the_cache :
  (forall env fuel c w r w', invoke env fuel c w = Some (r, w') -> cache w' = cache w)
  /\ (forall env fuel options w html,
         useSerpApiFallback w = false ->
         Js.trim (PublicationSearchOptions.query options) <> EmptyString ->
         PublicationSearchOptions.numResults options = Some 10 ->
         (0 < fuel)%nat ->
         scholar_get env (requests w)
           (searchUrlOf options (default 0 (PublicationSearchOptions.startIndex options)))
         = Resolved html ->
         isRateLimited html = false ->
         isBlocked html = false ->
         length (parsePublicationResults (cheerio_load env html)) = 10%nat ->
         exists r w',
           searchPublications env fuel options w = Some (Return r, w')
           /\ requests w' = S (requests w)
           /\ cache w' = cache w)
  /\ (let e := Example.env Example.source in
      let w0 := Example.start Example.withAlternate in
      let w1 := Example.after e 10 Example.searchCall w0 in
      let w2 := Example.after e 10 Example.searchCall w1 in
      invoke e 10 Example.searchCall w0 <> None
      /\ fst <$> invoke e 10 Example.searchCall w1 = fst <$> invoke e 10 Example.searchCall w0
      /\ filter (fun ev => isScholarEvent ev = true) (trace w2)
         = [EvScholarGet (searchUrlOf Example.transformerSearch 0);
            EvScholarGet (searchUrlOf Example.transformerSearch 0)]
      /\ requests w1 = 1%nat /\ requests w2 = 2%nat
      /\ cache w2 = ∅).
Proof.
  split; [exact invoke_keeps_cache | split].
  - intros env fuel options w html Hflag Hq Hn Hfuel Hget Hrl Hbl Hlen.
    destruct (searchPublications_first_page env fuel options w html)
      as (r & w' & H1 & _ & _ & _ & _ & _ & H7 & H8); auto.
    exists r, w'. auto.
  - vm_compute. repeat split. discriminate.
Qed.

(** ** The example of the specification *)

(** C5 as it is stated fails: in the example world (two pages of ten
    cards, the 14th and 15th without title, nothing beyond) the search
    for ten results returns ten records, but [hasMore] is [true]. *)
Lemma hasMore_false_counterexample :
  ~ (forall r w',
        searchPublications (Example.env Example.source) 10 Example.transformerSearch
                           (Example.start Example.primaryOnly) = Some (Return r, w') ->
        length (PublicationSearchResult.publications r) = 10%nat
        /\ Forall (fun p => Publication.title p <> EmptyString)
                  (PublicationSearchResult.publications r)
        /\ PublicationSearchResult.hasMore r = Some false).
Proof.
  intros H.
  destruct (searchPublications (Example.env Example.source) 10 Example.transformerSearch
                               (Example.start Example.primaryOnly))
    as [[[r|e] w']|] eqn:E; vm_compute in E; try discriminate.
  destruct (H r w' eq_refl) as (_ & _ & Hmore).
  inversion E; subst. vm_compute in Hmore. discriminate.
Qed.

(** ** The statements at work in the example world *)

Lemma step_after env fuel c w :
  invoke env fuel c w <> None -> step env w (Example.after env fuel c w).
Proof.
  intros H. unfold Example.after.
  destruct (invoke env fuel c w) as [[r w']|] eqn:E; [| congruence].
  econstructor; exact E.
Qed.

(** Two searches against a source that challenges every request, the
    alternate provider being available: the flag is set by the first
    and stays set. *)
Lemma selector_flag_is_sticky_witness :
  let e := Example.env Example.challenging in
  let w0 := initialWorld Example.withAlternate 1700000000000 in
  let w1 := Example.after e 10 Example.searchCall w0 in
  let w2 := Example.after e 10 Example.searchCall w1 in
  run e [w0; w1; w2]
  /\ useSerpApiFallback w0 = false
  /\ useSerpApiFallback w1 = true
  /\ useSerpApiFallback w2 = true
  /\ (flips [w0; w1; w2] <= 1)%nat.
Proof.
  intros e w0 w1 w2.
  assert (Hrun : run e [w0; w1; w2]).
  { apply run_cons; [apply step_after; vm_compute; discriminate |].
    apply run_cons; [apply step_after; vm_compute; discriminate |].
    apply run_one. }
  destruct (selector_flag_is_sticky e Example.withAlternate 1700000000000 [w1; w2] Hrun)
    as (H0 & Hmono & Hflips).
  assert (H1 : useSerpApiFallback w1 = true) by (vm_compute; reflexivity).
  split; [exact Hrun |]. split; [exact H0 |]. split; [exact H1 |].
  split; [| exact Hflips].
  apply (Hmono 1%nat 2%nat w1 w2); [lia | reflexivity | reflexivity | exact H1].
Defined.


Lemma extraction_drops_untitled_cards_witness :
  length (parsePublicationResults
            (cheerio_load (Example.env Example.source) "<nine cards>")) = 8%nat.
Proof.
  destruct (extraction_drops_untitled_cards (Example.env Example.source) "<nine cards>")
    as (_ & _ & _ & H).
  apply (H (map Example.titledCard ["N1"; "N2"; "N3"; "N4"]) Example.untitledCard
           (map Example.titledCard ["N6"; "N7"; "N8"; "N9"])).
  - reflexivity.
  - reflexivity.
  - reflexivity.
  - repeat constructor; vm_compute; discriminate.
Defined.


(** A source that cannot be reached, and one reached at the third
    attempt. *)
Lemma fetch_retry_policy_witness :
  (exists w' p0 p1 p2 p3,
      fetch (Example.env Example.unreachable) (searchUrlOf Example.transformerSearch 0)
            (Example.start Example.primaryOnly)
      = Some (Throw (networkError "timeout of 30000ms exceeded"), w')
      /\ requests w' = 4%nat
      /\ pacingEvents p0 /\ pacingEvents p1 /\ pacingEvents p2 /\ pacingEvents p3
      /\ trace w' =
         (p0 ++ [EvScholarGet (searchUrlOf Example.transformerSearch 0); EvSleep 1000]
             ++ p1 ++ [EvScholarGet (searchUrlOf Example.transformerSearch 0); EvSleep 2000]
             ++ p2 ++ [EvScholarGet (searchUrlOf Example.transformerSearch 0); EvSleep 4000]
             ++ p3 ++ [EvScholarGet (searchUrlOf Example.transformerSearch 0)])%list)
  /\ (exists w',
         fetch (Example.env Example.flaky) (searchUrlOf Example.transformerSearch 0)
               (Example.start Example.primaryOnly) = Some (Return "<page 1>", w')
         /\ requests w' = 3%nat).
Proof.
  split.
  - destruct (fetch_retry_policy (Example.env Example.unreachable)
                (searchUrlOf Example.transformerSearch 0) (Example.start Example.primaryOnly))
      as (_ & _ & _ & H & _).
    apply (H (fun _ => "timeout of 30000ms exceeded")).
    intros j Hj. reflexivity.
  - destruct (fetch_retry_policy (Example.env Example.flaky)
                (searchUrlOf Example.transformerSearch 0) (Example.start Example.primaryOnly))
      as (_ & _ & H & _).
    apply (H 2%nat "<page 1>").
    + unfold MAX_RETRIES. lia.
    + intros j Hj. exists "socket hang up".
      destruct j as [|[|j]]; [reflexivity | reflexivity | lia].
    + reflexivity.
Defined.

Lemma cache_roundtrip_and_expiry_witness :
  ScholarCache.get Example.withAlternate 5 "k" (ScholarCache.set Example.withAlternate 5 "k" 42%nat (Some 0) ∅)
  = (Some 42%nat, ScholarCache.set Example.withAlternate 5 "k" 42%nat (Some 0) ∅).
Proof.
  destruct (cache_roundtrip_and_expiry Example.withAlternate (∅ : gmap string (ScholarCache.CacheEntry nat)) "k" eq_refl)
    as (H & _).
  apply H. simpl. lia.
Defined.

Lemma author_metrics_never_zero_witness :
  Author.hIndex Example.profile = None
  /\ Author.i10Index5y Example.profile = None
  /\ Author.citationCount Example.profile <> Some 0.
Proof.
  destruct (author_metrics_never_zero (Example.env Example.source) "abc"
              (Example.start Example.primaryOnly) Example.profile
              (Example.after (Example.env Example.source) 10 (CallGetAuthorProfile "abc")
                             (Example.start Example.primaryOnly)))
    as (doc & _ & H1 & _ & _ & _ & _ & _).
  - vm_compute. reflexivity.
  - split; [reflexivity | split; [reflexivity | exact H1]].
Defined.

Lemma search_served_by_first_page_witness :
  exists r w',
    searchPublications (Example.env Example.source) 10 Example.transformerSearch
                       (Example.start Example.primaryOnly) = Some (Return r, w')
    /\ length (PublicationSearchResult.publications r) = 10%nat
    /\ PublicationSearchResult.hasMore r = Some true
    /\ PublicationSearchResult.nextStartIndex r = Some 10
    /\ requests w' = 1%nat.
Proof.
  destruct (search_served_by_first_page (Example.env Example.source) 10
              Example.transformerSearch (Example.start Example.primaryOnly) "<page 1>")
    as (r & w' & H1 & _ & H3 & _ & H5 & H6 & H7);
    [ reflexivity | vm_compute; discriminate | reflexivity | lia | reflexivity
    | reflexivity | reflexivity | reflexivity | ].
  exists r, w'. auto.
Defined.

Lemma getCitations_does_not_fail_over_witness :
  exists w' e,
    getCitations (Example.env Example.challenging) 10 Example.citationsOf123
                 (Example.start Example.withAlternate) = Some (Throw (IsScholarError e), w')
    /\ (code e = RATE_LIMITED \/ code e = BLOCKED)
    /\ useSerpApiFallback w' = false
    /\ noSerpApiTraffic (Example.start Example.withAlternate) w'.
Proof.
  apply (getCitations_does_not_fail_over (Example.env Example.challenging) 9
           Example.citationsOf123 (Example.start Example.withAlternate)
           "<h1>403 Forbidden</h1> Our systems have detected unusual traffic").
  - reflexivity.
  - vm_compute. discriminate.
  - reflexivity.
  - reflexivity.
  - left. reflexivity.
Defined.

Lemma operations_bypass_the_cache_witness :
  cache (Example.after (Example.env Example.source) 10 Example.searchCall
                       (Example.start Example.withAlternate)) = ∅.
Proof.
  destruct operations_bypass_the_cache as (H & _).
  destruct (invoke (Example.env Example.source) 10 Example.searchCall
                   (Example.start Example.withAlternate)) as [[r w']|] eqn:E.
  - unfold Example.after. rewrite E. apply (H _ _ _ _ _ _ E).
  - unfold Example.after. rewrite E. reflexivity.
Defined.

(** * Further properties *)

(** ** The pacer *)




(** ** Back-off *)

(** The back-off delay is never below a second nor above fifty seconds,
    it does not decrease with the attempt, and from the sixth retry on
    it is the cap. *)
Theorem backoff_is_bounded_and_monotone :
  (forall attempt, 1000 <= getBackoffDelay attempt None <= 50000)
  /\ (forall a b, (a <= b)%nat -> getBackoffDelay a None <= getBackoffDelay b None)
  /\ (forall attempt, (6 <= attempt)%nat -> getBackoffDelay attempt None = 50000)
  /\ (forall attempt, (attempt <= 5)%nat ->
                      getBackoffDelay attempt None = 1000 * 2 ^ Z.of_nat attempt).
Proof.
  assert (Hpow : forall a b : nat, (a <= b)%nat -> 2 ^ Z.of_nat a <= 2 ^ Z.of_nat b).
  { intros a b Hab. apply Z.pow_le_mono_r; lia. }
  repeat split.
  - rewrite getBackoffDelay_default. pose proof (Hpow 0%nat attempt ltac:(lia)).
    change (2 ^ Z.of_nat 0) with 1 in H. lia.
  - rewrite getBackoffDelay_default. lia.
  - intros a b Hab. rewrite !getBackoffDelay_default. pose proof (Hpow a b Hab). lia.
  - intros attempt H6. rewrite getBackoffDelay_default. pose proof (Hpow 6%nat attempt H6).
    change (2 ^ Z.of_nat 6) with 64 in H. lia.
  - intros attempt H5. rewrite getBackoffDelay_default. pose proof (Hpow attempt 5%nat H5).
    change (2 ^ Z.of_nat 5) with 32 in H. lia.
Qed.

(** ** What a fetch can end in *)

Lemma classify_cases html :
  (classify html = Return html /\ isRateLimited html = false /\ isBlocked html = false)
  \/ (classify html = Throw rateLimitedError /\ isRateLimited html = true)
  \/ (classify html = Throw blockedError /\ isRateLimited html = false
      /\ isBlocked html = true).
Proof.
  unfold classify. destruct (isRateLimited html); [auto |].
  destruct (isBlocked html); auto.
Qed.

Lemma fetchPage_outcome env url :
  forall fuel rc w out w',
    (rc <= MAX_RETRIES)%nat ->
    fetchPage env fuel url rc w = Some (out, w') ->
    (S (requests w) <= requests w' <= requests w + (MAX_RETRIES - rc) + 1)%nat
    /\ (forall j, (requests w <= j)%nat -> (S j < requests w')%nat ->
                  exists m, scholar_get env j url = Rejected m)
    /\ ((exists html, scholar_get env (requests w' - 1) url = Resolved html
                      /\ out = classify html)
        \/ (exists m, scholar_get env (requests w' - 1) url = Rejected m
                      /\ out = Throw (networkError m)
                      /\ requests w' = (requests w + (MAX_RETRIES - rc) + 1)%nat)).
Proof.
  induction fuel as [|fuel IH]; intros rc w out w' Hrc H; [discriminate |].
  rewrite fetchPage_attempt in H. cbv zeta in H.
  destruct (scholar_get env (requests w) url) as [html|msg] eqn:G.
  - inversion H; subst. rewrite requests_requested, requests_paced.
    replace (S (requests w) - 1)%nat with (requests w) by lia.
    split; [lia |]. split; [intros j ? ?; lia |]. left. eauto.
  - destruct (rc <? MAX_RETRIES)%nat eqn:E.
    + apply Nat.ltb_lt in E.
      apply IH in H; [| lia].
      rewrite requests_slept, requests_requested, requests_paced in H.
      destruct H as (Hreq & Hrej & Hlast).
      split; [lia |]. split.
      * intros j Hj1 Hj2. destruct (decide (j = requests w)) as [-> | Hne]; [eauto |].
        apply Hrej; lia.
      * destruct Hlast as [Hl | (m & Hm & Ho & Hn)]; [left; exact Hl |].
        right. exists m. repeat split; auto. lia.
    + apply Nat.ltb_ge in E. inversion H; subst.
      rewrite requests_requested, requests_paced.
      replace (S (requests w) - 1)%nat with (requests w) by lia.
      split; [lia |]. split; [intros j ? ?; lia |].
      right. exists msg. repeat split; auto. lia.
Qed.

Lemma fetch_cases env url w out w' :
  fetch env url w = Some (out, w') ->
  (1 <= requests w' - requests w <= 4)%nat
  /\ (forall j, (requests w <= j)%nat -> (S j < requests w')%nat ->
                exists m, scholar_get env j url = Rejected m)
  /\ match out with
     | Return html =>
         scholar_get env (requests w' - 1) url = Resolved html
         /\ isRateLimited html = false /\ isBlocked html = false
     | Throw (IsScholarError e) =>
         (exists html, scholar_get env (requests w' - 1) url = Resolved html
                       /\ ((isRateLimited html = true /\ code e = RATE_LIMITED)
                           \/ (isRateLimited html = false /\ isBlocked html = true
                               /\ code e = BLOCKED)))
         \/ (code e = NETWORK_ERROR /\ requests w' = (requests w + 4)%nat
             /\ exists m, scholar_get env (requests w' - 1) url = Rejected m)
     | Throw (OtherError _) => False
     end.
Proof.
  intros H. apply fetchPage_outcome in H; [| unfold MAX_RETRIES; lia].
  destruct H as (Hreq & Hrej & Hlast). unfold MAX_RETRIES in *.
  split; [lia |]. split; [exact Hrej |].
  destruct Hlast as [(html & Hg & ->) | (m & Hg & -> & Hn)].
  - destruct (classify_cases html) as [(-> & ? & ?) | [(-> & ?) | (-> & ? & ?)]].
    + auto.
    + left. exists html. split; [exact Hg |]. left. auto.
    + left. exists html. split; [exact Hg |]. right. auto.
  - right. split; [reflexivity |]. split; [lia |]. eauto.
Qed.

(** A fetch sends between one and four requests, all to the same URL,
    all but the last rejected.  It returns the body of the last answer
    only if that body shows neither a rate-limit nor a block indicator;
    it throws RATE_LIMITED or BLOCKED as the last body is classified;
    and it throws NETWORK_ERROR exactly when the fourth request is
    rejected too.  It throws nothing else. *)
Theorem fetch_outcomes env url w out w' :
  fetch env url w = Some (out, w') ->
  (1 <= requests w' - requests w <= 4)%nat
  /\ (forall j, (requests w <= j)%nat -> (S j < requests w')%nat ->
                exists m, scholar_get env j url = Rejected m)
  /\ match out with
     | Return html =>
         scholar_get env (requests w' - 1) url = Resolved html
         /\ isRateLimited html = false /\ isBlocked html = false
     | Throw (IsScholarError e) =>
         (exists html, scholar_get env (requests w' - 1) url = Resolved html
                       /\ ((isRateLimited html = true /\ code e = RATE_LIMITED)
                           \/ (isRateLimited html = false /\ isBlocked html = true
                               /\ code e = BLOCKED)))
         \/ (code e = NETWORK_ERROR /\ requests w' = (requests w + 4)%nat
             /\ exists m, scholar_get env (requests w' - 1) url = Rejected m)
     | Throw (OtherError _) => False
     end.
Proof.
  intros H. apply fetchPage_outcome in H; [| unfold MAX_RETRIES; lia].
  destruct H as (Hreq & Hrej & Hlast). unfold MAX_RETRIES in *.
  split; [lia |]. split; [exact Hrej |].
  destruct Hlast as [(html & Hg & ->) | (m & Hg & -> & Hn)].
  - destruct (classify_cases html) as [(-> & ? & ?) | [(-> & ?) | (-> & ? & ?)]].
    + auto.
    + left. exists html. split; [exact Hg |]. left. auto.
    + left. exists html. split; [exact Hg |]. right. auto.
  - right. split; [reflexivity |]. split; [lia |]. eauto.
Qed.

Lemma fetch_outcomes_witness :
  exists out w',
    fetch (Example.env Example.flaky) (buildAuthorProfileUrl "abc")
          (Example.start Example.primaryOnly) = Some (out, w')
    /\ (1 <= requests w' - requests (Example.start Example.primaryOnly) <= 4)%nat.
Proof.
  destruct (fetch (Example.env Example.flaky) (buildAuthorProfileUrl "abc")
                  (Example.start Example.primaryOnly))
    as [[out w']|] eqn:E; [| vm_compute in E; discriminate].
  exists out, w'. split; [reflexivity |].
  apply (fetch_outcomes _ _ _ _ _ E).
Defined.

(** ** Indicators anywhere in a body *)

Lemma includes_indicator l ind body pre post :
  In ind l ->
  Js.toLowerCase body = pre +:+ ind +:+ post ->
  existsb (fun indicator => Js.includes indicator (Js.toLowerCase body)) l = true.
Proof.
  intros Hin Hbody. apply existsb_exists. exists ind. split; [exact Hin |].
  rewrite Hbody. apply includes_app.
Qed.

(** Any body that holds a rate-limit indicator anywhere in its text, in
    any letter case, is classified RATE_LIMITED; any body without one
    that holds a block indicator anywhere -- the digits 403 in a count
    or the word blocked in a title are enough -- is classified BLOCKED.
    Neither body is ever returned by a fetch. *)
Theorem indicator_anywhere_rejects_the_page body indicator pre post :
  Js.toLowerCase body = pre +:+ indicator +:+ post ->
  (In indicator rateLimitIndicators -> classify body = Throw rateLimitedError)
  /\ (In indicator blockIndicators -> isRateLimited body = false ->
      classify body = Throw blockedError)
  /\ (In indicator rateLimitIndicators \/ In indicator blockIndicators ->
      forall env url w w', fetch env url w <> Some (Return body, w')).
Proof.
  intros Hbody.
  assert (H1 : In indicator rateLimitIndicators -> isRateLimited body = true).
  { intros Hin. unfold isRateLimited. eapply includes_indicator; eauto. }
  assert (H2 : In indicator blockIndicators -> isBlocked body = true).
  { intros Hin. unfold isBlocked. eapply includes_indicator; eauto. }
  split; [| split].
  - intros Hin. unfold classify. rewrite (H1 Hin). reflexivity.
  - intros Hin Hrl. unfold classify. rewrite Hrl, (H2 Hin). reflexivity.
  - intros Hin env url w w' Hf.
    apply fetch_cases in Hf as (_ & _ & (_ & Hrl & Hbl)).
    destruct Hin as [Hin | Hin]; [rewrite (H1 Hin) in Hrl | rewrite (H2 Hin) in Hbl];
      discriminate.
Qed.

Lemma indicator_anywhere_rejects_the_page_witness :
  classify "<div>Robotics survey</div> Cited by 1403" = Throw rateLimitedError
  /\ classify "<div>A survey</div> Cited by 1403" = Throw blockedError.
Proof.
  split.
  - destruct (indicator_anywhere_rejects_the_page
                "<div>Robotics survey</div> Cited by 1403" "robot"
                "<div>" "ics survey</div> cited by 1403" eq_refl) as (H & _).
    apply H. vm_compute. tauto.
  - destruct (indicator_anywhere_rejects_the_page
                "<div>A survey</div> Cited by 1403" "403"
                "<div>a survey</div> cited by 1" "" eq_refl) as (_ & H & _).
    apply H; [vm_compute; tauto | reflexivity].
Defined.

(** ** What a computation can end in *)

Section Ensures.
Context {A B : Type}.

Lemma ensures_ret (a : A) (Q : A -> Prop) E : Q a -> ensures (ret a) Q E.
Proof. intros H w out w' Hm. inversion Hm; subst. exact H. Qed.

Lemma ensures_throw e (Q : A -> Prop) (E : Thrown -> Prop) : E e -> ensures (throw e) Q E.
Proof. intros H w out w' Hm. inversion Hm; subst. exact H. Qed.

Lemma ensures_outOfFuel (Q : A -> Prop) E : ensures outOfFuel Q E.
Proof. intros w out w' Hm. discriminate. Qed.

Lemma ensures_bind (m : M A) (k : A -> M B) Q1 (Q : B -> Prop) E :
  ensures m Q1 E -> (forall a, Q1 a -> ensures (k a) Q E) -> ensures (bind m k) Q E.
Proof.
  intros Hm Hk w out w' H.
  apply bind_Some in H as [(a & w1 & H1 & H2) | (e & H1 & ->)].
  - apply Hm in H1. eapply Hk; eauto.
  - apply Hm in H1. exact H1.
Qed.

Lemma ensures_tryCatch (m : M A) (h : Thrown -> M A) (Q : A -> Prop) E1 E :
  ensures m Q E1 -> (forall e, E1 e -> ensures (h e) Q E) -> ensures (tryCatch m h) Q E.
Proof.
  intros Hm Hh w out w' H.
  apply tryCatch_Some in H as [(a & H1 & ->) | (e & w1 & H1 & H2)].
  - apply Hm in H1. exact H1.
  - apply Hm in H1. eapply Hh; eauto.
Qed.

Lemma ensures_weaken (m : M A) (Q Q' : A -> Prop) (E E' : Thrown -> Prop) :
  ensures m Q E -> (forall a, Q a -> Q' a) -> (forall e, E e -> E' e) -> ensures m Q' E'.
Proof.
  intros Hm HQ HE w out w' H. apply Hm in H. destruct out; auto.
Qed.

Lemma ensures_if (b : bool) (m1 m2 : M A) Q E :
  ensures m1 Q E -> ensures m2 Q E -> ensures (if b then m1 else m2) Q E.
Proof. destruct b; auto. Qed.

End Ensures.

Lemma ensures_gets {A} (f : World -> A) E : ensures (gets f) (fun _ => True) E.
Proof. intros w out w' H. inversion H; subst. exact I. Qed.

Lemma ensures_modify f E : ensures (modify f) (fun _ => True) E.
Proof. intros w out w' H. inversion H; subst. exact I. Qed.

Lemma ensures_sleep ms E : ensures (sleep ms) (fun _ => True) E.
Proof. apply ensures_modify. Qed.

Lemma scholarErrorIn_mono codes codes' e :
  (forall c, In c codes -> In c codes') -> scholarErrorIn codes e -> scholarErrorIn codes' e.
Proof. intros H (se & -> & Hin). exists se. auto. Qed.

Lemma ensures_throwScholar {A} msg c d (Q : A -> Prop) codes :
  In c codes -> ensures (throwScholar msg c d) Q (scholarErrorIn codes).
Proof. intros H. apply ensures_throw. eexists; split; [reflexivity | exact H]. Qed.

Lemma ensures_fetch env url :
  ensures (fetch env url)
          (fun html => isRateLimited html = false /\ isBlocked html = false)
          (scholarErrorIn [RATE_LIMITED; BLOCKED; NETWORK_ERROR]).
Proof.
  intros w out w' H. apply fetch_cases in H as (_ & _ & H).
  destruct out as [html | [e | m]]; [tauto | | contradiction].
  exists e. split; [reflexivity |]. cbn [In].
  destruct H as [(html & _ & [(_ & ->) | (_ & _ & ->)]) | (-> & _)]; auto.
Qed.

(** The loop hands back the records it was given and records extracted
    from fetched pages and tagged. *)
Lemma ensures_paginate env build tag numResults (P : Publication.t -> Prop) :
  (forall el p, parsePublicationCard el = Some p -> P (tag p)) ->
  forall fuel publications currentStart,
    Forall P publications ->
    ensures (paginate env fuel build tag numResults publications currentStart)
            (fun st => Forall P st.1)
            (scholarErrorIn [RATE_LIMITED; BLOCKED; NETWORK_ERROR]).
Proof.
  intros Htag. induction fuel as [|fuel IH]; intros pubs cur Hpubs; cbn [paginate].
  - apply ensures_if; [apply ensures_outOfFuel | apply ensures_ret; exact Hpubs].
  - apply ensures_if; [| apply ensures_ret; exact Hpubs].
    eapply ensures_bind; [apply ensures_fetch | intros html _].
    destruct (map tag _) as [|p page] eqn:Epage; [apply ensures_ret; exact Hpubs |].
    eapply ensures_bind.
    + apply ensures_if; [apply ensures_sleep | apply (ensures_ret tt (fun _ => True)); exact I].
    + intros _ _. apply IH. apply Forall_app. split; [exact Hpubs |].
      rewrite <- Epage. apply Forall_forall. intros q Hq.
      apply list_elem_of_fmap in Hq as (p0 & -> & Hp0).
      apply list_elem_of_omap in Hp0 as (el & _ & Hel). eauto.
Qed.

(** ** The operations: records and errors *)

Lemma parsePublicationCard_source el p :
  parsePublicationCard el = Some p -> Publication.source p = Some PUBLICATION_SEARCH.
Proof.
  unfold parsePublicationCard. destruct (bool_decide _); [discriminate |].
  intros H. inversion H; subst. reflexivity.
Qed.

Lemma parseProfileRow_Some el p :
  parseProfileRow el = Some p ->
  Publication.source p = Some AUTHOR_PROFILE /\ Publication.title p <> EmptyString.
Proof.
  unfold parseProfileRow. case_bool_decide as Ht; [discriminate |].
  intros H. inversion H; subst. split; [reflexivity | exact Ht].
Qed.

Lemma fetchCodes_common c :
  In c [RATE_LIMITED; BLOCKED; NETWORK_ERROR] -> In c commonCodes.
Proof. unfold commonCodes. cbn [In]. tauto. Qed.

Lemma commonCodes_operation c : In c commonCodes -> In c operationCodes.
Proof. unfold commonCodes, operationCodes. cbn [In]. tauto. Qed.

Lemma ensures_fetch_common env url :
  ensures (fetch env url) (fun _ => True) (scholarErrorIn commonCodes).
Proof.
  eapply ensures_weaken; [apply ensures_fetch | auto |].
  intros e. apply scholarErrorIn_mono, fetchCodes_common.
Qed.

Lemma ensures_paginate_common env fuel build tag numResults (P : Publication.t -> Prop) :
  (forall el p, parsePublicationCard el = Some p -> P (tag p)) ->
  ensures (paginate env fuel build tag numResults [] 0)
          (fun st => Forall P st.1) (scholarErrorIn commonCodes)
  /\ forall start,
       ensures (paginate env fuel build tag numResults [] start)
               (fun st => Forall P st.1) (scholarErrorIn commonCodes).
Proof.
  intros Htag.
  assert (H : forall start,
             ensures (paginate env fuel build tag numResults [] start)
                     (fun st => Forall P st.1) (scholarErrorIn commonCodes)).
  { intros start. eapply ensures_weaken;
      [apply (ensures_paginate env build tag numResults P Htag); constructor | auto |].
    intros e. apply scholarErrorIn_mono, fetchCodes_common. }
  split; [apply H | exact H].
Qed.

Lemma Forall_slice0 {A} (P : A -> Prop) n (l : list A) : Forall P l -> Forall P (Arr.slice0 n l).
Proof. intros H. unfold Arr.slice0. destruct (n <? 0); apply Forall_take; exact H. Qed.

Lemma tagged_card c s tag :
  In s (sourcesOf c) ->
  (forall el p, parsePublicationCard el = Some p -> Publication.source (tag p) = Some s) ->
  (forall p, Publication.title (tag p) = Publication.title p) ->
  forall el p, parsePublicationCard el = Some p -> tagged c (tag p).
Proof.
  intros Hs Hsrc Htitle el p Hp. exists s. split; [eapply Hsrc; eauto |].
  split; [exact Hs |].
  intros _. rewrite Htitle. apply parsePublicationCard_Some in Hp as [-> ?]. assumption.
Qed.

(** The alternate provider's search: the records are the organic
    results, one for one, all tagged SERPAPI; the errors are
    NETWORK_ERROR, or INVALID_INPUT for a missing key. *)
Lemma ensures_searchPublicationsSerpApi env o :
  ensures (searchPublicationsSerpApi env o)
          (fun r => Forall fromSerpApi (PublicationSearchResult.publications r))
          (scholarErrorIn [NETWORK_ERROR; INVALID_INPUT]).
Proof.
  unfold searchPublicationsSerpApi.
  eapply ensures_bind with (Q1 := fun _ => True).
  - unfold getApiKey. eapply ensures_bind; [apply ensures_gets | intros cfg _].
    apply ensures_if; [apply ensures_ret; exact I |].
    apply ensures_throwScholar. cbn [In]. auto.
  - intros apiKey _.
    eapply ensures_tryCatch
      with (E1 := fun e => scholarErrorIn [NETWORK_ERROR; INVALID_INPUT] e
                           \/ exists m, e = OtherError m).
    + eapply ensures_bind with (Q1 := fun _ => True).
      * intros w out w' H. inversion H; subst. exact I.
      * intros [data|msg] _.
        -- apply ensures_if.
           ++ unfold throwScholar. apply ensures_throw. left.
              eexists; split; [reflexivity | cbn [In code]; auto].
           ++ apply ensures_ret. cbn [PublicationSearchResult.publications].
              apply Forall_forall. intros p Hp.
              apply list_elem_of_fmap in Hp as (x & -> & _). reflexivity.
        -- apply ensures_throw. right. eauto.
    + intros e [He | (m & ->)].
      * destruct He as (se & -> & Hin). apply ensures_throw. exists se. auto.
      * apply ensures_throwScholar. cbn [In]. auto.
Qed.

Lemma fromSerpApi_tagged o p : fromSerpApi p -> tagged (CallSearchPublications o) p.
Proof.
  intros H. exists SERPAPI. split; [exact H |]. split; [cbn; auto | congruence].
Qed.

Lemma serpCodes_common c : In c [NETWORK_ERROR; INVALID_INPUT] -> In c commonCodes.
Proof. unfold commonCodes. cbn [In]. tauto. Qed.

Lemma ensures_searchPublications env fuel o :
  let c := CallSearchPublications o in
  ensures (searchPublications env fuel o)
          (fun r => Forall (tagged c) (PublicationSearchResult.publications r)
                    /\ withinCount c (PublicationSearch r))
          (scholarErrorIn commonCodes).
Proof.
  intros c.
  assert (Halt : ensures (searchPublicationsSerpApi env o)
                   (fun r => Forall (tagged c) (PublicationSearchResult.publications r)
                             /\ withinCount c (PublicationSearch r))
                   (scholarErrorIn commonCodes)).
  { eapply ensures_weaken; [apply ensures_searchPublicationsSerpApi | |].
    - intros r Hr. split.
      + eapply Forall_impl; [exact Hr | apply fromSerpApi_tagged].
      + intros n _ _. right. split; [reflexivity | exact Hr].
    - intros e. apply scholarErrorIn_mono, serpCodes_common. }
  unfold searchPublications.
  eapply ensures_bind; [apply ensures_gets | intros flag _].
  eapply ensures_bind; [apply ensures_gets | intros cfg _].
  apply ensures_if; [exact Halt |].
  apply ensures_if; [apply ensures_throwScholar; unfold commonCodes; cbn [In]; auto |].
  eapply ensures_bind
    with (Q1 := fun outcome =>
                  match outcome with
                  | inl st => Forall (tagged c) st.1
                  | inr r => Forall (tagged c) (PublicationSearchResult.publications r)
                             /\ withinCount c (PublicationSearch r)
                  end).
  - eapply ensures_tryCatch with (E1 := scholarErrorIn commonCodes).
    + eapply ensures_bind.
      * apply (ensures_paginate_common env fuel (searchUrlOf o) id _ (tagged c)).
        apply (tagged_card c PUBLICATION_SEARCH id); [cbn; auto | | reflexivity].
        intros el p Hp. apply (parsePublicationCard_source el p Hp).
      * intros st Hst. apply ensures_ret. exact Hst.
    + intros e He.
      eapply ensures_bind; [apply ensures_gets | intros cfg' _].
      apply ensures_if; [| apply ensures_throw; exact He].
      eapply ensures_bind; [apply ensures_modify | intros _ _].
      eapply ensures_bind; [exact Halt | intros r Hr; apply ensures_ret; exact Hr].
  - intros [[pubs cur] | r] Hout; apply ensures_ret; [| exact Hout].
    cbn [PublicationSearchResult.publications]. split.
    + apply Forall_slice0. exact Hout.
    + intros n Hn Hn0. left. cbn in Hn. inversion Hn; subst.
      cbn [recordCount resultPublications PublicationSearchResult.publications].
      apply slice0_length. exact Hn0.
Qed.

Lemma parseAuthorCard_named el a :
  parseAuthorCard el = Some a -> AuthorSnippet.name a <> EmptyString.
Proof.
  unfold parseAuthorCard. case_bool_decide as Hn; [discriminate |].
  intros H. inversion H; subst. exact Hn.
Qed.

Lemma ensures_searchAuthors env o :
  let c := CallSearchAuthors o in
  ensures (searchAuthors env o)
          (fun r => withinCount c (AuthorSearch r)
                    /\ Forall (fun a => AuthorSnippet.name a <> EmptyString)
                              (AuthorSearchResult.authors r))
          (scholarErrorIn commonCodes).
Proof.
  intros c. unfold searchAuthors.
  apply ensures_if; [apply ensures_throwScholar; unfold commonCodes; cbn [In]; auto |].
  eapply ensures_bind; [apply ensures_fetch_common | intros html _].
  apply ensures_ret. cbn [AuthorSearchResult.authors]. split.
  - intros n Hn Hn0. left. cbn in Hn. inversion Hn; subst.
    cbn [recordCount AuthorSearchResult.authors]. apply slice0_length. exact Hn0.
  - apply Forall_slice0. apply Forall_forall. intros a Ha.
    apply list_elem_of_omap in Ha as (el & _ & Hel). eapply parseAuthorCard_named; eauto.
Qed.

Lemma ensures_getAuthorProfile env id :
  let c := CallGetAuthorProfile id in
  ensures (getAuthorProfile env id)
          (fun a => Forall (tagged c) (Author.publications a))
          (scholarErrorIn operationCodes).
Proof.
  intros c. unfold getAuthorProfile.
  apply ensures_if; [apply ensures_throwScholar; unfold operationCodes; cbn [In]; auto |].
  eapply ensures_bind.
  - eapply ensures_weaken with (Q' := fun _ => True);
      [apply ensures_fetch_common | auto |].
    intros e. apply scholarErrorIn_mono, commonCodes_operation.
  - intros html _. destruct (Cheerio.gsc_prf_in _).
    + apply ensures_throwScholar. unfold operationCodes; cbn [In]; auto 6.
    + apply ensures_ret. cbn [parseAuthorProfile Author.publications].
      apply Forall_forall. intros p Hp.
      apply list_elem_of_omap in Hp as (el & _ & Hel).
      apply parseProfileRow_Some in Hel as [Hs Ht].
      exists AUTHOR_PROFILE. split; [exact Hs |]. split; [cbn; auto | auto].
Qed.

Lemma ensures_getCitations env fuel o :
  let c := CallGetCitations o in
  ensures (getCitations env fuel o)
          (fun r => Forall (tagged c) (CitationSearchResult.citations r)
                    /\ withinCount c (CitationSearch r))
          (scholarErrorIn commonCodes).
Proof.
  intros c. unfold getCitations.
  apply ensures_if; [apply ensures_throwScholar; unfold commonCodes; cbn [In]; auto |].
  eapply ensures_bind.
  - apply (ensures_paginate_common env fuel _ (Publication.set_source CITATION) _ (tagged c)).
    apply (tagged_card c CITATION); [cbn; auto | reflexivity | reflexivity].
  - intros [citations cur] Hst.
    eapply ensures_bind; [apply ensures_fetch_common | intros html _].
    apply ensures_ret. cbn [CitationSearchResult.citations]. split.
    + apply Forall_slice0. exact Hst.
    + intros n Hn Hn0. left. cbn in Hn. inversion Hn; subst.
      cbn [recordCount resultPublications CitationSearchResult.citations].
      apply slice0_length. exact Hn0.
Qed.

Lemma Forall_parsed (P : Publication.t -> Prop) tag doc :
  (forall el p, parsePublicationCard el = Some p -> P (tag p)) ->
  Forall P (map tag (parsePublicationResults doc)).
Proof.
  intros H. apply Forall_forall. intros q Hq.
  apply list_elem_of_fmap in Hq as (p & -> & Hp).
  apply list_elem_of_omap in Hp as (el & _ & Hel). eauto.
Qed.

Lemma ensures_getRelatedArticles env id n :
  let c := CallGetRelatedArticles id n in
  ensures (getRelatedArticles env id n)
          (fun l => Forall (tagged c) l /\ withinCount c (PublicationList l))
          (scholarErrorIn commonCodes).
Proof.
  intros c. unfold getRelatedArticles.
  apply ensures_if; [apply ensures_throwScholar; unfold commonCodes; cbn [In]; auto |].
  eapply ensures_bind; [apply ensures_fetch_common | intros html _].
  apply ensures_ret. split.
  - apply Forall_slice0, Forall_parsed.
    apply (tagged_card c RELATED); [cbn; auto | reflexivity | reflexivity].
  - intros k Hk Hk0. left. cbn in Hk. inversion Hk; subst.
    cbn [recordCount resultPublications]. apply slice0_length. exact Hk0.
Qed.

Lemma ensures_getAllVersions env id :
  let c := CallGetAllVersions id in
  ensures (getAllVersions env id)
          (fun l => Forall (tagged c) l
                    /\ Forall (fun p => Publication.clusterId p = Some id) l)
          (scholarErrorIn commonCodes).
Proof.
  intros c. unfold getAllVersions.
  apply ensures_if; [apply ensures_throwScholar; unfold commonCodes; cbn [In]; auto |].
  eapply ensures_bind; [apply ensures_fetch_common | intros html _].
  apply ensures_ret. split.
  - apply (Forall_parsed (tagged c)
             (fun pub => Publication.set_clusterId id (Publication.set_source VERSION pub))).
    apply (tagged_card c VERSION); [cbn; auto | reflexivity | reflexivity].
  - apply (Forall_parsed (fun p => Publication.clusterId p = Some id)
             (fun pub => Publication.set_clusterId id (Publication.set_source VERSION pub))).
    reflexivity.
Qed.

Lemma ensures_advancedSearch env fuel o :
  let c := CallAdvancedSearch o in
  ensures (advancedSearch env fuel o)
          (fun r => Forall (tagged c) (PublicationSearchResult.publications r)
                    /\ withinCount c (PublicationSearch r))
          (scholarErrorIn commonCodes).
Proof.
  intros c. unfold advancedSearch.
  apply ensures_if; [apply ensures_throwScholar; unfold commonCodes; cbn [In]; auto |].
  eapply ensures_bind.
  - apply (ensures_paginate_common env fuel _ (Publication.set_source ADVANCED_SEARCH) _
             (tagged c)).
    apply (tagged_card c ADVANCED_SEARCH); [cbn; auto | reflexivity | reflexivity].
  - intros [pubs cur] Hst. apply ensures_ret.
    cbn [PublicationSearchResult.publications]. split.
    + apply Forall_slice0. exact Hst.
    + intros n Hn Hn0. left. cbn in Hn. inversion Hn; subst.
      cbn [recordCount resultPublications PublicationSearchResult.publications].
      apply slice0_length. exact Hn0.
Qed.

Lemma ensures_mapM {A B} (f : A -> B) (m : M A) (Q : B -> Prop) E :
  ensures m (fun a => Q (f a)) E -> ensures (mapM f m) Q E.
Proof.
  intros H. eapply ensures_bind; [exact H | intros a Ha; apply ensures_ret; exact Ha].
Qed.

(** Every invocation, whatever it ends in. *)
Lemma ensures_invoke env fuel c :
  ensures (invoke env fuel c)
    (fun r => Forall (tagged c) (resultPublications r) /\ withinCount c r)
    (fun e => exists se, e = IsScholarError se
                         /\ In (code se) operationCodes
                         /\ (code se = NOT_FOUND -> exists id, c = CallGetAuthorProfile id)).
Proof.
  assert (Hcommon : forall e, scholarErrorIn commonCodes e ->
            exists se, e = IsScholarError se /\ In (code se) operationCodes
                       /\ (code se = NOT_FOUND -> exists id, c = CallGetAuthorProfile id)).
  { intros e (se & -> & Hin). exists se. split; [reflexivity |].
    split; [apply commonCodes_operation; exact Hin |].
    intros Hnf. rewrite Hnf in Hin. unfold commonCodes in Hin. cbn [In] in Hin.
    repeat (destruct Hin as [Hin | Hin]; [discriminate |]). contradiction. }
  destruct c as [o | o | id | o | id n | id | o]; cbn [invoke]; apply ensures_mapM.
  - eapply ensures_weaken; [apply ensures_searchPublications | auto | exact Hcommon].
  - eapply ensures_weaken; [apply ensures_searchAuthors | | exact Hcommon].
    intros r [Hr _]. split; [constructor | exact Hr].
  - eapply ensures_weaken; [apply ensures_getAuthorProfile | |].
    + intros a Ha. split; [exact Ha |]. intros n Hn. discriminate.
    + intros e (se & -> & Hin). exists se. eauto.
  - eapply ensures_weaken; [apply ensures_getCitations | auto | exact Hcommon].
  - eapply ensures_weaken; [apply ensures_getRelatedArticles | auto | exact Hcommon].
  - eapply ensures_weaken; [apply ensures_getAllVersions | | exact Hcommon].
    intros l [Hl _]. split; [exact Hl |]. intros n Hn. discriminate.
  - eapply ensures_weaken; [apply ensures_advancedSearch | auto | exact Hcommon].
Qed.

(** Whatever an operation throws is a [ScholarError] whose code is
    RATE_LIMITED, BLOCKED, NETWORK_ERROR, INVALID_INPUT or NOT_FOUND:
    never PARSE_ERROR, never CAPTCHA_REQUIRED, never an untyped error;
    and NOT_FOUND comes from [getAuthorProfile] only. *)
Theorem operations_throw_typed_errors env fuel c w e w' :
  invoke env fuel c w = Some (Throw e, w') ->
  exists se,
    e = IsScholarError se
    /\ In (code se) [RATE_LIMITED; BLOCKED; NETWORK_ERROR; INVALID_INPUT; NOT_FOUND]
    /\ code se <> PARSE_ERROR /\ code se <> CAPTCHA_REQUIRED
    /\ (code se = NOT_FOUND -> exists id, c = CallGetAuthorProfile id).
Proof.
  intros H. apply ensures_invoke in H as (se & -> & Hin & Hnf).
  exists se. split; [reflexivity |]. split; [exact Hin |].
  unfold operationCodes in Hin. cbn [In] in Hin.
  repeat split; try exact Hnf; intros Hc; rewrite Hc in Hin;
    repeat (destruct Hin as [Hin | Hin]; [discriminate |]); contradiction.
Qed.

Lemma operations_throw_typed_errors_witness :
  exists se,
    fst <$> invoke (Example.env Example2.emptySource) 10 (CallGetAuthorProfile "nobody")
                   (Example.start Example.primaryOnly)
    = Some (Throw (IsScholarError se))
    /\ code se = NOT_FOUND.
Proof.
  destruct (invoke (Example.env Example2.emptySource) 10 (CallGetAuthorProfile "nobody")
                   (Example.start Example.primaryOnly)) as [[[r|e] w']|] eqn:E;
    try (vm_compute in E; discriminate).
  destruct (operations_throw_typed_errors _ _ _ _ _ _ E) as (se & -> & _).
  exists se. split; [reflexivity |].
  vm_compute in E. inversion E; subst. reflexivity.
Defined.

(** Every publication an operation returns carries a provenance tag of
    that operation -- the tag of the alternate provider being possible
    for [searchPublications] only -- and, unless it comes from the
    alternate provider, a non-empty title; the versions returned by
    [getAllVersions] all carry the cluster identifier asked for. *)
Theorem returned_publications_are_tagged env fuel c w r w' :
  invoke env fuel c w = Some (Return r, w') ->
  Forall (fun p => exists s,
                     Publication.source p = Some s
                     /\ In s (sourcesOf c)
                     /\ (s <> SERPAPI -> Publication.title p <> EmptyString))
         (resultPublications r)
  /\ (forall id, c = CallGetAllVersions id ->
                 Forall (fun p => Publication.clusterId p = Some id) (resultPublications r)).
Proof.
  intros H. split.
  - apply ensures_invoke in H as [Ht _]. exact Ht.
  - intros id ->. cbn [invoke] in H. unfold mapM in H.
    apply bind_Some in H as [(l & w1 & H1 & H2) | (e & _ & ?)]; [| discriminate].
    inversion H2; subst. apply ensures_getAllVersions in H1 as [_ Hid]. exact Hid.
Qed.

Lemma returned_publications_are_tagged_witness :
  exists r w',
    invoke (Example.env Example.source) 10 (CallGetAllVersions "123")
           (Example.start Example.primaryOnly) = Some (Return r, w')
    /\ Forall (fun p => Publication.clusterId p = Some "123") (resultPublications r)
    /\ length (resultPublications r) = 10%nat.
Proof.
  destruct (invoke (Example.env Example.source) 10 (CallGetAllVersions "123")
                   (Example.start Example.primaryOnly)) as [[[r|e] w']|] eqn:E;
    try (vm_compute in E; discriminate).
  exists r, w'. split; [reflexivity |]. split.
  - apply (returned_publications_are_tagged _ _ _ _ _ _ E). reflexivity.
  - vm_compute in E. inversion E; subst. reflexivity.
Defined.

(** No operation that takes a result count returns more records than
    asked for (ten when nothing is asked), except a publication search
    answered by the alternate provider, whose records are all tagged as
    such. *)
Theorem results_within_requested_count env fuel c w r w' n :
  invoke env fuel c w = Some (Return r, w') ->
  requestedCount c = Some n ->
  0 <= n ->
  Z.of_nat (recordCount r) <= n
  \/ (isSearchPublications c = true
      /\ Forall (fun p => Publication.source p = Some SERPAPI) (resultPublications r)).
Proof.
  intros H Hn Hn0. apply ensures_invoke in H as [_ Hc]. exact (Hc n Hn Hn0).
Qed.

Lemma results_within_requested_count_witness :
  exists r w',
    invoke (Example.env Example.source) 10
           (CallGetRelatedArticles "123" (Some 3)) (Example.start Example.primaryOnly)
    = Some (Return r, w')
    /\ (Z.of_nat (recordCount r) <= 3
        \/ (false = true
            /\ Forall (fun p => Publication.source p = Some SERPAPI) (resultPublications r))).
Proof.
  destruct (invoke (Example.env Example.source) 10
                   (CallGetRelatedArticles "123" (Some 3))
                   (Example.start Example.primaryOnly)) as [[[r|e] w']|] eqn:E;
    try (vm_compute in E; discriminate).
  exists r, w'. split; [reflexivity |].
  apply (results_within_requested_count _ _ _ _ _ _ 3 E); [reflexivity | lia].
Defined.

(** ** Validation *)

(** An operation whose first argument is empty or blank throws
    INVALID_INPUT at once: nothing is requested, nothing is slept, the
    world is as before.  The one exception is a publication search
    while the flag is set and the alternate provider is available,
    which is not validated. *)
Theorem blank_input_is_rejected_at_once env fuel c w :
  Js.trim (callInput c) = EmptyString ->
  startsOnAlternate c w = false ->
  exists se,
    invoke env fuel c w = Some (Throw (IsScholarError se), w)
    /\ code se = INVALID_INPUT.
Proof.
  intros Hblank Halt.
  destruct c as [o | o | id | o | id n | id | o]; cbn [callInput] in Hblank;
    cbn [invoke]; unfold mapM, bind.
  - cbn [startsOnAlternate] in Halt.
    unfold searchPublications, bind, gets. cbv beta iota. rewrite Halt.
    rewrite bool_decide_eq_true_2 by exact Hblank.
    eexists; split; reflexivity.
  - unfold searchAuthors. rewrite bool_decide_eq_true_2 by exact Hblank.
    eexists; split; reflexivity.
  - unfold getAuthorProfile. rewrite bool_decide_eq_true_2 by exact Hblank.
    eexists; split; reflexivity.
  - unfold getCitations. rewrite bool_decide_eq_true_2 by exact Hblank.
    eexists; split; reflexivity.
  - unfold getRelatedArticles. rewrite bool_decide_eq_true_2 by exact Hblank.
    eexists; split; reflexivity.
  - unfold getAllVersions. rewrite bool_decide_eq_true_2 by exact Hblank.
    eexists; split; reflexivity.
  - unfold advancedSearch. rewrite bool_decide_eq_true_2 by exact Hblank.
    eexists; split; reflexivity.
Qed.

Lemma blank_input_is_rejected_at_once_witness :
  exists se,
    invoke (Example.env Example.source) 10 (CallGetAuthorProfile "   ")
           (Example.start Example.primaryOnly)
    = Some (Throw (IsScholarError se), Example.start Example.primaryOnly)
    /\ code se = INVALID_INPUT.
Proof.
  apply blank_input_is_rejected_at_once; reflexivity.
Defined.

(** ** The other operations and the selector *)



(** ** The alternate provider *)

Lemma truthyStr_key key : key <> EmptyString -> truthyStr (Some key) = true.
Proof. destruct key; [congruence | reflexivity]. Qed.

(** The alternate search, run: one request with the parameters of
    [serpSearchParams], answered by the environment. *)
Lemma searchPublicationsSerpApi_run env o w key :
  Config.serpApiKey (config w) = Some key ->
  key <> EmptyString ->
  let params := serpSearchParams key o in
  let wanted := Js.numOr (PublicationSearchOptions.numResults o) 10 in
  searchPublicationsSerpApi env o w =
  Some (match serpapi_get env (requests w) params with
        | Rejected m =>
            Throw (IsScholarError
                     (mkScholarError ("SerpAPI request failed: " +:+ m) NETWORK_ERROR None))
        | Resolved data =>
            if truthyStr (SerpApiResponse.error data) then
              Throw (IsScholarError
                       (mkScholarError
                          ("SerpAPI error: "
                           +:+ default EmptyString (SerpApiResponse.error data))
                          NETWORK_ERROR None))
            else
              let publications :=
                map mapSerpApiResultToPublication
                    (default [] (SerpApiResponse.organic_results data)) in
              Return
                {| PublicationSearchResult.query := PublicationSearchOptions.query o;
                   PublicationSearchResult.totalResults := SerpApiResponse.total_results data;
                   PublicationSearchResult.filters := None;
                   PublicationSearchResult.publications := publications;
                   PublicationSearchResult.hasMore := Some (Arr.lengthGe publications wanted);
                   PublicationSearchResult.nextStartIndex :=
                     if Arr.lengthGe publications wanted
                     then Some (Js.numOr (PublicationSearchOptions.startIndex o) 0
                                + Z.of_nat (length publications))
                     else None |}
        end,
        requestedSerpApi env params w).
Proof.
  intros Hkey Hne params wanted.
  unfold searchPublicationsSerpApi, getApiKey, bind at 1, bind at 1, gets.
  cbv beta iota. rewrite Hkey, (truthyStr_key key Hne).
  change (default EmptyString (Some key)) with key.
  unfold ret at 1. cbv beta iota.
  unfold tryCatch, bind, axiosGetSerpApi. fold (serpSearchParams key o). fold params.
  unfold requestedSerpApi.
  destruct (serpapi_get env (requests w) params) as [data|m]; cbv beta iota.
  - destruct (truthyStr (SerpApiResponse.error data)); reflexivity.
  - reflexivity.
Qed.

(** With the flag set and the alternate provider available, a
    publication search is the alternate search and nothing else: one
    request to the alternate provider with the parameters built from
    the options, no request to the primary source, no pacing, and no
    validation of the query (a blank query is sent on). *)
Theorem search_on_alternate_skips_the_primary env fuel options w key :
  useSerpApiFallback w = true ->
  Config.serpApiKey (config w) = Some key ->
  key <> EmptyString ->
  Config.useSerpApiFallback (config w) = true ->
  exists out w',
    searchPublications env fuel options w = Some (out, w')
    /\ searchPublicationsSerpApi env options w = Some (out, w')
    /\ trace w' = (trace w ++ [EvSerpApiGet (serpSearchParams key options)])%list
    /\ requests w' = S (requests w)
    /\ lastRequestTime w' = lastRequestTime w
    /\ useSerpApiFallback w' = true.
Proof.
  intros Hflag Hkey Hne Hen.
  pose proof (searchPublicationsSerpApi_run env options w key Hkey Hne) as Hrun.
  cbv zeta in Hrun.
  assert (E : searchPublications env fuel options w = searchPublicationsSerpApi env options w).
  { unfold searchPublications, bind at 1, gets. cbv beta iota.
    unfold bind at 1. cbv beta iota.
    unfold isSerpApiAvailable. rewrite Hflag, Hkey, Hen, (truthyStr_key key Hne).
    reflexivity. }
  rewrite E, Hrun. do 2 eexists. split; [reflexivity |]. split; [reflexivity |].
  unfold requestedSerpApi. cbn. auto.
Qed.

Lemma search_on_alternate_skips_the_primary_witness :
  exists out w',
    searchPublications (Example.env Example.source) 10 Example3.blankSearch
                       Example3.onAlternate = Some (out, w')
    /\ trace w' = [EvSerpApiGet [("engine", PStr "google_scholar"); ("q", PStr "");
                                 ("api_key", PStr "key"); ("hl", PStr "en");
                                 ("num", PNum 5); ("start", PNum 20)]].
Proof.
  destruct (search_on_alternate_skips_the_primary (Example.env Example.source) 10
              Example3.blankSearch Example3.onAlternate "key")
    as (out & w' & H & _ & Ht & _);
    [reflexivity | reflexivity | discriminate | reflexivity |].
  exists out, w'. split; [exact H | exact Ht].
Defined.

(** What the alternate search hands back.  Without a key it throws
    INVALID_INPUT and sends nothing.  With a key, a rejected request or
    a declared error gives NETWORK_ERROR; otherwise the records are the
    organic results, one for one (not cut to the count asked for), each
    tagged SERPAPI and with a citation count; [hasMore] is [true]
    exactly when a next offset is given, and that offset is the start
    index plus the number of records. *)
Theorem alternate_search_results env o w :
  (truthyStr (Config.serpApiKey (config w)) = false ->
   exists se, searchPublicationsSerpApi env o w = Some (Throw (IsScholarError se), w)
              /\ code se = INVALID_INPUT)
  /\ (forall key out w',
         Config.serpApiKey (config w) = Some key ->
         key <> EmptyString ->
         searchPublicationsSerpApi env o w = Some (out, w') ->
         w' = requestedSerpApi env (serpSearchParams key o) w
         /\ match out with
            | Throw e =>
                exists se, e = IsScholarError se /\ code se = NETWORK_ERROR
                  /\ ((exists m, serpapi_get env (requests w) (serpSearchParams key o)
                                 = Rejected m)
                      \/ (exists data, serpapi_get env (requests w) (serpSearchParams key o)
                                       = Resolved data
                                       /\ truthyStr (SerpApiResponse.error data) = true))
            | Return r =>
                exists data,
                  serpapi_get env (requests w) (serpSearchParams key o) = Resolved data
                  /\ truthyStr (SerpApiResponse.error data) = false
                  /\ length (PublicationSearchResult.publications r)
                     = length (default [] (SerpApiResponse.organic_results data))
                  /\ Forall (fun p => Publication.source p = Some SERPAPI
                                      /\ Publication.citationCount p <> None)
                            (PublicationSearchResult.publications r)
                  /\ (PublicationSearchResult.hasMore r = Some true
                      <-> PublicationSearchResult.nextStartIndex r <> None)
                  /\ (forall k, PublicationSearchResult.nextStartIndex r = Some k ->
                        k = Js.numOr (PublicationSearchOptions.startIndex o) 0
                            + Z.of_nat (length (PublicationSearchResult.publications r))
                        /\ Js.numOr (PublicationSearchOptions.numResults o) 10
                           <= Z.of_nat (length (PublicationSearchResult.publications r)))
            end).
Proof.
  split.
  - intros Hkey. unfold searchPublicationsSerpApi, getApiKey, bind at 1, bind at 1, gets.
    cbv beta iota. rewrite Hkey. eexists; split; reflexivity.
  - intros key out w' Hkey Hne H.
    rewrite (searchPublicationsSerpApi_run env o w key Hkey Hne) in H. cbv zeta in H.
    inversion H; subst; clear H. split; [reflexivity |].
    destruct (serpapi_get env (requests w) (serpSearchParams key o)) as [data|m].
    + destruct (truthyStr (SerpApiResponse.error data)) eqn:Eerr.
      * eexists. split; [reflexivity |]. split; [reflexivity |]. right. eauto.
      * exists data. split; [reflexivity |]. split; [exact Eerr |].
        cbn [PublicationSearchResult.publications PublicationSearchResult.hasMore
             PublicationSearchResult.nextStartIndex].
        split; [apply length_map |]. split.
        { apply Forall_forall. intros p Hp.
          apply list_elem_of_fmap in Hp as (x & -> & _). split; [reflexivity | discriminate]. }
        destruct (Arr.lengthGe _ _) eqn:Ege.
        -- split; [split; [discriminate | reflexivity] |].
           intros k Hk. inversion Hk; subst. split; [reflexivity |].
           unfold Arr.lengthGe in Ege. apply Z.leb_le in Ege. exact Ege.
        -- split; [split; [discriminate | congruence] |]. intros k Hk. discriminate.
    + eexists. split; [reflexivity |]. split; [reflexivity |]. left. eauto.
Qed.

Lemma alternate_search_results_witness :
  exists out w',
    searchPublicationsSerpApi (Example.env Example.source) Example3.blankSearch
                              Example3.onAlternate = Some (out, w')
    /\ requests w' = 1%nat.
Proof.
  destruct (searchPublicationsSerpApi (Example.env Example.source) Example3.blankSearch
                                      Example3.onAlternate) as [[out w']|] eqn:E;
    [| vm_compute in E; discriminate].
  exists out, w'. split; [reflexivity |].
  destruct (alternate_search_results (Example.env Example.source) Example3.blankSearch
              Example3.onAlternate) as (_ & Hk).
  destruct (Hk "key" out w' eq_refl ltac:(discriminate) E) as [-> _]. reflexivity.
Defined.

(** ** The cost of an operation *)

Section Spends.
Context {A B : Type}.

Lemma spends_ret (a : A) : spends 0 (ret a).
Proof. intros w out w' H. inversion H; subst. lia. Qed.

Lemma spends_throw e : spends 0 (@throw A e).
Proof. intros w out w' H. inversion H; subst. lia. Qed.

Lemma spends_outOfFuel k : spends k (@outOfFuel A).
Proof. intros w out w' H. discriminate. Qed.

Lemma spends_weaken k k' (m : M A) : spends k m -> (k <= k')%nat -> spends k' m.
Proof. intros Hm Hk w out w' H. apply Hm in H. lia. Qed.

Lemma spends_bind k1 k2 (m : M A) (f : A -> M B) :
  spends k1 m -> (forall a, spends k2 (f a)) -> spends (k1 + k2) (bind m f).
Proof.
  intros Hm Hf w out w' H.
  apply bind_Some in H as [(a & w1 & H1 & H2) | (e & H1 & _)].
  - apply Hm in H1. apply Hf in H2. lia.
  - apply Hm in H1. lia.
Qed.

Lemma spends_tryCatch k1 k2 (m : M A) (h : Thrown -> M A) :
  spends k1 m -> (forall e, spends k2 (h e)) -> spends (k1 + k2) (tryCatch m h).
Proof.
  intros Hm Hh w out w' H.
  apply tryCatch_Some in H as [(a & H1 & _) | (e & w1 & H1 & H2)].
  - apply Hm in H1. lia.
  - apply Hm in H1. apply Hh in H2. lia.
Qed.

Lemma spends_if k (b : bool) (m1 m2 : M A) :
  spends k m1 -> spends k m2 -> spends k (if b then m1 else m2).
Proof. destruct b; auto. Qed.

End Spends.

Lemma spends_gets {A} (f : World -> A) : spends 0 (gets f).
Proof. intros w out w' H. inversion H; subst. lia. Qed.

Lemma spends_modify_quiet f :
  (forall w, requests (f w) = requests w) -> spends 0 (modify f).
Proof. intros Hf w out w' H. inversion H; subst. rewrite Hf. lia. Qed.

Lemma spends_sleep ms : spends 0 (sleep ms).
Proof. apply spends_modify_quiet. reflexivity. Qed.

Lemma spends_fetch env url : spends 4 (fetch env url).
Proof. intros w out w' H. apply fetch_cases in H as (H & _). lia. Qed.

Lemma spends_throwScholar {A} msg c d : spends 0 (@throwScholar A msg c d).
Proof. apply spends_throw. Qed.

Lemma spends_paginate env build tag numResults :
  forall fuel publications currentStart,
    spends (4 * Z.to_nat (numResults - Z.of_nat (length publications)))
           (paginate env fuel build tag numResults publications currentStart).
Proof.
  induction fuel as [|fuel IH]; intros pubs cur w out w' H.
  - rewrite paginate_0 in H. destruct (Arr.lengthLt _ _); [discriminate |].
    inversion H; subst. lia.
  - rewrite paginate_iteration in H.
    destruct (Arr.lengthLt pubs numResults) eqn:E; [| inversion H; subst; lia].
    apply lengthLt_true in E.
    destruct (fetch env (build cur) w) as [[[html|e] w1]|] eqn:F; try discriminate.
    + apply spends_fetch in F.
      destruct (map tag _) as [|p page] eqn:Epage; [inversion H; subst; lia |].
      apply IH in H. rewrite length_app in H. cbn [length] in H.
      assert (Hq : requests (if Arr.lengthLt (pubs ++ p :: page) numResults
                             then slept 1000 w1 else w1) = requests w1)
        by (destruct (Arr.lengthLt _ _); reflexivity).
      rewrite Hq in H. lia.
    + inversion H; subst. apply spends_fetch in F. lia.
Qed.

Lemma spends_searchPublicationsSerpApi env o : spends 1 (searchPublicationsSerpApi env o).
Proof.
  unfold searchPublicationsSerpApi.
  apply (spends_bind 0 1).
  - unfold getApiKey. apply (spends_bind 0 0); [apply spends_gets | intros cfg].
    apply spends_if; [apply spends_ret | apply spends_throwScholar].
  - intros apiKey. apply (spends_tryCatch 1 0).
    + apply (spends_bind 1 0).
      * intros w out w' H. inversion H; subst. cbn. lia.
      * intros [data|m]; [apply spends_if; [apply spends_throwScholar | apply spends_ret]
                         | apply spends_throw].
    + intros [e|m]; [apply spends_throw | apply spends_throwScholar].
Qed.

Lemma spends_bind_l {A B} k (m : M A) (f : A -> M B) :
  spends 0 m -> (forall a, spends k (f a)) -> spends k (bind m f).
Proof. intros Hm Hf. apply (spends_bind 0 k); assumption. Qed.

Lemma spends_bind_r {A B} k (m : M A) (f : A -> M B) :
  spends k m -> (forall a, spends 0 (f a)) -> spends k (bind m f).
Proof.
  intros Hm Hf. eapply spends_weaken; [apply (spends_bind k 0); eassumption | lia].
Qed.

Lemma spends_searchPublications env fuel o :
  spends (4 * Z.to_nat (default 10 (PublicationSearchOptions.numResults o)) + 1)
         (searchPublications env fuel o).
Proof.
  set (n := Z.to_nat (default 10 (PublicationSearchOptions.numResults o))).
  assert (Halt : forall k, (1 <= k)%nat -> spends k (searchPublicationsSerpApi env o)).
  { intros k Hk. eapply spends_weaken; [apply spends_searchPublicationsSerpApi | exact Hk]. }
  unfold searchPublications.
  apply spends_bind_l; [apply spends_gets | intros flag].
  apply spends_bind_l; [apply spends_gets | intros cfg].
  apply spends_if; [apply Halt; lia |].
  apply spends_if; [eapply spends_weaken; [apply spends_throwScholar | lia] |].
  apply spends_bind_r.
  - apply (spends_tryCatch (4 * n) 1).
    + apply spends_bind_r; [| intros st; apply spends_ret].
      eapply spends_weaken; [apply spends_paginate | cbn [length]; unfold n; lia].
    + intros e. apply spends_bind_l; [apply spends_gets | intros cfg'].
      apply spends_if; [| eapply spends_weaken; [apply spends_throw | lia]].
      apply spends_bind_l; [apply spends_modify_quiet; reflexivity | intros _].
      apply spends_bind_r; [apply Halt; lia | intros r; apply spends_ret].
  - intros [[pubs cur] | r]; apply spends_ret.
Qed.

Lemma spends_invoke env fuel c : spends (requestBudget c) (invoke env fuel c).
Proof.
  assert (Hone : forall A (m : string -> M A) env' url,
             (forall html, spends 0 (m html)) -> spends 4 (bind (fetch env' url) m)).
  { intros A m env' url H. apply spends_bind_r; [apply spends_fetch | exact H]. }
  assert (Hin : forall A msg (m : M A) (b : bool) k,
             spends k m -> spends k (if b then throwScholar msg INVALID_INPUT None else m)).
  { intros A msg m b k H. apply spends_if; [| exact H].
    eapply spends_weaken; [apply spends_throwScholar | lia]. }
  destruct c as [o | o | id | o | id n | id | o]; cbn [invoke];
    (apply spends_bind_r; [| intros a; apply spends_ret]);
    cbn [requestBudget callPages].
  - apply spends_searchPublications.
  - unfold searchAuthors. apply Hin, Hone. intros html. apply spends_ret.
  - unfold getAuthorProfile. apply Hin, Hone. intros html.
    destruct (Cheerio.gsc_prf_in _); [apply spends_throwScholar | apply spends_ret].
  - unfold getCitations. apply Hin.
    apply (spends_bind (4 * _) 4).
    + eapply spends_weaken; [apply spends_paginate | cbn [length]; lia].
    + intros [citations cur]. apply Hone. intros html. apply spends_ret.
  - unfold getRelatedArticles. apply Hin, Hone. intros html. apply spends_ret.
  - unfold getAllVersions. apply Hin, Hone. intros html. apply spends_ret.
  - unfold advancedSearch. apply Hin.
    apply spends_bind_r; [| intros [pubs cur]; apply spends_ret].
    eapply spends_weaken; [apply spends_paginate | cbn [length]; lia].
Qed.

Section Terminates.
Context {A B : Type}.

Lemma terminates_ret (a : A) : terminates (ret a).
Proof. intros w. eexists; reflexivity. Qed.

Lemma terminates_throw e : terminates (@throw A e).
Proof. intros w. eexists; reflexivity. Qed.

Lemma terminates_bind (m : M A) (f : A -> M B) :
  terminates m -> (forall a, terminates (f a)) -> terminates (bind m f).
Proof.
  intros Hm Hf w. unfold bind. destruct (Hm w) as [[[a|e] w1] ->]; [apply Hf | eauto].
Qed.

Lemma terminates_tryCatch (m : M A) (h : Thrown -> M A) :
  terminates m -> (forall e, terminates (h e)) -> terminates (tryCatch m h).
Proof.
  intros Hm Hh w. unfold tryCatch. destruct (Hm w) as [[[a|e] w1] ->]; [eauto | apply Hh].
Qed.

Lemma terminates_if (b : bool) (m1 m2 : M A) :
  terminates m1 -> terminates m2 -> terminates (if b then m1 else m2).
Proof. destruct b; auto. Qed.

Lemma extends_refl (m : M A) : extends m m.
Proof. intros w out H. exact H. Qed.

Lemma extends_bind (m1 m2 : M A) (f : A -> M B) :
  extends m1 m2 -> extends (bind m1 f) (bind m2 f).
Proof.
  intros Hm w out H. unfold bind in *.
  destruct (m1 w) as [[[a|e] w1]|] eqn:E; [| | discriminate];
    rewrite (Hm _ _ E); exact H.
Qed.

Lemma extends_tryCatch (m1 m2 : M A) (h : Thrown -> M A) :
  extends m1 m2 -> extends (tryCatch m1 h) (tryCatch m2 h).
Proof.
  intros Hm w out H. unfold tryCatch in *.
  destruct (m1 w) as [[[a|e] w1]|] eqn:E; [| | discriminate];
    rewrite (Hm _ _ E); exact H.
Qed.

Lemma extends_if (b : bool) (m1 m2 m1' m2' : M A) :
  extends m1 m1' -> extends m2 m2' ->
  extends (if b then m1 else m2) (if b then m1' else m2').
Proof. destruct b; auto. Qed.

End Terminates.

Lemma extends_bind_k {A B} (m : M A) (f g : A -> M B) :
  (forall a, extends (f a) (g a)) -> extends (bind m f) (bind m g).
Proof.
  intros Hf w out H. unfold bind in *.
  destruct (m w) as [[[a|e] w1]|]; [apply Hf; exact H | exact H | exact H].
Qed.

Lemma terminates_gets {A} (f : World -> A) : terminates (gets f).
Proof. intros w. eexists; reflexivity. Qed.

Lemma terminates_fetch env url : terminates (fetch env url).
Proof. intros w. apply fetch_total. Qed.

Lemma terminates_searchPublicationsSerpApi env o :
  terminates (searchPublicationsSerpApi env o).
Proof.
  unfold searchPublicationsSerpApi. apply terminates_bind.
  - unfold getApiKey. apply terminates_bind; [apply terminates_gets | intros cfg].
    apply terminates_if; [apply terminates_ret | apply terminates_throw].
  - intros apiKey. apply terminates_tryCatch.
    + apply terminates_bind; [intros w; eexists; reflexivity | intros [data|m]].
      * apply terminates_if; [apply terminates_throw | apply terminates_ret].
      * apply terminates_throw.
    + intros [e|m]; apply terminates_throw.
Qed.

Lemma terminates_paginate env fuel build tag numResults start :
  (Z.to_nat numResults <= fuel)%nat ->
  terminates (paginate env fuel build tag numResults [] start).
Proof. intros H w. apply paginate_total. cbn [length]. lia. Qed.

Lemma extends_paginate env fuel fuel' build tag numResults pubs cur :
  (fuel <= fuel')%nat ->
  extends (paginate env fuel build tag numResults pubs cur)
          (paginate env fuel' build tag numResults pubs cur).
Proof. intros H w out Hp. eapply paginate_more_fuel; eauto. Qed.

Lemma terminates_invoke env fuel c :
  (callPages c <= fuel)%nat -> terminates (invoke env fuel c).
Proof.
  intros Hfuel.
  assert (Hone : forall A (m : string -> M A) url,
             (forall html, terminates (m html)) -> terminates (bind (fetch env url) m)).
  { intros A m url H. apply terminates_bind; [apply terminates_fetch | exact H]. }
  destruct c as [o | o | id | o | id n | id | o]; cbn [invoke callPages] in *;
    (apply terminates_bind; [| intros a; apply terminates_ret]).
  - unfold searchPublications.
    apply terminates_bind; [apply terminates_gets | intros flag].
    apply terminates_bind; [apply terminates_gets | intros cfg].
    apply terminates_if; [apply terminates_searchPublicationsSerpApi |].
    apply terminates_if; [apply terminates_throw |].
    apply terminates_bind.
    + apply terminates_tryCatch.
      * apply terminates_bind; [apply terminates_paginate; exact Hfuel |].
        intros st. apply terminates_ret.
      * intros e. apply terminates_bind; [apply terminates_gets | intros cfg'].
        apply terminates_if; [| apply terminates_throw].
        apply terminates_bind; [intros w; eexists; reflexivity | intros _].
        apply terminates_bind; [apply terminates_searchPublicationsSerpApi |].
        intros r. apply terminates_ret.
    + intros [[pubs cur] | r]; apply terminates_ret.
  - unfold searchAuthors. apply terminates_if; [apply terminates_throw |].
    apply Hone. intros html. apply terminates_ret.
  - unfold getAuthorProfile. apply terminates_if; [apply terminates_throw |].
    apply Hone. intros html.
    destruct (Cheerio.gsc_prf_in _); [apply terminates_throw | apply terminates_ret].
  - unfold getCitations. apply terminates_if; [apply terminates_throw |].
    apply terminates_bind; [apply terminates_paginate; exact Hfuel |].
    intros [citations cur]. apply Hone. intros html. apply terminates_ret.
  - unfold getRelatedArticles. apply terminates_if; [apply terminates_throw |].
    apply Hone. intros html. apply terminates_ret.
  - unfold getAllVersions. apply terminates_if; [apply terminates_throw |].
    apply Hone. intros html. apply terminates_ret.
  - unfold advancedSearch. apply terminates_if; [apply terminates_throw |].
    apply terminates_bind; [apply terminates_paginate; exact Hfuel |].
    intros [pubs cur]. apply terminates_ret.
Qed.

Lemma extends_invoke env fuel fuel' c :
  (fuel <= fuel')%nat -> extends (invoke env fuel c) (invoke env fuel' c).
Proof.
  intros Hfuel.
  destruct c as [o | o | id | o | id n | id | o]; cbn [invoke];
    try apply extends_refl; apply extends_bind.
  - unfold searchPublications.
    apply extends_bind_k; intros flag. apply extends_bind_k; intros cfg.
    apply extends_if; [apply extends_refl |].
    apply extends_if; [apply extends_refl |].
    apply extends_bind, extends_tryCatch, extends_bind, extends_paginate, Hfuel.
  - unfold getCitations. apply extends_if; [apply extends_refl |].
    apply extends_bind, extends_paginate, Hfuel.
  - unfold advancedSearch. apply extends_if; [apply extends_refl |].
    apply extends_bind, extends_paginate, Hfuel.
Qed.

(** Every invocation ends, with the same outcome for any fuel that
    covers the pages asked for, and within its budget of requests: four
    for the single-page operations, four for each record asked for in a
    paginated one, four more for the total of [getCitations], one more
    for the failover of [searchPublications]. *)
Theorem operations_end_within_budget env c w :
  exists out w',
    (forall fuel, (callPages c <= fuel)%nat -> invoke env fuel c w = Some (out, w'))
    /\ (requests w <= requests w' <= requests w + requestBudget c)%nat.
Proof.
  destruct (terminates_invoke env (callPages c) c ltac:(lia) w) as [[out w'] H].
  exists out, w'. split.
  - intros fuel Hfuel. eapply extends_invoke; eauto.
  - eapply spends_invoke; eauto.
Qed.

(** ** Text helpers *)

Lemma isDigit_digitVal c : Js.isDigit c = true -> 0 <= Js.digitVal c <= 9.
Proof.
  unfold Js.isDigit, Js.digitVal. intros H. apply andb_true_iff in H as [H1 H2].
  apply Nat.leb_le in H1, H2. lia.
Qed.

Lemma yearAt_Some s y : yearAt s = Some y -> yearShape y.
Proof.
  destruct s as [|a [|b [|c [|d rest]]]]; try discriminate. cbn [yearAt].
  destruct (_ && _) eqn:E; [| discriminate]. intros H. inversion H; subst; clear H.
  repeat (apply andb_true_iff in E as [E ?]).
  exists c, d. apply orb_true_iff in E as [E | E];
    apply andb_true_iff in E as [Ea Eb];
    apply bool_decide_eq_true in Ea, Eb; subst; auto.
Qed.

Lemma searchYear_Some s : forall prev y, searchYear prev s = Some y -> yearShape y.
Proof.
  induction s as [|x s IH]; intros prev y H.
  - cbn in H. destruct prev; discriminate.
  - cbn [searchYear] in H.
    destruct (if prev then None else yearAt (String x s)) as [y0|] eqn:E.
    + inversion H; subst. destruct prev; [discriminate |]. eapply yearAt_Some; eauto.
    + eapply IH; eauto.
Qed.

Lemma spanDigits_four a b c d :
  Js.isDigit a = true -> Js.isDigit b = true -> Js.isDigit c = true -> Js.isDigit d = true ->
  Js.spanDigits (String a (String b (String c (String d EmptyString))))
  = (String a (String b (String c (String d EmptyString))), EmptyString).
Proof. intros Ha Hb Hc Hd. cbn [Js.spanDigits]. rewrite Ha, Hb, Hc, Hd. reflexivity. Qed.

Lemma parseInt_year y : yearShape y -> exists n, Js.parseInt y = Some n /\ 1900 <= n <= 2099.
Proof.
  intros (c & d & Hy & Hc & Hd).
  pose proof (isDigit_digitVal c Hc). pose proof (isDigit_digitVal d Hd).
  destruct Hy as [-> | ->]; unfold Js.parseInt; cbn [Js.trimStart].
  - change (Js.isWhiteSpace "1") with false. cbv beta iota zeta.
    rewrite (spanDigits_four "1" "9" c d eq_refl eq_refl Hc Hd). cbn [fst Js.digitsValue].
    eexists; split; [reflexivity |].
    change (Js.digitVal "1") with 1. change (Js.digitVal "9") with 9. lia.
  - change (Js.isWhiteSpace "2") with false. cbv beta iota zeta.
    rewrite (spanDigits_four "2" "0" c d eq_refl eq_refl Hc Hd). cbn [fst Js.digitsValue].
    eexists; split; [reflexivity |].
    change (Js.digitVal "2") with 2. change (Js.digitVal "0") with 0. lia.
Qed.

(** A year read from a page lies between 1900 and 2099, whether it is
    read from the byline of a card, from a row of a profile or from the
    summary of the alternate provider. *)
Theorem extracted_years_are_plausible :
  (forall text y, extractYear text = Some y -> 1900 <= y <= 2099)
  /\ (forall el p y, parsePublicationCard el = Some p ->
                     Publication.year p = Some y -> 1900 <= y <= 2099)
  /\ (forall el p y, parseProfileRow el = Some p ->
                     Publication.year p = Some y -> 1900 <= y <= 2099)
  /\ (forall result y, Publication.year (mapSerpApiResultToPublication result) = Some y ->
                       1900 <= y <= 2099).
Proof.
  assert (H : forall text y, extractYear text = Some y -> 1900 <= y <= 2099).
  { intros text y Hy. unfold extractYear in Hy.
    destruct (searchYear false text) as [s|] eqn:E; [| discriminate]. cbn in Hy.
    apply searchYear_Some in E.
    destruct (parseInt_year s E) as (y' & Hy' & Hr).
    rewrite Hy' in Hy. inversion Hy; subst. exact Hr. }
  split; [exact H | split; [| split]].
  - intros el p y Hp Hy. unfold parsePublicationCard in Hp.
    destruct (bool_decide _); [discriminate |]. inversion Hp; subst.
    cbn [Publication.year] in Hy. eapply H; eauto.
  - intros el p y Hp Hy. unfold parseProfileRow in Hp.
    destruct (bool_decide _); [discriminate |]. inversion Hp; subst.
    cbn [Publication.year] in Hy. eapply H; eauto.
  - intros result y Hy. cbn [mapSerpApiResultToPublication Publication.year] in Hy.
    unfold extractYearFromSummary in Hy. destruct (truthyStr _); [| discriminate].
    eapply H; eauto.
Qed.

Lemma extracted_years_are_plausible_witness :
  extractYear "J Doe - Proc. of 12345 things, vol 2101, 1987 - acm.org" = Some 1987
  /\ 1900 <= 1987 <= 2099.
Proof.
  split; [reflexivity |].
  destruct extracted_years_are_plausible as (H & _).
  apply (H "J Doe - Proc. of 12345 things, vol 2101, 1987 - acm.org"). reflexivity.
Defined.

(** *** [cleanText] *)



















(** *** The cache *)

Section CacheFurther.
Context {T : Type}.
Implicit Types (cache : ScholarCache.store T) (cfg : Config.t).

Lemma cache_get_lookup cfg now key cache cache' :
  cache' !! key = cache !! key ->
  fst (ScholarCache.get cfg now key cache') = fst (ScholarCache.get cfg now key cache).
Proof.
  intros H. unfold ScholarCache.get. destruct (negb _); [reflexivity |].
  rewrite H. destruct (cache !! key) as [entry|]; [| reflexivity].
  destruct (ScholarCache.expired now entry); reflexivity.
Qed.

Lemma cache_get_store cfg now key' cache :
  snd (ScholarCache.get cfg now key' cache) = cache
  \/ snd (ScholarCache.get cfg now key' cache) = delete key' cache.
Proof.
  unfold ScholarCache.get. destruct (negb _); [left; reflexivity |].
  destruct (cache !! key') as [entry|]; [| left; reflexivity].
  destruct (ScholarCache.expired now entry); [right | left]; reflexivity.
Qed.

Lemma expired_later now now' (entry : ScholarCache.CacheEntry T) :
  now <= now' ->
  ScholarCache.expired now entry = true -> ScholarCache.expired now' entry = true.
Proof.
  unfold ScholarCache.expired. rewrite !Z.gtb_ltb. intros Hle H.
  apply Z.ltb_lt in H. apply Z.ltb_lt. lia.
Qed.

End CacheFurther.

(** What the cache holds under one key is not touched through another:
    a [set], a [get] (which may drop the expired entry it finds) or a
    [delete] of [key'] leaves every [get] of a different [key] as it
    was. *)
Theorem cache_keys_are_independent {T : Type} (cfg : Config.t)
    (cache : ScholarCache.store T) (key key' : string) :
  key <> key' ->
  (forall now now0 (v : T) ttl',
      fst (ScholarCache.get cfg now key (ScholarCache.set cfg now0 key' v ttl' cache))
      = fst (ScholarCache.get cfg now key cache))
  /\ (forall now now',
         fst (ScholarCache.get cfg now key (snd (ScholarCache.get cfg now' key' cache)))
         = fst (ScholarCache.get cfg now key cache))
  /\ (forall now,
         fst (ScholarCache.get cfg now key (snd (ScholarCache.delete_ key' cache)))
         = fst (ScholarCache.get cfg now key cache)).
Proof.
  intros Hne. split; [| split].
  - intros now now0 v ttl'. apply cache_get_lookup.
    unfold ScholarCache.set. destruct (negb _); [reflexivity |].
    apply lookup_insert_ne. congruence.
  - intros now now'. apply cache_get_lookup.
    destruct (cache_get_store cfg now' key' cache) as [-> | ->]; [reflexivity |].
    apply lookup_delete_ne. congruence.
  - intros now. apply cache_get_lookup. cbn [ScholarCache.delete_ snd].
    apply lookup_delete_ne. congruence.
Qed.

(** The periodic sweep is invisible to the readers: a [get] at the time
    of a sweep or later returns what it would have returned without the
    sweep; and the sweep only removes, keeping the entries whose age does
    not exceed their ttl. *)
Theorem cache_sweep_is_invisible {T : Type} (cfg : Config.t)
    (cache : ScholarCache.store T) (now now' : Z) :
  now <= now' ->
  (forall key,
      fst (ScholarCache.get cfg now' key (ScholarCache.cleanup now cache))
      = fst (ScholarCache.get cfg now' key cache))
  /\ (forall key entry,
         ScholarCache.cleanup now cache !! key = Some entry
         <-> cache !! key = Some entry
             /\ now - ScholarCache.timestamp entry <= ScholarCache.ttl entry).
Proof.
  intros Hle. split.
  - intros key. unfold ScholarCache.get. destruct (negb _); [reflexivity |].
    destruct (cache !! key) as [entry|] eqn:E.
    + destruct (ScholarCache.expired now entry) eqn:Ex.
      * rewrite (expired_later now now' entry Hle Ex).
        destruct (ScholarCache.cleanup now cache !! key) as [entry'|] eqn:E'; [| reflexivity].
        apply cleanup_lookup in E' as [E1 E2]. congruence.
      * assert (E' : ScholarCache.cleanup now cache !! key = Some entry)
          by (apply cleanup_lookup; auto).
        rewrite E'. destruct (ScholarCache.expired now' entry); reflexivity.
    + destruct (ScholarCache.cleanup now cache !! key) as [entry'|] eqn:E'; [| reflexivity].
      apply cleanup_lookup in E' as [E1 _]. congruence.
  - intros key entry. rewrite cleanup_lookup. unfold ScholarCache.expired.
    rewrite Z.gtb_ltb, Z.ltb_ge. reflexivity.
Qed.

(** Removal and overwriting: after [delete] or [clear] a [get] of the key
    returns nothing, whatever was stored; [delete] tells whether there
    was an entry, so a second [delete] answers false; and of two [set]s
    of one key the later one is the one that stays. *)
Theorem cache_removal_and_overwrite {T : Type} (cfg : Config.t)
    (cache : ScholarCache.store T) (key : string) (now : Z) :
  fst (ScholarCache.get cfg now key (snd (ScholarCache.delete_ key cache))) = None
  /\ fst (ScholarCache.delete_ key (snd (ScholarCache.delete_ key cache))) = false
  /\ (forall now0 (v : T) ttl',
         fst (ScholarCache.delete_ key (ScholarCache.set cfg now0 key v ttl' cache))
         = Config.cacheEnabled cfg || bool_decide (is_Some (cache !! key)))
  /\ fst (ScholarCache.get cfg now key (ScholarCache.clear cache)) = None
  /\ (forall now1 now2 (v1 v2 : T) ttl1 ttl2,
         ScholarCache.set cfg now2 key v2 ttl2 (ScholarCache.set cfg now1 key v1 ttl1 cache)
         = ScholarCache.set cfg now2 key v2 ttl2 cache).
Proof.
  split; [| split; [| split; [| split]]].
  - unfold ScholarCache.get, ScholarCache.delete_. cbn [snd].
    destruct (negb _); [reflexivity |]. rewrite lookup_delete_eq. reflexivity.
  - unfold ScholarCache.delete_. cbn [fst snd]. rewrite lookup_delete_eq.
    apply bool_decide_eq_false. intros [x Hx]. discriminate.
  - intros now0 v ttl'. unfold ScholarCache.delete_, ScholarCache.set. cbn [fst].
    destruct (Config.cacheEnabled cfg); cbn [negb orb]; [| reflexivity].
    rewrite lookup_insert_eq. apply bool_decide_eq_true. eauto.
  - unfold ScholarCache.get, ScholarCache.clear. destruct (negb _); [reflexivity |].
    rewrite lookup_empty. reflexivity.
  - intros. unfold ScholarCache.set. destruct (negb _); [reflexivity |].
    apply insert_insert_eq.
Qed.

Lemma cache_keys_are_independent_witness :
  fst (ScholarCache.get Example.withAlternate 9 "a"
         (ScholarCache.set Example.withAlternate 5 "b" 7%nat None
            (ScholarCache.set Example.withAlternate 5 "a" 42%nat None ∅)))
  = Some 42%nat.
Proof.
  destruct (cache_keys_are_independent Example.withAlternate
              (ScholarCache.set Example.withAlternate 5 "a" 42%nat None ∅) "a" "b")
    as (H & _); [discriminate |].
  rewrite H. vm_compute. reflexivity.
Defined.

Lemma cache_sweep_is_invisible_witness :
  fst (ScholarCache.get Example.withAlternate 20 "a"
         (ScholarCache.cleanup 10 (ScholarCache.set Example.withAlternate 5 "a" 42%nat (Some 3) ∅)))
  = None.
Proof.
  destruct (cache_sweep_is_invisible Example.withAlternate
              (ScholarCache.set Example.withAlternate 5 "a" 42%nat (Some 3) ∅) 10 20)
    as (H & _); [lia |].
  rewrite H. vm_compute. reflexivity.
Defined.

(** *** A request for no records *)

Lemma slice0_nil {A} n : Arr.slice0 n ([] : list A) = [].
Proof. unfold Arr.slice0. destruct (n <? 0); apply take_nil. Qed.

(** Asked for no records (a count of zero or less), [searchPublications]
    and [advancedSearch] answer at once, from any world and without a
    request, with an empty list that nevertheless reports [hasMore];
    [getCitations] skips the pages too but still sends the request for
    the total, so it costs between one and four requests. *)
Theorem nothing_asked_nothing_fetched env fuel (n : Z) :
  n <= 0 ->
  (forall o w,
      PublicationSearchOptions.numResults o = Some n ->
      Js.trim (PublicationSearchOptions.query o) <> EmptyString ->
      useSerpApiFallback w && isSerpApiAvailable (config w) = false ->
      exists r,
        searchPublications env fuel o w = Some (Return r, w)
        /\ PublicationSearchResult.publications r = []
        /\ PublicationSearchResult.hasMore r = Some true
        /\ PublicationSearchResult.nextStartIndex r
           = Some (default 0 (PublicationSearchOptions.startIndex o)))
  /\ (forall o w,
         AdvancedSearchOptions.numResults o = Some n ->
         Js.trim (AdvancedSearchOptions.query o) <> EmptyString ->
         exists r,
           advancedSearch env fuel o w = Some (Return r, w)
           /\ PublicationSearchResult.publications r = []
           /\ PublicationSearchResult.hasMore r = Some true
           /\ PublicationSearchResult.nextStartIndex r = Some 0)
  /\ (forall o w out w',
         CitationSearchOptions.numResults o = Some n ->
         Js.trim (CitationSearchOptions.clusterId o) <> EmptyString ->
         getCitations env fuel o w = Some (out, w') ->
         (1 <= requests w' - requests w <= 4)%nat
         /\ forall r, out = Return r ->
              CitationSearchResult.citations r = []
              /\ CitationSearchResult.hasMore r = Some true
              /\ CitationSearchResult.nextStartIndex r
                 = Some (default 0 (CitationSearchOptions.startIndex o))).
Proof.
  intros Hn.
  assert (Hge : Arr.lengthGe ([] : list Publication.t) n = true)
    by (unfold Arr.lengthGe; cbn [length]; apply Z.leb_le; lia).
  split; [| split].
  - intros o w Ho Hq Halt. unfold searchPublications, bind, gets, tryCatch.
    rewrite Halt, Ho. change (default 10 (Some n)) with n.
    rewrite bool_decide_eq_false_2 by exact Hq.
    rewrite paginate_done by (cbn [length]; lia).
    eexists. split; [reflexivity |].
    cbn [PublicationSearchResult.publications PublicationSearchResult.hasMore
         PublicationSearchResult.nextStartIndex].
    rewrite slice0_nil, Hge. auto.
  - intros o w Ho Hq. unfold advancedSearch, bind.
    rewrite bool_decide_eq_false_2 by exact Hq.
    rewrite Ho. change (default 10 (Some n)) with n.
    rewrite paginate_done by (cbn [length]; lia).
    eexists. split; [reflexivity |].
    cbn [PublicationSearchResult.publications PublicationSearchResult.hasMore
         PublicationSearchResult.nextStartIndex].
    rewrite slice0_nil, Hge. auto.
  - intros o w out w' Ho Hq H. unfold getCitations, bind in H.
    rewrite bool_decide_eq_false_2 in H by exact Hq.
    rewrite Ho in H. change (default 10 (Some n)) with n in H.
    rewrite paginate_done in H by (cbn [length]; lia).
    destruct (fetch env _ w) as [[[html|e] w1]|] eqn:F; [| | discriminate].
    + apply fetchPage_outcome in F; [| unfold MAX_RETRIES; lia].
      destruct F as (Hreq & _). unfold MAX_RETRIES in Hreq.
      inversion H; subst. split; [lia |].
      intros r Hr. inversion Hr; subst.
      cbn [CitationSearchResult.citations CitationSearchResult.hasMore
           CitationSearchResult.nextStartIndex].
      rewrite slice0_nil, Hge. auto.
    + apply fetchPage_outcome in F; [| unfold MAX_RETRIES; lia].
      destruct F as (Hreq & _). unfold MAX_RETRIES in Hreq.
      inversion H; subst. split; [lia |]. intros r Hr. discriminate.
Qed.

Lemma nothing_asked_nothing_fetched_witness :
  exists r,
    searchPublications (Example.env Example.source) 0 Example3.noRecords
                       (Example.start Example.primaryOnly)
    = Some (Return r, Example.start Example.primaryOnly)
    /\ PublicationSearchResult.publications r = []
    /\ PublicationSearchResult.hasMore r = Some true
    /\ PublicationSearchResult.nextStartIndex r = Some 30.
Proof.
  destruct (nothing_asked_nothing_fetched (Example.env Example.source) 0 0) as (H & _);
    [lia |].
  apply (H Example3.noRecords (Example.start Example.primaryOnly)).
  - reflexivity.
  - vm_compute. discriminate.
  - reflexivity.
Defined.

(** *** User agents *)

Lemma at_lookup {A} (arr : list A) k :
  0 <= k < Z.of_nat (length arr) -> exists a, at_ arr (Some k) = Some a /\ In a arr.
Proof.
  intros Hk. unfold at_. destruct (k <? 0) eqn:E; [apply Z.ltb_lt in E; lia |].
  destruct (lookup_lt_is_Some_2 arr (Z.to_nat k)) as [a Ha]; [lia |].
  exists a. split; [exact Ha |]. apply list_elem_of_In. eapply list_elem_of_lookup_2; eauto.
Qed.

Lemma getUserAgent_rotate random agents i :
  agents <> [] -> 0 <= i ->
  let j := (i + 1) mod Z.of_nat (length agents) in
  getUserAgent random (Some (UserAgentConfig.mk agents true)) (Some i)
  = (at_ agents (Some j), Some j)
  /\ 0 <= j < Z.of_nat (length agents).
Proof.
  intros Hne Hi j. assert (Hlen : 0 < Z.of_nat (length agents))
    by (destruct agents; [congruence | cbn [length]; lia]).
  unfold getUserAgent. cbn [UserAgentConfig.rotate UserAgentConfig.userAgents fmap option_fmap option_map jsRem].
  destruct (Z.of_nat (length agents) =? 0) eqn:E; [apply Z.eqb_eq in E; lia |].
  rewrite Z.rem_mod_nonneg by lia. split; [reflexivity |].
  apply Z.mod_pos_bound. exact Hlen.
Qed.

Lemma getUserAgents_rotate random agents :
  agents <> [] ->
  forall k n i, 0 <= i < Z.of_nat (length agents) ->
    getUserAgents random n k (Some (UserAgentConfig.mk agents true)) (Some i)
    = (map (fun m => at_ agents (Some ((i + Z.of_nat m) mod Z.of_nat (length agents))))
           (seq 1 k),
       Some ((i + Z.of_nat k) mod Z.of_nat (length agents))).
Proof.
  intros Hne. induction k as [|k IH]; intros n i Hi.
  - cbn [getUserAgents seq map]. rewrite Z.add_0_r, Z.mod_small by lia. reflexivity.
  - cbn [getUserAgents].
    destruct (getUserAgent_rotate (random n) agents i Hne) as [-> Hj]; [lia |].
    rewrite (IH _ _ Hj). cbn [seq map]. rewrite <- (seq_shift k 1), map_map.
    f_equal; [f_equal |].
    + apply map_ext. intros m. rewrite Zplus_mod_idemp_l. do 3 f_equal. lia.
    + rewrite Zplus_mod_idemp_l. do 2 f_equal. lia.
Qed.

(** Rotation walks the list it is given in cyclic order: from an index
    inside a non-empty list, the [m]-th call in a row returns the agent
    [m] places further on, always one of the list, and after as many
    calls as there are agents the index is back where it was.  With an
    empty list -- which is what [fetchPage] and [downloadPaper] pass --
    the call returns no agent and leaves the index [NaN]; from then on
    every rotating call returns no agent, whatever list it is given.
    Without rotation the agent is drawn from the list (the defaults when
    there is no configuration) and the index is left alone. *)
Theorem user_agent_rotation (agents : list string) (i : Z) :
  agents <> [] ->
  0 <= i < Z.of_nat (length agents) ->
  let n := Z.of_nat (length agents) in
  let rotating := Some (UserAgentConfig.mk agents true) in
  (forall random k,
      getUserAgents random 0 k rotating (Some i)
      = (map (fun m => at_ agents (Some ((i + Z.of_nat m) mod n))) (seq 1 k),
         Some ((i + Z.of_nat k) mod n)))
  /\ (forall m, exists a, at_ agents (Some ((i + Z.of_nat m) mod n)) = Some a /\ In a agents)
  /\ (forall random, snd (getUserAgents random 0 (length agents) rotating (Some i)) = Some i)
  /\ (forall random index,
         getUserAgent random (Some requestUserAgentConfig) index = (None, None))
  /\ (forall random list, getUserAgent random (Some (UserAgentConfig.mk list true)) None
                          = (None, None))
  /\ (forall random index,
         0 <= random < 2 ^ 53 ->
         (exists a, getUserAgent random (Some (UserAgentConfig.mk agents false)) index
                    = (Some a, index) /\ In a agents)
         /\ (exists a, getUserAgent random None index = (Some a, index)
                       /\ In a DEFAULT_USER_AGENTS)).
Proof.
  intros Hne Hi n rotating.
  assert (Hdraw : forall random (l : list string), l <> [] -> 0 <= random < 2 ^ 53 ->
            0 <= random * Z.of_nat (length l) / 2 ^ 53 < Z.of_nat (length l)).
  { intros random l Hl Hr. split; [apply Z.div_pos; nia |].
    apply Z.div_lt_upper_bound; [lia |].
    assert (0 < Z.of_nat (length l)) by (destruct l; [congruence | cbn [length]; lia]). nia. }
  split; [intros random k; apply getUserAgents_rotate; auto |].
  split; [intros m; apply at_lookup, Z.mod_pos_bound; lia |].
  split.
  { intros random. unfold rotating. rewrite getUserAgents_rotate by auto. cbn [snd]. f_equal.
    fold n. rewrite <- Zplus_mod_idemp_r, Z_mod_same_full, Z.add_0_r.
    apply Z.mod_small. exact Hi. }
  split; [intros random [index|]; reflexivity |].
  split; [intros random list; reflexivity |].
  intros random index Hr. split.
  - destruct (at_lookup agents _ (Hdraw random agents Hne Hr)) as (a & Ha & Hin).
    exists a. split; [| exact Hin]. unfold getUserAgent.
    cbn [UserAgentConfig.rotate UserAgentConfig.userAgents]. rewrite Ha. reflexivity.
  - assert (Hd : DEFAULT_USER_AGENTS <> []) by discriminate.
    destruct (at_lookup DEFAULT_USER_AGENTS _ (Hdraw random _ Hd Hr)) as (a & Ha & Hin).
    exists a. split; [| exact Hin]. unfold getUserAgent. rewrite Ha. reflexivity.
Qed.

Lemma user_agent_rotation_witness :
  snd (getUserAgents (fun _ => 0) 0 5 (Some (UserAgentConfig.mk DEFAULT_USER_AGENTS true))
                     (Some 0)) = Some 0.
Proof.
  destruct (user_agent_rotation DEFAULT_USER_AGENTS 0) as (_ & _ & H & _).
  - discriminate.
  - cbn. lia.
  - exact (H (fun _ => 0)).
Defined.

(** ** The tool handlers *)

Lemma startsWith_append p t : Js.startsWith p (p +:+ t) = true.
Proof.
  induction p as [|a p IH]; [destruct t; reflexivity |].
  change (String a p +:+ t) with (String a (p +:+ t)).
  cbn [Js.startsWith]. destruct (ascii_dec a a); [exact IH | congruence].
Qed.

Lemma startsWith_refl p : Js.startsWith p p = true.
Proof.
  induction p as [|a p IH]; [reflexivity |].
  cbn [Js.startsWith]. destruct (ascii_dec a a); [exact IH | congruence].
Qed.

Lemma startsWith_head a p b s :
  a <> b -> Js.startsWith (String a p) (String b s) = false.
Proof. intros H. cbn [Js.startsWith]. destruct (ascii_dec a b); [congruence | reflexivity]. Qed.

Lemma handleError_text e :
  exists text, handleError e = textResult text (Some true)
               /\ Js.startsWith "Error: " text = true
               /\ Js.startsWith "Unknown tool: " text = false
               /\ forall se, e = IsScholarError se ->
                             Js.startsWith ("Error: " +:+ message se) text = true.
Proof.
  destruct e as [se | msg]; cbn [handleError].
  - eexists. split; [reflexivity |].
    split; [destruct (code se); reflexivity |].
    split; [destruct (code se); reflexivity |].
    intros se' H. inversion H; subst se'.
    destruct (code se); first [apply startsWith_append | apply startsWith_refl].
  - eexists. split; [reflexivity |]. split; [reflexivity |]. split; [reflexivity |].
    intros se H. discriminate.
Qed.

Section HandlerProperties.
Variable env : Env.
Variable toLocaleString : option Z -> string.
Variable href : Url -> string.

(** A call with a handler that runs an operation: the answer follows
    the operation's outcome. *)
Lemma handleToolCall_served c op :
  toolOperation c = Some op ->
  exists render : OperationResult -> string,
    forall fuel w,
      match invoke env fuel op w with
      | Some (Return res, w1) =>
          handleToolCall env toLocaleString href fuel c w = Some (Return (textResult (render res) None), w1)
          /\ Js.startsWith "# " (render res) = true
      | Some (Throw e, w1) => handleToolCall env toLocaleString href fuel c w = Some (Return (handleError e), w1)
      | None => handleToolCall env toLocaleString href fuel c w = None
      end.
Proof.
  destruct c as [args | args | args | args | args | | | | | |]; try discriminate;
    intros H; inversion H; subst op; clear H.
  - exists (fun res =>
              match res with
              | PublicationSearch result =>
                  formatPublicationResults toLocaleString
                    (PublicationSearchResult.publications result)
                    (PublicationSearchResult.query result)
              | _ => "# "
              end).
    intros fuel w.
    unfold handleToolCall, tryCatch, invoke, mapM, bind, handleSearchPublications, bind.
    destruct (searchPublications env fuel _ w) as [[[res|e] w1]|]; [| reflexivity | reflexivity].
    split; reflexivity.
  - exists (fun res =>
              match res with
              | AuthorSearch result =>
                  "# Author Search Results for " +:+ dquote +:+ SearchAuthorArgs.query args
                  +:+ dquote +:+ nl +:+ nl
                  +:+ "Found "
                  +:+ Js.toString (Z.of_nat (length (AuthorSearchResult.authors result)))
                  +:+ " authors" +:+ nl +:+ nl
                  +:+ String.concat EmptyString
                        (imap (formatAuthor toLocaleString) (AuthorSearchResult.authors result))
              | _ => "# "
              end).
    intros fuel w.
    unfold handleToolCall, tryCatch, invoke, mapM, bind, handleSearchAuthor, bind.
    destruct (searchAuthors env _ w) as [[[res|e] w1]|]; [| reflexivity | reflexivity].
    split; reflexivity.
  - exists (fun res =>
              match res with
              | AuthorProfile author => formatProfile toLocaleString href author
              | _ => "# "
              end).
    intros fuel w.
    unfold handleToolCall, tryCatch, invoke, mapM, bind, handleGetAuthorProfile, bind.
    destruct (getAuthorProfile env _ w) as [[[res|e] w1]|]; [| reflexivity | reflexivity].
    split; reflexivity.
  - eexists (fun res =>
              match res with
              | CitationSearch result => _
              | _ => "# "
              end).
    intros fuel w.
    unfold handleToolCall, tryCatch, invoke, mapM, bind, handleGetCitations, bind.
    destruct (getCitations env fuel _ w) as [[[res|e] w1]|]; [| reflexivity | reflexivity].
    split; [cbv beta iota; reflexivity | reflexivity].
Qed.

(** A call that runs no operation is answered on the spot. *)
Lemma handleToolCall_pure c :
  toolOperation c = None ->
  exists text isError,
    (forall fuel w, handleToolCall env toLocaleString href fuel c w = Some (Return (textResult text isError), w))
    /\ ((In (toolName c) handledNames /\ isError = None
         /\ Js.startsWith "# " text = true)
        \/ (~ In (toolName c) handledNames /\ isError = Some true
            /\ text = "Unknown tool: " +:+ toolName c)).
Proof.
  assert (Hout : forall name, In name
            [TOOL_NAMES.GET_RELATED_ARTICLES; TOOL_NAMES.GET_ALL_VERSIONS;
             TOOL_NAMES.DOWNLOAD_PAPER; TOOL_NAMES.LIST_PAPERS; TOOL_NAMES.READ_PAPER;
             TOOL_NAMES.ADVANCED_SEARCH] -> ~ In name handledNames).
  { intros name H Hin. unfold handledNames in Hin. cbn [In] in H, Hin.
    repeat (destruct H as [H | H]; [subst name;
      repeat (destruct Hin as [Hin | Hin]; [discriminate |]); contradiction |]).
    contradiction. }
  destruct c as [args | args | args | args | args | | | | | |]; try discriminate; intros _;
    unfold handleToolCall, tryCatch, ret.
  - eexists _, _. split; [intros fuel w; reflexivity |]. left.
    split; [unfold handledNames; cbn; auto 6 |]. split; reflexivity.
  - eexists _, _. split; [intros fuel w; reflexivity |]. right.
    split; [apply Hout; cbn; auto 7 |]. split; reflexivity.
  - eexists _, _. split; [intros fuel w; reflexivity |]. right.
    split; [apply Hout; cbn; auto 7 |]. split; reflexivity.
  - eexists _, _. split; [intros fuel w; reflexivity |]. right.
    split; [apply Hout; cbn; auto 7 |]. split; reflexivity.
  - eexists _, _. split; [intros fuel w; reflexivity |]. right.
    split; [apply Hout; cbn; auto 7 |]. split; reflexivity.
  - eexists _, _. split; [intros fuel w; reflexivity |]. right.
    split; [apply Hout; cbn; auto 7 |]. split; reflexivity.
  - eexists _, _. split; [intros fuel w; reflexivity |]. right.
    split; [apply Hout; cbn; auto 7 |]. split; reflexivity.
Qed.

Lemma toolOperation_handled c op :
  toolOperation c = Some op -> In (toolName c) handledNames.
Proof.
  destruct c; try discriminate; intros _; unfold handledNames; cbn; auto 6.
Qed.

End HandlerProperties.

(** A tool call never throws and always ends: for any fuel that covers
    the pages asked for, [handleToolCall] returns the same answer, made
    of one text item.  An answer that is not flagged as an error starts
    with a heading; one that is flagged starts with [Error: ] or with
    [Unknown tool: ]. *)
Theorem tool_calls_always_answer env toLocaleString href c w :
  exists text isError w',
    (forall fuel, (toolPages c <= fuel)%nat ->
       handleToolCall env toLocaleString href fuel c w
       = Some (Return (textResult text isError), w'))
    /\ ((isError = None /\ Js.startsWith "# " text = true)
        \/ (isError = Some true
            /\ (Js.startsWith "Error: " text = true
                \/ Js.startsWith "Unknown tool: " text = true))).
Proof.
  unfold toolPages. destruct (toolOperation c) as [op|] eqn:Hop.
  - destruct (terminates_invoke env (callPages op) op ltac:(lia) w) as [[out w'] H].
    assert (Hall : forall fuel, (callPages op <= fuel)%nat ->
              invoke env fuel op w = Some (out, w'))
      by (intros fuel Hfuel; eapply extends_invoke; eauto).
    destruct (handleToolCall_served env toLocaleString href c op Hop) as (render & Hs).
    destruct out as [res | e].
    + exists (render res), None, w'. split.
      * intros fuel Hfuel. specialize (Hs fuel w). rewrite (Hall fuel Hfuel) in Hs.
        apply Hs.
      * left. split; [reflexivity |]. specialize (Hs (callPages op) w).
        rewrite H in Hs. apply Hs.
    + destruct (handleError_text e) as (text & He & Hstart & _).
      exists text, (Some true), w'. split; [| right; auto].
      intros fuel Hfuel. specialize (Hs fuel w). rewrite (Hall fuel Hfuel) in Hs.
      rewrite Hs, He. reflexivity.
  - destruct (handleToolCall_pure env toLocaleString href c Hop) as (text & isError & H & Hc).
    exists text, isError, w. split; [intros fuel _; apply H |].
    destruct Hc as [(_ & -> & Ht) | (_ & -> & ->)]; [left; auto | right].
    split; [reflexivity |]. right. apply startsWith_append.
Qed.

(** The answer of a tool that runs an operation follows the operation:
    it leaves the world as the operation leaves it; it is flagged as an
    error exactly when the operation throws; and then its text is
    [Error: ] and the message of the [ScholarError] thrown (followed, for
    some codes, by an advice). *)
Theorem tool_answers_follow_the_operation env toLocaleString href fuel c op w out w1 :
  toolOperation c = Some op ->
  invoke env fuel op w = Some (out, w1) ->
  exists text isError,
    handleToolCall env toLocaleString href fuel c w
    = Some (Return (textResult text isError), w1)
    /\ match out with
       | Return _ => isError = None
       | Throw e =>
           isError = Some true
           /\ textResult text isError = handleError e
           /\ exists se, e = IsScholarError se
                         /\ Js.startsWith ("Error: " +:+ message se) text = true
       end.
Proof.
  intros Hop H.
  destruct (handleToolCall_served env toLocaleString href c op Hop) as (render & Hs).
  specialize (Hs fuel w). rewrite H in Hs. destruct out as [res | e].
  - destruct Hs as [Hs _]. eauto.
  - destruct (handleError_text e) as (text & He & _ & _ & Hmsg).
    exists text, (Some true). rewrite Hs, He. split; [reflexivity |].
    split; [reflexivity |]. split; [reflexivity |].
    apply ensures_invoke in H as (se & -> & _). exists se. split; [reflexivity |].
    apply Hmsg. reflexivity.
Qed.

(** Of the eleven tools the server registers, [handleToolCall] has a
    case for five.  A call of any of the other six -- related articles,
    all versions, download, list and read paper, advanced search -- is
    answered [Unknown tool: ] and the name, flagged as an error, without a
    request and with the world left as it was; and no call of the five
    is ever answered that way. *)
Theorem tools_without_a_handler env toLocaleString href fuel c w r w' :
  handleToolCall env toLocaleString href fuel c w = Some (Return r, w') ->
  (Js.startsWith "Unknown tool: " (answerText r) = true <-> ~ In (toolName c) handledNames)
  /\ (~ In (toolName c) handledNames ->
      r = textResult ("Unknown tool: " +:+ toolName c) (Some true) /\ w' = w).
Proof.
  intros H. destruct (toolOperation c) as [op|] eqn:Hop.
  - pose proof (toolOperation_handled c op Hop) as Hin.
    destruct (handleToolCall_served env toLocaleString href c op Hop) as (render & Hs).
    specialize (Hs fuel w).
    assert (Hno : Js.startsWith "Unknown tool: " (answerText r) = false).
    { destruct (invoke env fuel op w) as [[[res|e] w1]|].
      - destruct Hs as [Hs Hhead]. rewrite Hs in H. inversion H; subst.
        cbn [answerText textResult ToolResult.content Content.text].
        destruct (render res) as [|a t]; [reflexivity |].
        apply startsWith_head. cbn [Js.startsWith] in Hhead.
        destruct (ascii_dec "#" a); [subst a; discriminate | discriminate].
      - rewrite Hs in H. inversion H; subst.
        destruct (handleError_text e) as (text & -> & _ & Hu & _). exact Hu.
      - rewrite Hs in H. discriminate. }
    split; [| intros Hn; contradiction].
    rewrite Hno. split; [discriminate | intros Hn; contradiction].
  - destruct (handleToolCall_pure env toLocaleString href c Hop) as (text & isError & Hp & Hc).
    rewrite Hp in H. inversion H; subst.
    cbn [answerText textResult ToolResult.content Content.text].
    destruct Hc as [(Hin & -> & Ht) | (Hn & -> & ->)].
    + split; [| intros Hn; contradiction].
      split; [| intros Hn; contradiction].
      destruct text as [|a t]; [discriminate |]. cbn [Js.startsWith] in *.
      destruct (ascii_dec "#" a); [subst a | discriminate].
      destruct (ascii_dec "U" "#"); discriminate.
    + split; [| auto]. split; [auto |]. intros _. apply startsWith_append.
Qed.

Lemma tool_answers_follow_the_operation_witness :
  exists text w1,
    handleToolCall (Example.env Example2.emptySource) Example4.plain Example4.path 10
                   Example4.nobody (Example.start Example.primaryOnly)
    = Some (Return (textResult text (Some true)), w1)
    /\ Js.startsWith "Error: Author profile not found: nobody" text = true.
Proof.
  destruct (invoke (Example.env Example2.emptySource) 10 (CallGetAuthorProfile "nobody")
                   (Example.start Example.primaryOnly)) as [[out w1]|] eqn:E;
    [| vm_compute in E; discriminate].
  destruct (tool_answers_follow_the_operation
              (Example.env Example2.emptySource) Example4.plain Example4.path 10
              Example4.nobody (CallGetAuthorProfile "nobody")
              (Example.start Example.primaryOnly) out w1 eq_refl E)
    as (text & isError & H & Hout).
  destruct out as [res | e]; [vm_compute in E; discriminate |].
  destruct Hout as (-> & _ & se & -> & Hse).
  exists text, w1. split; [exact H |].
  assert (Hm : message se = "Author profile not found: nobody")
    by (vm_compute in E; inversion E; reflexivity).
  rewrite Hm in Hse. exact Hse.
Defined.

Lemma tools_without_a_handler_witness :
  Js.startsWith "Unknown tool: "
    (answerText (textResult "Unknown tool: advanced_search" (Some true))) = true
  /\ textResult "Unknown tool: advanced_search" (Some true)
     = textResult ("Unknown tool: " +:+ toolName AdvancedSearchTool) (Some true).
Proof.
  destruct (tools_without_a_handler (Example.env Example.source) Example4.plain Example4.path
              0 AdvancedSearchTool (Example.start Example.primaryOnly)
              (textResult "Unknown tool: advanced_search" (Some true))
              (Example.start Example.primaryOnly) eq_refl) as [Hiff Hr].
  assert (Hn : ~ In (toolName AdvancedSearchTool) handledNames).
  { unfold handledNames. cbn [In]. intros H.
    repeat (destruct H as [H | H]; [discriminate |]). contradiction. }
  split; [apply Hiff, Hn | apply Hr, Hn].
Defined.

(** ** BibTeX *)












(** ** The URLs of the pages *)

Lemma toString_inj a b : Js.toString a = Js.toString b -> a = b.
Proof.
  unfold Js.toString. intros H. apply DecimalZ.to_int_inj.
  assert (Hn : forall n, Z.to_int n <> Decimal.Pos Decimal.Nil
                         /\ Z.to_int n <> Decimal.Neg Decimal.Nil).
  { intros [|p|p]; cbn [Z.to_int]; split; try discriminate;
      intros E; inversion E as [E']; apply (DecimalPos.Unsigned.to_uint_nonnil p E'). }
  assert (Hs : Some (Z.to_int a) = Some (Z.to_int b)).
  { rewrite <- (NilZero.isi (Z.to_int a)), <- (NilZero.isi (Z.to_int b)) by apply Hn.
    rewrite H. reflexivity. }
  inversion Hs. reflexivity.
Qed.

Lemma param_start_search params :
  Example.param "start" (buildSearchUrl params)
  = if truthyNum (SearchUrlParams.start params)
    then Some (Js.toString (default 0 (SearchUrlParams.start params))) else None.
Proof.
  unfold buildSearchUrl, Example.param, setIf. cbn [searchParams].
  repeat match goal with |- context [if ?b then _ else _] => destruct b end; reflexivity.
Qed.

Lemma param_start_citation id start sortBy :
  Example.param "start" (buildCitationUrl id start sortBy)
  = if truthyNum start then Some (Js.toString (default 0 start)) else None.
Proof.
  unfold buildCitationUrl, Example.param, setIf. cbn [searchParams].
  repeat match goal with |- context [if ?b then _ else _] => destruct b end; reflexivity.
Qed.

Lemma start_inj (s s' : Z) :
  (if truthyNum (Some s) then Some (Js.toString (default 0 (Some s))) else None)
  = (if truthyNum (Some s') then Some (Js.toString (default 0 (Some s'))) else None) ->
  s = s'.
Proof.
  cbn [truthyNum]. change (default 0 (Some s)) with s. change (default 0 (Some s')) with s'.
  destruct (s =? 0) eqn:E, (s' =? 0) eqn:E'; cbn [negb]; intros H; try discriminate.
  - apply Z.eqb_eq in E, E'. congruence.
  - inversion H. apply toString_inj. assumption.
Qed.

(** Every page of a paginated search has a URL of its own: the offset is
    sent as the [start] parameter, except the offset zero, which is not
    sent at all, so that the URLs of two different offsets differ.  No
    parameter is set twice. *)
Theorem page_urls_tell_the_offset :
  (forall o s, Example.param "start" (searchUrlOf o s)
               = if s =? 0 then None else Some (Js.toString s))
  /\ (forall id s sortBy, Example.param "start" (buildCitationUrl id (Some s) sortBy)
                          = if s =? 0 then None else Some (Js.toString s))
  /\ (forall o s s', searchUrlOf o s = searchUrlOf o s' -> s = s')
  /\ (forall id sortBy s s',
         buildCitationUrl id (Some s) sortBy = buildCitationUrl id (Some s') sortBy -> s = s')
  /\ (forall params, NoDup (map fst (searchParams (buildSearchUrl params))))
  /\ (forall id start sortBy, NoDup (map fst (searchParams (buildCitationUrl id start sortBy)))).
Proof.
  split; [| split; [| split; [| split; [| split]]]].
  - intros o s. unfold searchUrlOf. rewrite param_start_search.
    cbn [SearchUrlParams.start truthyNum]. destruct (s =? 0); reflexivity.
  - intros id s sortBy. rewrite param_start_citation.
    cbn [truthyNum]. destruct (s =? 0); reflexivity.
  - intros o s s' H. apply (f_equal (Example.param "start")) in H.
    unfold searchUrlOf in H. rewrite !param_start_search in H.
    cbn [SearchUrlParams.start] in H. apply start_inj, H.
  - intros id sortBy s s' H. apply (f_equal (Example.param "start")) in H.
    rewrite !param_start_citation in H. apply start_inj, H.
  - intros params. unfold buildSearchUrl, setIf. cbn [searchParams].
    repeat match goal with |- context [if ?b then _ else _] => destruct b end;
      cbn [app map fst]; apply NoDup_ListNoDup;
      repeat (constructor;
              [cbn [In]; intros H; repeat (destruct H as [H | H]; [discriminate H |]); exact H |]);
      constructor.
  - intros id start sortBy. unfold buildCitationUrl, setIf. cbn [searchParams].
    repeat match goal with |- context [if ?b then _ else _] => destruct b end;
      cbn [app map fst]; apply NoDup_ListNoDup;
      repeat (constructor;
              [cbn [In]; intros H; repeat (destruct H as [H | H]; [discriminate H |]); exact H |]);
      constructor.
Qed.

Lemma page_urls_tell_the_offset_witness :
  searchUrlOf Example.transformerSearch 0 <> searchUrlOf Example.transformerSearch 10.
Proof.
  destruct page_urls_tell_the_offset as (_ & _ & H & _).
  intros E. apply H in E. discriminate.
Defined.

(** ** Where INVALID_INPUT comes from *)









(** ** The fields of the extracted records *)

Lemma search_Some {A} (m : string -> option A) s a :
  Re.search m s = Some a -> exists t, m t = Some a.
Proof.
  induction s as [|c s IH]; cbn [Re.search]; destruct (m _) eqn:E; intros H;
    try (inversion H; subst; eauto; fail); try discriminate.
  apply IH, H.
Qed.











Lemma strOrUndefined_present s : present (Js.strOrUndefined s).
Proof. unfold present. destruct s; discriminate. Qed.

Lemma optOrUndefined_present o : present (optOrUndefined o).
Proof. unfold present, optOrUndefined. destruct o as [[|c s]|]; discriminate. Qed.


Lemma httpOnly_http o u : httpOnly o = Some u -> Js.startsWith "http" u = true.
Proof.
  unfold httpOnly. destruct o as [v|]; [| discriminate].
  destruct (Js.startsWith "http" v) eqn:E; [| discriminate].
  intros H. inversion H; subst. exact E.
Qed.

Lemma nonEmptyOrUndefined_Some {A} (l l' : list A) :
  nonEmptyOrUndefined l = Some l' -> l' = l /\ l <> [].
Proof. destruct l; [discriminate |]. intros H. inversion H; subst. split; [reflexivity | discriminate]. Qed.








Lemma matchUser_Some path id : matchUser path = Some id -> id <> EmptyString.
Proof.
  unfold matchUser. intros H. apply search_Some in H as (t & Ht).
  destruct (Re.stripPrefix "user=" t) as [r|]; [| discriminate]. cbn in Ht.
  destruct (spanNotAmp r); [discriminate |]. inversion Ht; subst. discriminate.
Qed.

Lemma parseCoauthor_Some el c :
  parseCoauthor el = Some c ->
  CoAuthor.name c <> EmptyString /\ CoAuthor.scholarId c <> EmptyString
  /\ present (CoAuthor.affiliation c).
Proof.
  unfold parseCoauthor.
  destruct (cleanText (Cheerio.text (Cheerio.co_a el))) eqn:En; [discriminate |].
  destruct (_ ≫= matchUser) as [id|] eqn:Eid; [| discriminate].
  intros H. inversion H; subst; clear H.
  cbn [CoAuthor.name CoAuthor.scholarId CoAuthor.affiliation].
  split; [discriminate |]. split; [| apply strOrUndefined_present].
  destruct (Cheerio.href (Cheerio.co_a el)) as [path|]; [| discriminate]. cbn in Eid.
  eapply matchUser_Some; eauto.
Qed.

Lemma parseAuthorProfile_fields scholarId url doc :
  let a := parseAuthorProfile scholarId url doc in
  Author.scholarId a = scholarId /\ Author.url a = url
  /\ present (Author.affiliation a) /\ present (Author.emailDomain a)
  /\ present (Author.homepage a)
  /\ Author.interests a <> Some []
  /\ (forall l, Author.interests a = Some l -> Forall (fun i => i <> EmptyString) l)
  /\ Author.coauthors a <> Some []
  /\ (forall l, Author.coauthors a = Some l ->
                Forall (fun c => CoAuthor.name c <> EmptyString
                                 /\ CoAuthor.scholarId c <> EmptyString
                                 /\ present (CoAuthor.affiliation c)) l)
  /\ Author.citationsByYear a <> Some []
  /\ Forall (fun p => Publication.title p <> EmptyString) (Author.publications a)
  /\ (forall u, Author.imageUrl a = Some u -> Js.startsWith "http" u = true).
Proof.
  cbv zeta. unfold parseAuthorProfile.
  cbn [Author.scholarId Author.url Author.affiliation Author.emailDomain Author.homepage
       Author.interests Author.coauthors Author.citationsByYear Author.publications
       Author.imageUrl].
  split; [reflexivity |]. split; [reflexivity |].
  split; [apply strOrUndefined_present |]. split; [apply strOrUndefined_present |].
  split; [apply optOrUndefined_present |].
  split; [intros E; apply nonEmptyOrUndefined_Some in E as [E1 E2]; congruence |].
  split.
  { intros l E. apply nonEmptyOrUndefined_Some in E as [-> _].
    apply Forall_forall. intros i Hi. apply list_elem_of_filter in Hi as [Hi _]. exact Hi. }
  split; [intros E; apply nonEmptyOrUndefined_Some in E as [E1 E2]; congruence |].
  split.
  { intros l E. apply nonEmptyOrUndefined_Some in E as [-> _].
    apply Forall_forall. intros c Hc. apply list_elem_of_omap in Hc as (el & _ & Hel).
    eapply parseCoauthor_Some; eauto. }
  split; [intros E; apply nonEmptyOrUndefined_Some in E as [E1 E2]; congruence |].
  split; [| intros u; apply httpOnly_http].
  apply Forall_forall. intros p Hp. apply list_elem_of_omap in Hp as (el & _ & Hel).
  apply parseProfileRow_Some in Hel as [_ Ht]. exact Ht.
Qed.

(** A profile is returned exactly for a page that has the name element,
    and NOT_FOUND is thrown exactly for a page that lacks it; the other
    failures are those of the fetch.  A profile carries the identifier
    asked for and the URL it was read from.  Its optional texts and
    lists are absent rather than empty, the interests listed are
    non-empty, every co-author has a name and an identifier, every
    publication a title, and the image link starts with [http]. *)
Theorem profile_fields env scholarId w out w' :
  getAuthorProfile env scholarId w = Some (out, w') ->
  Js.trim scholarId <> EmptyString ->
  match out with
  | Return a =>
      (exists html,
          scholar_get env (requests w' - 1) (buildAuthorProfileUrl scholarId) = Resolved html
          /\ Cheerio.gsc_prf_in (cheerio_load env html) <> [])
      /\ Author.scholarId a = scholarId
      /\ Author.url a = buildAuthorProfileUrl scholarId
      /\ present (Author.affiliation a) /\ present (Author.emailDomain a)
      /\ present (Author.homepage a)
      /\ Author.interests a <> Some []
      /\ (forall l, Author.interests a = Some l -> Forall (fun i => i <> EmptyString) l)
      /\ Author.coauthors a <> Some []
      /\ (forall l, Author.coauthors a = Some l ->
                    Forall (fun c => CoAuthor.name c <> EmptyString
                                     /\ CoAuthor.scholarId c <> EmptyString
                                     /\ present (CoAuthor.affiliation c)) l)
      /\ Author.citationsByYear a <> Some []
      /\ Forall (fun p => Publication.title p <> EmptyString) (Author.publications a)
      /\ (forall u, Author.imageUrl a = Some u -> Js.startsWith "http" u = true)
  | Throw e =>
      exists se,
        e = IsScholarError se
        /\ ((code se = NOT_FOUND
             /\ exists html,
                  scholar_get env (requests w' - 1) (buildAuthorProfileUrl scholarId)
                  = Resolved html
                  /\ Cheerio.gsc_prf_in (cheerio_load env html) = [])
            \/ In (code se) [RATE_LIMITED; BLOCKED; NETWORK_ERROR])
  end.
Proof.
  intros H Hid. unfold getAuthorProfile in H.
  rewrite bool_decide_eq_false_2 in H by exact Hid.
  apply bind_Some in H as [(html & w1 & Hf & H) | (e & Hf & ->)].
  - apply fetch_cases in Hf as (_ & _ & Hg & _).
    destruct (Cheerio.gsc_prf_in (cheerio_load env html)) eqn:E; inversion H; subst.
    + eexists. split; [reflexivity |]. left. split; [reflexivity |]. eauto.
    + split; [exists html; split; [exact Hg | rewrite E; discriminate] |].
      apply parseAuthorProfile_fields.
  - apply ensures_fetch in Hf as (se & -> & Hin). eauto.
Qed.

Lemma profile_fields_witness :
  exists a w',
    getAuthorProfile (Example.env Example.source) "abc" (Example.start Example.primaryOnly)
    = Some (Return a, w')
    /\ Author.scholarId a = "abc"
    /\ Author.coauthors a <> Some [].
Proof.
  destruct (getAuthorProfile (Example.env Example.source) "abc"
              (Example.start Example.primaryOnly)) as [[[a|e] w']|] eqn:E;
    [| vm_compute in E; discriminate | vm_compute in E; discriminate].
  pose proof (profile_fields (Example.env Example.source) "abc"
                (Example.start Example.primaryOnly) (Return a) w' E) as H.
  cbv beta iota in H. destruct H as (_ & Hid & _ & _ & _ & _ & _ & _ & Hco & _).
  - vm_compute. discriminate.
  - exists a, w'. auto.
Defined.


(** ** The result of a citation search *)

(** What [getCitations] returns is built from whole pages: the citations
    are the first [numResults] of the pages' records, [hasMore] tells
    whether the pages hold that many, and the next offset is the start
    plus ten for each page.  The total comes from one more request, to
    the URL without offset or sort order: it is the number in that page's
    [About ... results] header and, without such a header, the number of
    records collected (before the cut to [numResults]).  When that last
    request fails the call fails with it, whatever was collected. *)
Theorem citation_results env fuel o w :
  let id := CitationSearchOptions.clusterId o in
  let n := default 10 (CitationSearchOptions.numResults o) in
  let start := default 0 (CitationSearchOptions.startIndex o) in
  Js.trim id <> EmptyString ->
  (forall r w',
      getCitations env fuel o w = Some (Return r, w') ->
      CitationSearchResult.originalPublication r = Some (EmptyString, id)
      /\ exists (pages : list (list Publication.t)) html,
           CitationSearchResult.citations r = Arr.slice0 n (concat pages)
           /\ Forall (fun page => page <> []) pages
           /\ CitationSearchResult.hasMore r = Some (n <=? Z.of_nat (length (concat pages)))
           /\ CitationSearchResult.nextStartIndex r
              = Some (start + 10 * Z.of_nat (length pages))
           /\ scholar_get env (requests w' - 1) (buildCitationUrl id None None) = Resolved html
           /\ CitationSearchResult.totalCitations r
              = match matchAboutResults
                        (Cheerio.text (Cheerio.gs_ab_mdw (cheerio_load env html))) with
                | Some g => Js.parseInt (dropCommas g)
                | None => Some (Z.of_nat (length (concat pages)))
                end)
  /\ (forall citations cur w1 e w2,
         paginate env fuel
                  (fun s => buildCitationUrl id (Some s) (CitationSearchOptions.sortBy o))
                  (Publication.set_source CITATION) n [] start w
         = Some (Return (citations, cur), w1) ->
         fetch env (buildCitationUrl id None None) w1 = Some (Throw e, w2) ->
         getCitations env fuel o w = Some (Throw e, w2)).
Proof.
  intros id n start Hid. split.
  - intros r w' H. unfold getCitations in H. fold id n start in H.
    rewrite bool_decide_eq_false_2 in H by exact Hid.
    apply bind_Some in H as [([citations cur] & w1 & Hp & H) | (e & _ & ?)]; [| discriminate].
    apply bind_Some in H as [(html & w2 & Hf & H) | (e & _ & ?)]; [| discriminate].
    inversion H; subst; clear H.
    apply paginate_collect, collect_shape in Hp
      as (pages & Hrec & Hall & Hoff & _ & _).
    cbn [app] in Hrec. subst citations.
    apply fetch_cases in Hf as (_ & _ & Hg & _).
    cbn [CitationSearchResult.originalPublication CitationSearchResult.citations
         CitationSearchResult.hasMore CitationSearchResult.nextStartIndex
         CitationSearchResult.totalCitations].
    split; [reflexivity |]. exists pages, html.
    split; [reflexivity |]. split; [exact Hall |]. split; [reflexivity |].
    split; [rewrite Hoff; reflexivity |]. split; [exact Hg | reflexivity].
  - intros citations cur w1 e w2 Hp Hf. unfold getCitations. fold id n start.
    rewrite bool_decide_eq_false_2 by exact Hid.
    unfold bind at 1. rewrite Hp. unfold bind at 1. rewrite Hf. reflexivity.
Qed.

Lemma citation_results_witness :
  exists r w',
    getCitations (Example.env Example.source) 10 Example.citationsOf123
                 (Example.start Example.primaryOnly) = Some (Return r, w')
    /\ CitationSearchResult.originalPublication r = Some (EmptyString, "123").
Proof.
  destruct (getCitations (Example.env Example.source) 10 Example.citationsOf123
              (Example.start Example.primaryOnly)) as [[[r|e] w']|] eqn:E;
    [| vm_compute in E; discriminate | vm_compute in E; discriminate].
  destruct (citation_results (Example.env Example.source) 10 Example.citationsOf123
              (Example.start Example.primaryOnly)) as [H _].
  - vm_compute. discriminate.
  - exists r, w'. split; [reflexivity |]. apply (H r w' E).
Defined.

(** ** One provider for each result *)

Lemma noSerpApiTraffic_refl w : noSerpApiTraffic w w.
Proof. exists []. split; [symmetry; apply app_nil_r | reflexivity]. Qed.

(** The pagination loop leaves the selector alone and sends nothing to
    the alternate provider. *)
Lemma paginate_quiet env fuel build tag numResults pubs cur w out w' :
  paginate env fuel build tag numResults pubs cur w = Some (out, w') ->
  selectorUntouched w w' /\ noSerpApiTraffic w w'.
Proof.
  intros H.
  pose (R := fun a b : World => selectorUntouched a b /\ noSerpApiTraffic a b).
  assert (Hrefl : forall a, R a a).
  { intros a. split; [repeat split | apply noSerpApiTraffic_refl]. }
  assert (Htrans : forall a b d, R a b -> R b d -> R a d).
  { intros a b d ((F1 & C1 & S1) & (e1 & T1 & N1)) ((F2 & C2 & S2) & (e2 & T2 & N2)).
    split; [repeat split; congruence |].
    exists (e1 ++ e2)%list. split; [rewrite T2, T1, app_assoc; reflexivity |].
    rewrite forallb_app, N1, N2. reflexivity. }
  assert (Hquiet : forall (f : World -> World),
             (forall a, useSerpApiFallback (f a) = useSerpApiFallback a
                        /\ config (f a) = config a /\ cache (f a) = cache a
                        /\ trace (f a) = trace a) ->
             forall a, R a (f a)).
  { intros f Hf a. destruct (Hf a) as (? & ? & ? & Ht).
    split; [repeat split; assumption |].
    exists []. split; [rewrite app_nil_r; exact Ht | reflexivity]. }
  assert (Hemit : forall ev a, isSerpApiEvent ev = false -> R a (emit ev a)).
  { intros ev a Hev. split; [repeat split |].
    exists [ev]. split; [reflexivity |]. cbn. rewrite Hev. reflexivity. }
  eapply (preserves_paginate R); [exact Hrefl | exact Htrans | | | | | | | exact H];
    try (intros; apply (Hquiet (set_now _)); intros; repeat split);
    try (intros; apply (Hquiet (set_lastRequestTime _)); intros; repeat split);
    try (intros a; apply (Hquiet (fun x => set_requests (S (requests a)) x)); intros; repeat split);
    try (intros a; apply (Hquiet (fun x => set_draws (S (draws a)) x)); intros; repeat split);
    try (intros; apply Hemit; reflexivity).
Qed.

Lemma serpapi_returns env o w r w' :
  isSerpApiAvailable (config w) = true ->
  searchPublicationsSerpApi env o w = Some (Return r, w') ->
  Forall (fun p => Publication.source p = Some SERPAPI) (PublicationSearchResult.publications r)
  /\ PublicationSearchResult.filters r = None
  /\ useSerpApiFallback w' = useSerpApiFallback w
  /\ exists key, Config.serpApiKey (config w) = Some key
                 /\ trace w' = (trace w ++ [EvSerpApiGet (serpSearchParams key o)])%list.
Proof.
  intros Hav H. unfold isSerpApiAvailable in Hav. apply andb_true_iff in Hav as [Hkey _].
  destruct (Config.serpApiKey (config w)) as [key|] eqn:Ek; [| discriminate].
  assert (Hne : key <> EmptyString) by (intros ->; discriminate).
  rewrite (searchPublicationsSerpApi_run env o w key Ek Hne) in H. cbv zeta in H.
  destruct (serpapi_get env (requests w) _) as [data|m]; [| discriminate].
  destruct (truthyStr (SerpApiResponse.error data)); [discriminate |].
  inversion H; subst; clear H.
  cbn [PublicationSearchResult.publications PublicationSearchResult.filters].
  split; [| split; [reflexivity | split; [reflexivity | exists key; split; reflexivity]]].
  apply Forall_forall. intros p Hp. apply list_elem_of_fmap in Hp as (x & -> & _). reflexivity.
Qed.

(** A result of [searchPublications] comes from one provider.  Either
    every record is tagged PUBLICATION_SEARCH, the selector is as it
    was and nothing was sent to the alternate provider; or every record
    is tagged SERPAPI, the selector is set afterwards, the result
    carries no filters, and the call ended with the one request to the
    alternate provider, built from the options as they were given --
    what earlier pages of the primary had yielded is dropped. *)
Theorem results_never_mix_providers env fuel o w r w' :
  searchPublications env fuel o w = Some (Return r, w') ->
  (Forall (fun p => Publication.source p = Some PUBLICATION_SEARCH)
          (PublicationSearchResult.publications r)
   /\ useSerpApiFallback w' = useSerpApiFallback w
   /\ noSerpApiTraffic w w'
   /\ PublicationSearchResult.filters r <> None)
  \/ (Forall (fun p => Publication.source p = Some SERPAPI)
             (PublicationSearchResult.publications r)
      /\ useSerpApiFallback w' = true
      /\ isSerpApiAvailable (config w) = true
      /\ PublicationSearchResult.filters r = None
      /\ exists key w1,
           Config.serpApiKey (config w) = Some key
           /\ noSerpApiTraffic w w1
           /\ trace w' = (trace w1 ++ [EvSerpApiGet (serpSearchParams key o)])%list).
Proof.
  intros H. unfold searchPublications, bind at 1, gets in H. cbv beta iota in H.
  unfold bind at 1 in H. cbv beta iota in H.
  destruct (useSerpApiFallback w && isSerpApiAvailable (config w)) eqn:Halt.
  - right. apply andb_true_iff in Halt as [Hflag Hav].
    destruct (serpapi_returns env o w r w' Hav H) as (Hs & Hf & Hfl & key & Hk & Ht).
    split; [exact Hs |]. split; [congruence |]. split; [exact Hav |]. split; [exact Hf |].
    exists key, w. split; [exact Hk |]. split; [apply noSerpApiTraffic_refl | exact Ht].
  - destruct (bool_decide _); [discriminate |].
    apply bind_Some in H as [(outcome & w2 & Ht & H) | (e & _ & ?)]; [| discriminate].
    apply tryCatch_Some in Ht as [(a & Hm & Ha) | (e1 & w1 & Hm & Hh)].
    + left. inversion Ha; subst a; clear Ha.
      apply bind_Some in Hm as [([pubs cur] & w3 & Hp & Hr) | (e & _ & ?)]; [| discriminate].
      inversion Hr; subst; clear Hr. inversion H; subst; clear H.
      destruct (paginate_quiet _ _ _ _ _ _ _ _ _ _ Hp) as [(Hfl & _) Hq].
      cbn [PublicationSearchResult.publications PublicationSearchResult.filters].
      split; [| split; [exact Hfl | split; [exact Hq | discriminate]]].
      apply Forall_slice0.
      apply (ensures_paginate env (searchUrlOf o) id _
               (fun p => Publication.source p = Some PUBLICATION_SEARCH)) in Hp;
        [exact Hp | | constructor].
      intros el p Hel. eapply parsePublicationCard_source; eauto.
    + right.
      apply bind_Some in Hm as [(st & w3 & _ & ?) | (e2 & Hp & E)]; [discriminate |].
      inversion E; subst e2; clear E.
      destruct (paginate_quiet _ _ _ _ _ _ _ _ _ _ Hp) as [(_ & Hcfg & _) Hq].
      unfold bind at 1, gets in Hh. cbv beta iota in Hh.
      destruct (isBlockingError e1 && isSerpApiAvailable (config w1)) eqn:Hb;
        [| discriminate].
      apply andb_true_iff in Hb as [_ Hav].
      unfold bind at 1, modify in Hh. cbv beta iota in Hh.
      apply bind_Some in Hh as [(r' & w3 & Hs & Hr) | (e2 & _ & ?)]; [| discriminate].
      inversion Hr; subst; clear Hr. inversion H; subst; clear H.
      destruct (serpapi_returns env o (set_useSerpApiFallback true w1) r w' Hav Hs)
        as (Hsrc & Hf & Hfl & key & Hk & Htr).
      split; [exact Hsrc |]. split; [rewrite Hfl; reflexivity |].
      split; [rewrite <- Hcfg; exact Hav |]. split; [exact Hf |].
      exists key, w1. split; [rewrite <- Hcfg; exact Hk |]. split; [exact Hq | exact Htr].
Qed.

Lemma results_never_mix_providers_witness :
  exists r w',
    searchPublications (Example.env Example.challenging) 10 Example.transformerSearch
                       (Example.start Example.withAlternate) = Some (Return r, w')
    /\ Forall (fun p => Publication.source p = Some SERPAPI)
              (PublicationSearchResult.publications r)
    /\ useSerpApiFallback w' = true.
Proof.
  destruct (searchPublications (Example.env Example.challenging) 10 Example.transformerSearch
              (Example.start Example.withAlternate)) as [[[r|e] w']|] eqn:E;
    [| vm_compute in E; discriminate | vm_compute in E; discriminate].
  exists r, w'. split; [reflexivity |].
  destruct (results_never_mix_providers _ _ _ _ _ _ E)
    as [(_ & Hfl & _) | (Hs & Hfl & _)]; [| auto].
  exfalso. assert (Hw : useSerpApiFallback w' = true)
    by (vm_compute in E; inversion E; reflexivity).
  rewrite Hw in Hfl. discriminate.
Defined.
